(** * Verification of the advisor router and artifact handling

    A shallow embedding of the routing, adapter and download code of the
    multi-advisor chat bot, and the properties its specification states.

    Sources embedded here:
    - [AskMeChatBot.py]: [load_config] and the settings read at start-up,
      the adapters [get_*_advice], [format_response],
      [detect_intent_with_genai], [process_user_query], [chat],
      [download_pdf], [download_report];
    - [func_replica.py]: [detect_intent], the [advisor_*] adapters,
      [process_chat], [process_download], the object-storage helpers,
      [parse_body] and [handler];
    - [mcp_servers/base_server.py] and [mcp_servers/advisors.py]: the
      server objects, their registration and their [handle_request];
    - [RCOEGenAIAgents.py]: the registry of the servers,
      [detect_intent_with_genai], [route_to_mcp_server],
      [list_mcp_servers], [chat], [download_pdf], [download_report].

    Conventions.  A Python [str] is modelled by [string], read as the UTF-8
    bytes of the text.  White space is the white space of [str.isspace],
    inside and outside ASCII.  [lower] maps the letters of ASCII and the
    two characters outside ASCII whose lower case holds an ASCII letter;
    every test the code makes on a lower-cased text is a test against an
    ASCII text, and has the result it has in Python.  [upper] maps the
    letters of ASCII.  Module-level configuration becomes a record that
    is passed explicitly.  Calls that leave the process (HTTP requests, the
    generative service, [time.sleep], [uuid.uuid4], the clock) are nodes of
    an effect tree [Prog], so that "no network call" and "at most three
    attempts" are statements about the tree. *)

From Stdlib Require Import ZArith Lia Bool Ascii Sorted.
From stdpp Require Import strings gmap list pretty.

(** ** Decorative glyphs

    The byte sequences are the ones of the source file. *)

Definition icon_robot : string := "ðŸ¤–".
Definition icon_money : string := "ðŸ’°".
Definition icon_people : string := "ðŸ‘¥".
Definition icon_box : string := "ðŸ“¦".
Definition icon_chart : string := "ðŸ“Š".
Definition icon_target : string := "ðŸŽ¯".
Definition icon_rule : string := "â”€".
Definition icon_bulb : string := "ðŸ’¡".
Definition icon_clock : string := "â°".
Definition icon_page : string := "ðŸ“„".
Definition icon_warn : string := "âš ï¸".
Definition icon_bullet : string := "â€¢".

(** ** Python string operations *)

Module PyStr.

Definition nl : string := String (ascii_of_nat 10) "".

Definition is_upper (c : ascii) : bool :=
  (65 <=? nat_of_ascii c)%nat && (nat_of_ascii c <=? 90)%nat.

Definition is_lower (c : ascii) : bool :=
  (97 <=? nat_of_ascii c)%nat && (nat_of_ascii c <=? 122)%nat.

Definition lower_char (c : ascii) : ascii :=
  if is_upper c then ascii_of_nat (nat_of_ascii c + 32) else c.

Definition upper_char (c : ascii) : ascii :=
  if is_lower c then ascii_of_nat (nat_of_ascii c - 32) else c.

Fixpoint map_chars (f : ascii -> ascii) (s : string) : string :=
  match s with
  | EmptyString => EmptyString
  | String c s' => String (f c) (map_chars f s')
  end.

(** The bytes of U+0130, whose lower case is [i] followed by U+0307, and
    of U+212A (the Kelvin sign), whose lower case is [k]: the two
    characters outside ASCII whose lower case holds a character of
    ASCII. *)
Definition is_dotted_I (a b : ascii) : bool :=
  (nat_of_ascii a =? 196)%nat && (nat_of_ascii b =? 176)%nat.

Definition is_kelvin (a b c : ascii) : bool :=
  (nat_of_ascii a =? 226)%nat && (nat_of_ascii b =? 132)%nat && (nat_of_ascii c =? 170)%nat.

Definition dot_above : string :=
  String (ascii_of_nat 204) (String (ascii_of_nat 135) EmptyString).

(** [s.lower()].  The letters of ASCII and the two characters above are
    mapped as [str.lower] maps them.  Any other character outside ASCII
    is left as it is; [str.lower] gives for it a text without a
    character of ASCII.  So the result holds the same characters of
    ASCII at the same places between the other characters: it equals an
    ASCII text, and an ASCII text occurs in it, exactly when this is so
    of the result of [str.lower].  The code compares lower-cased text
    with ASCII texts and looks for ASCII texts in it; it keeps a
    lower-cased text in two places only, the format of a report marker
    and the action named in the answer to an unsupported action, and
    there the text kept is that of [str.lower] when the format or the
    action holds no other character outside ASCII that [str.lower]
    changes. *)
Fixpoint lower (s : string) : string :=
  match s with
  | EmptyString => EmptyString
  | String a s1 =>
      match s1 with
      | String b s2 =>
          if is_dotted_I a b then String "i" (dot_above +:+ lower s2)
          else
            match s2 with
            | String c s3 =>
                if is_kelvin a b c then String "k" (lower s3)
                else String (lower_char a) (lower s1)
            | EmptyString => String (lower_char a) (lower s1)
            end
      | EmptyString => String (lower_char a) EmptyString
      end
  end.

(** [s.upper()] on the letters of ASCII; the code applies it to the
    format of a report only, to write it into a reply.  The adapters
    write the format [pdf]. *)
Definition upper : string -> string := map_chars upper_char.

(** [s.startswith(p)]. *)
Fixpoint startswith (p s : string) : bool :=
  match p, s with
  | EmptyString, _ => true
  | String a p', String b s' => if decide (a = b) then startswith p' s' else false
  | String _ _, EmptyString => false
  end.

(** [sub in s]. *)
Fixpoint contains (sub s : string) : bool :=
  startswith sub s
  || match s with
     | EmptyString => false
     | String _ s' => contains sub s'
     end.

(** [any(k in s for k in ks)]. *)
Definition contains_any (ks : list string) (s : string) : bool :=
  existsb (fun k => contains k s) ks.

(** [s.count(sub)]: occurrences counted from the left without overlap.
    [skip] is the number of characters of the last match still to pass. *)
Fixpoint count_from (sub s : string) (skip : nat) : nat :=
  match s with
  | EmptyString =>
      match sub with EmptyString => 1 | _ => 0 end
  | String _ s' =>
      match skip with
      | S k => count_from sub s' k
      | O =>
          if startswith sub s
          then S (count_from sub s' (String.length sub - 1))
          else count_from sub s' 0
      end
  end.

Definition count (sub s : string) : nat := count_from sub s 0.

(** [s.split(sep)] and [s.split(sep, maxsplit)] for a non-empty [sep];
    [budget = None] is the unbounded split. *)
Fixpoint split_from (sep s : string) (budget : option nat) (skip : nat)
    (cur : string) : list string :=
  match s with
  | EmptyString => [String.rev cur]
  | String c s' =>
      match skip with
      | S k => split_from sep s' budget k cur
      | O =>
          match budget with
          | Some O => [String.rev cur +:+ s]
          | _ =>
              if startswith sep s
              then String.rev cur
                     :: split_from sep s' (pred <$> budget)
                          (String.length sep - 1) EmptyString
              else split_from sep s' budget 0 (String c cur)
          end
      end
  end.

Definition split (sep s : string) : list string :=
  split_from sep s None 0 EmptyString.

Definition splitn (sep : string) (maxsplit : nat) (s : string) : list string :=
  split_from sep s (Some maxsplit) 0 EmptyString.

(** White space of [str.strip()] and [str.split()]: the characters for
    which [str.isspace] holds.  Within ASCII these are the bytes 9 to 13
    and 28 to 32. *)
Definition is_space (c : ascii) : bool :=
  let n := nat_of_ascii c in
  ((9 <=? n)%nat && (n <=? 13)%nat) || ((28 <=? n)%nat && (n <=? 32)%nat).

(** Outside ASCII, by the UTF-8 bytes of the character: U+0085 and U+00A0
    (two bytes), and U+1680, U+2000 to U+200A, U+2028, U+2029, U+202F,
    U+205F and U+3000 (three bytes). *)
Definition is_space2 (a b : ascii) : bool :=
  (nat_of_ascii a =? 194)%nat
  && ((nat_of_ascii b =? 133)%nat || (nat_of_ascii b =? 160)%nat).

Definition is_space3 (a b c : ascii) : bool :=
  let x := nat_of_ascii a in
  let y := nat_of_ascii b in
  let z := nat_of_ascii c in
  ((x =? 225)%nat && (y =? 154)%nat && (z =? 128)%nat)
  || ((x =? 226)%nat && (y =? 128)%nat
      && (((128 <=? z)%nat && (z <=? 138)%nat)
          || (z =? 168)%nat || (z =? 169)%nat || (z =? 175)%nat))
  || ((x =? 226)%nat && (y =? 129)%nat && (z =? 159)%nat)
  || ((x =? 227)%nat && (y =? 128)%nat && (z =? 128)%nat).

(** The text cut into units: a white-space character with all its bytes
    (marked [true]), any other byte alone.  In the UTF-8 bytes of a text
    the first byte of a white-space character is never a byte inside
    another character, so the units marked [true] are the white-space
    characters of the text. *)
Fixpoint units (s : string) : list (bool * string) :=
  match s with
  | EmptyString => []
  | String a s1 =>
      if is_space a then (true, String a "") :: units s1
      else
        match s1 with
        | String b s2 =>
            if is_space2 a b then (true, String a (String b "")) :: units s2
            else
              match s2 with
              | String c s3 =>
                  if is_space3 a b c
                  then (true, String a (String b (String c ""))) :: units s3
                  else (false, String a "") :: units s1
              | EmptyString => (false, String a "") :: units s1
              end
        | EmptyString => (false, String a "") :: units s1
        end
  end.

Fixpoint text_of (us : list (bool * string)) : string :=
  match us with
  | [] => EmptyString
  | u :: rest => u.2 +:+ text_of rest
  end.

(** The units without the white space at the front, and at the end. *)
Fixpoint trim_left (us : list (bool * string)) : list (bool * string) :=
  match us with
  | (true, _) :: rest => trim_left rest
  | _ => us
  end.

Definition trim_right (us : list (bool * string)) : list (bool * string) :=
  reverse (trim_left (reverse us)).

(** [s.lstrip()], [s.rstrip()] and [s.strip()]. *)
Definition lstrip (s : string) : string := text_of (trim_left (units s)).
Definition rstrip (s : string) : string := text_of (trim_right (units s)).
Definition strip (s : string) : string := text_of (trim_right (trim_left (units s))).

(** The bytes up to the next white space. *)
Fixpoint word_of (us : list (bool * string)) : string :=
  match us with
  | (false, bytes) :: rest => bytes +:+ word_of rest
  | _ => EmptyString
  end.

(** The first word of [s.split()], if any: [s.split()[0]]. *)
Definition first_word (s : string) : option string :=
  match trim_left (units s) with
  | [] => None
  | us => Some (word_of us)
  end.

(** [s.replace(old, new)] for a non-empty [old]. *)
Definition replace (old new s : string) : string :=
  String.concat new (split old s).

(** [sep.join(parts)]. *)
Definition join (sep : string) (parts : list string) : string :=
  String.concat sep parts.

(** [s * n]. *)
Fixpoint repeat_str (s : string) (n : nat) : string :=
  match n with
  | O => EmptyString
  | S k => s +:+ repeat_str s k
  end.

End PyStr.

(** ** Values, requests and the effect tree *)

Module Py.

(** JSON values as [json.loads] returns them.  Numbers are integers here;
    an object keeps its members in document order. *)
#[warnings="-register-all"]
Inductive json : Type :=
| JNull
| JBool (b : bool)
| JNum (n : Z)
| JStr (s : string)
| JArr (items : list json)
| JObj (members : list (string * json)).

(** Python truth value. *)
Definition truthy (j : json) : bool :=
  match j with
  | JNull => false
  | JBool b => b
  | JNum n => negb (n =? 0)%Z
  | JStr s => negb (String.eqb s "")
  | JArr l => match l with [] => false | _ => true end
  | JObj l => match l with [] => false | _ => true end
  end.

Fixpoint assoc {V : Type} (k : string) (l : list (string * V)) : option V :=
  match l with
  | [] => None
  | (k', v) :: rest => if String.eqb k k' then Some v else assoc k rest
  end.

(** [d.get(k)] on a decoded object; [None] is Python's [None], also for a
    member that is [null]. *)
Definition jget (k : string) (members : list (string * json)) : option json :=
  match assoc k members with
  | Some JNull => None
  | r => r
  end.

(** A configuration value as Python tests it: [None] and the empty string
    are both false. *)
Definition nonempty (o : option string) : option string :=
  match o with
  | Some s => if String.eqb s "" then None else Some s
  | None => None
  end.

(** An HTTP exchange of the [requests] library. *)
Inductive Method := GET | POST.

Inductive Payload :=
| NoBody
| TextBody (s : string)
| JsonBody (j : json).

Record Request := mkRequest {
  rq_method : Method;
  rq_url : string;
  rq_params : list (string * string);
  rq_body : Payload;
  rq_auth : option (string * string)
}.

(** [json_body] is what [resp.json()] returns, [inl msg] when it raises
    with message [msg]; [content] and [text] are the same bytes. *)
Record Response := mkResponse {
  status_code : Z;
  text : string;
  json_body : string + json
}.

Inductive HttpOutcome :=
| Responded (r : Response)
| TimedOut                        (* requests.exceptions.Timeout *)
| RequestFailed (msg : string).   (* any other RequestException *)

(** A call of the generative service. *)
Record ChatRequest := mkChat {
  chat_message : string;
  chat_max_tokens : Z
}.

Inductive ChatOutcome :=
| ChatText (s : string)       (* response.data.chat_response.text *)
| ChatEmpty                   (* no data or no chat_response *)
| ChatRaised (msg : string).  (* the client raised *)

(** The kinds of JSON value that are no object, as [json.loads] gives
    them: [None], a [bool], an [int], a [float], a [str] or a [list]. *)
Inductive JsonKind :=
| NullValue
| BoolValue
| IntValue
| FloatValue
| StrValue
| ListValue.

(** Objects of the artifact bucket, by what [json.loads] makes of their
    text: the document of a JSON object, a JSON value of another kind, or
    data that is no JSON text, on which [json.loads] raises. *)
Inductive Blob :=
| JsonObject (doc : gmap string json)
| JsonOther (kind : JsonKind)
| BinObject (data : string).

(** Programs: a value, or one call that leaves the process followed by the
    rest of the program. *)
Inductive Prog (A : Type) : Type :=
| Ret (a : A)
| Http (rq : Request) (k : HttpOutcome -> Prog A)
| Chat (rq : ChatRequest) (k : ChatOutcome -> Prog A)
| Sleep (secs : Z) (k : Prog A)
| Uuid4 (k : string -> Prog A)
| Now (fmt : string) (k : string -> Prog A)
| GetObject (key : string) (k : option Blob -> Prog A)
| PutObject (key : string) (b : Blob) (k : bool -> Prog A)
| Presign (key : string) (ttl : Z) (k : option string -> Prog A).

Arguments Ret {A} a.
Arguments Http {A} rq k.
Arguments Chat {A} rq k.
Arguments Sleep {A} secs k.
Arguments Uuid4 {A} k.
Arguments Now {A} fmt k.
Arguments GetObject {A} key k.
Arguments PutObject {A} key b k.
Arguments Presign {A} key ttl k.

Fixpoint bind {A B : Type} (p : Prog A) (f : A -> Prog B) : Prog B :=
  match p with
  | Ret a => f a
  | Http rq k => Http rq (fun o => bind (k o) f)
  | Chat rq k => Chat rq (fun o => bind (k o) f)
  | Sleep s k => Sleep s (bind k f)
  | Uuid4 k => Uuid4 (fun u => bind (k u) f)
  | Now fmt k => Now fmt (fun t => bind (k t) f)
  | GetObject key k => GetObject key (fun o => bind (k o) f)
  | PutObject key b k => PutObject key b (fun ok => bind (k ok) f)
  | Presign key ttl k => Presign key ttl (fun u => bind (k u) f)
  end.

(** What the outside gives back, in the order it is asked. *)
Inductive Answer :=
| AnsHttp (o : HttpOutcome)
| AnsChat (o : ChatOutcome)
| AnsUuid (u : string)
| AnsNow (t : string).

Inductive Event :=
| EvHttp (rq : Request) (o : HttpOutcome)
| EvChat (rq : ChatRequest) (o : ChatOutcome)
| EvSleep (secs : Z)
| EvUuid (u : string)
| EvNow (fmt t : string)
| EvGet (key : string)
| EvPut (key : string) (ok : bool)
| EvPresign (key : string).

(** The world a program runs in: scripted answers of the remote services,
    the artifact bucket, the keys on which the bucket raises, and the
    presigned URL it would hand out. *)
Record World := mkWorld {
  answers : list Answer;
  bucket : gmap string Blob;
  faulty : string -> bool;
  presigned_url : string -> option string
}.

Definition with_answers (w : World) (a : list Answer) : World :=
  mkWorld a (bucket w) (faulty w) (presigned_url w).

Definition with_bucket (w : World) (b : gmap string Blob) : World :=
  mkWorld (answers w) b (faulty w) (presigned_url w).

(** Running a program: the result, the calls made, and the world after.
    [None] when the script does not answer the call that is made. *)
Fixpoint run {A : Type} (p : Prog A) (w : World) : option (A * list Event * World) :=
  let step (e : Event) (r : option (A * list Event * World)) :=
    match r with
    | Some (a, tr, w') => Some (a, e :: tr, w')
    | None => None
    end in
  match p with
  | Ret a => Some (a, [], w)
  | Http rq k =>
      match answers w with
      | AnsHttp o :: rest => step (EvHttp rq o) (run (k o) (with_answers w rest))
      | _ => None
      end
  | Chat rq k =>
      match answers w with
      | AnsChat o :: rest => step (EvChat rq o) (run (k o) (with_answers w rest))
      | _ => None
      end
  | Sleep s k => step (EvSleep s) (run k w)
  | Uuid4 k =>
      match answers w with
      | AnsUuid u :: rest => step (EvUuid u) (run (k u) (with_answers w rest))
      | _ => None
      end
  | Now fmt k =>
      match answers w with
      | AnsNow t :: rest => step (EvNow fmt t) (run (k t) (with_answers w rest))
      | _ => None
      end
  | GetObject key k =>
      step (EvGet key)
        (run (k (if faulty w key then None else bucket w !! key)) w)
  | PutObject key b k =>
      if faulty w key
      then step (EvPut key false) (run (k false) w)
      else step (EvPut key true) (run (k true) (with_bucket w (<[key := b]> (bucket w))))
  | Presign key ttl k =>
      step (EvPresign key)
        (run (k (if faulty w key then None else presigned_url w key)) w)
  end.

End Py.

Notation "'let*' x ':=' p 'in' q" := (Py.bind p (fun x => q))
  (at level 10, x name, p at level 100, q at level 200).

(** ** Base64, as the standard library's [base64] module computes it *)

Module Base64.

Definition alphabet : string :=
  "ABCDEFGHIJKLMNOPQRSTUVWXYZabcdefghijklmnopqrstuvwxyz0123456789+/".

(** The character of a six-bit value. *)
Definition enc6 (n : N) : ascii :=
  match String.get (N.to_nat n) alphabet with
  | Some c => c
  | None => "="%char
  end.

(** The six-bit value of a character of the alphabet. *)
Definition dec6 (c : ascii) : option N :=
  let n := N_of_ascii c in
  if (65 <=? n)%N && (n <=? 90)%N then Some (n - 65)%N
  else if (97 <=? n)%N && (n <=? 122)%N then Some (n - 71)%N
  else if (48 <=? n)%N && (n <=? 57)%N then Some (n + 4)%N
  else if (n =? 43)%N then Some 62%N
  else if (n =? 47)%N then Some 63%N
  else None.

Definition byte_of (n : N) : ascii := ascii_of_N (n mod 256).

(** [base64.b64encode(data)]: three bytes give four characters; one or two
    left-over bytes are padded with [=]. *)
Fixpoint b64encode (data : string) : string :=
  match data with
  | EmptyString => EmptyString
  | String a EmptyString =>
      let x := N_of_ascii a in
      String (enc6 (x / 4)) (String (enc6 ((x mod 4) * 16)) "==")
  | String a (String b EmptyString) =>
      let x := N_of_ascii a in
      let y := N_of_ascii b in
      String (enc6 (x / 4))
        (String (enc6 ((x mod 4) * 16 + y / 16))
           (String (enc6 ((y mod 16) * 4)) "="))
  | String a (String b (String c rest)) =>
      let x := N_of_ascii a in
      let y := N_of_ascii b in
      let z := N_of_ascii c in
      String (enc6 (x / 4))
        (String (enc6 ((x mod 4) * 16 + y / 16))
           (String (enc6 ((y mod 16) * 4 + z / 64))
              (String (enc6 (z mod 64)) (b64encode rest))))
  end.

(** The decoder's state: the position in the current group of four, the
    bits left over from the previous character, the [=] seen since the
    last data character, and the bytes produced so far (newest first). *)
Record dstate := mkD {
  quad_pos : nat;
  leftchar : N;
  pads : nat;
  out : string
}.

(** [binascii.a2b_base64] without strict mode, which is what
    [base64.b64decode(s)] calls: characters outside the alphabet are
    skipped, a sufficient run of [=] ends the input, and an incomplete
    final group raises [binascii.Error] ([None]). *)
Fixpoint a2b (s : string) (st : dstate) : option string :=
  match s with
  | EmptyString =>
      match quad_pos st with
      | O => Some (String.rev (out st))
      | _ => None
      end
  | String c s' =>
      if decide (c = "="%char) then
        if (2 <=? quad_pos st)%nat && (4 <=? quad_pos st + S (pads st))%nat
        then Some (String.rev (out st))
        else a2b s' (mkD (quad_pos st) (leftchar st)
                       (if (2 <=? quad_pos st)%nat then S (pads st) else pads st)
                       (out st))
      else
        match dec6 c with
        | None => a2b s' st
        | Some v =>
            match quad_pos st with
            | 0%nat => a2b s' (mkD 1 v 0 (out st))
            | 1%nat =>
                a2b s' (mkD 2 (v mod 16) 0
                          (String (byte_of (leftchar st * 4 + v / 16)) (out st)))
            | 2%nat =>
                a2b s' (mkD 3 (v mod 4) 0
                          (String (byte_of (leftchar st * 16 + v / 4)) (out st)))
            | _ =>
                a2b s' (mkD 0 0 0
                          (String (byte_of (leftchar st * 64 + v)) (out st)))
            end
        end
  end.

(** [base64.b64decode(s)] for a [str] argument: non-ASCII text raises
    [ValueError], undecodable text raises [binascii.Error]; both are
    [None]. *)
Fixpoint is_ascii (s : string) : bool :=
  match s with
  | EmptyString => true
  | String c s' => (nat_of_ascii c <? 128)%nat && is_ascii s'
  end.

Definition b64decode (s : string) : option string :=
  if is_ascii s then a2b s (mkD 0 0 0 EmptyString) else None.

End Base64.

(** ** AskMeChatBot.py: configuration, tables and adapters *)

Module AskMe.
Import Py.

Definition dq : string := String (ascii_of_nat 34) "".
Definition nl : string := PyStr.nl.

(** The module-level settings the functions read. [genai_client] says
    whether the client of the generative service was created. *)
Record Config := mkConfig {
  USE_MOCK_RESPONSES : bool;
  genai_client : bool;
  GENAI_INTENT_MODE : string;
  CONFIG : gmap string string
}.

(** A point of time as [datetime] compares it: a naive value counts from
    [datetime.min], an aware value is an instant on the UTC time line. *)
Inductive datetime :=
| Naive (t : Z)
| Aware (t : Z).

Definition datetime_min : datetime := Naive 0.

(** [a < b]; [None] is the [TypeError] of comparing a naive with an aware
    value. *)
Definition dt_lt (a b : datetime) : option bool :=
  match a, b with
  | Naive x, Naive y => Some (x <? y)%Z
  | Aware x, Aware y => Some (x <? y)%Z
  | _, _ => None
  end.

Definition cant_compare : string :=
  "can't compare offset-naive and offset-aware datetimes".

(** Library functions and payload decoders the adapters call, taken as
    given:
    - [re_report_bytes text]: group 1 of
      [re.search(r'<[^:]+:reportBytes>([^<]+)</[^:]+:reportBytes>', text)];
    - [re_order_key], [re_long_id]: group 0 of the searches for
      [\b[A-Z]{2,10}:\d{9,}\b] and [\b\d{9,15}\b];
    - [fromisoformat]: [datetime.fromisoformat], [None] when it raises;
    - [str_json j]: [str(j)], the text an f-string gives a decoded value;
    - [exc_text j]: the message of the exception Python raises on a payload
      [j] of a shape the code cannot read;
    - [agent_reply r]: what [call_agent_api] extracts from a 200 response
      (lines 244-292), [None] when that is empty or raises;
    - [order_detail key r]: the text [get_orders_advice] builds from the
      200 response of the detail request (lines 506-525). *)
Record Library := mkLibrary {
  re_report_bytes : string -> option string;
  re_order_key : string -> option string;
  re_long_id : string -> option string;
  fromisoformat : string -> option datetime;
  str_json : json -> string;
  exc_text : json -> string;
  agent_reply : Response -> option string;
  order_detail : string -> Response -> string
}.

(** [MOCK_RESPONSES], each table in the order of the source. *)
Definition MOCK_general : list (string * string) :=
  [("help",
     "I am a General Agent that can assist you with Finance, HR, or Orders queries. I can route your questions to specialized advisors or provide general information.");
   ("capabilities",
     "I can help you with:
â€¢ Financial queries (revenue, budgets, expenses)
â€¢ HR policies (benefits, leave, work policies)
â€¢ Order management (status, inventory, returns)
â€¢ General information and routing");
   ("services",
     "Our advisory system provides specialized assistance through dedicated agents for Finance, HR, and Orders. Ask me anything and I'll connect you with the right expert.")].

Definition MOCK_finance : list (string * string) :=
  [("revenue",
     "Based on our financial analysis, the Q3 revenue shows a 15% increase YoY with strong performance in APAC region.");
   ("expenses",
     "Current expense trends indicate a 10% reduction in operational costs due to automation initiatives.");
   ("budget",
     "The annual budget allocation shows 40% for R&D, 30% for Operations, and 30% for Marketing.")].

Definition MOCK_hr : list (string * string) :=
  [("policy",
     "Our work-from-home policy allows 3 days remote work per week with core hours from 10 AM to 4 PM.");
   ("benefits",
     "Employee benefits include comprehensive health insurance, 401k matching up to 6%, and annual learning allowance.");
   ("leave",
     "Annual leave policy includes 20 days PTO, 10 sick days, and additional floating holidays.")].

Definition MOCK_orders : list (string * string) :=
  [("status",
     "Current order fulfillment rate is at 95% with average delivery time of 2.3 days.");
   ("inventory",
     "Warehouse inventory levels are optimal with 98% stock availability.");
   ("returns",
     "Return rate is below industry average at 2.3% with high customer satisfaction.")].

Definition MOCK_reports : list (string * string) :=
  [("workbook",
     "Your OAC workbook export is being prepared. This typically takes a few moments.");
   ("analytics",
     "Analytics workbook export service is ready. Request a report and I'll generate it for you.");
   ("export",
     "Workbook export completed successfully. Download is ready.")].

Definition soap_body : string :=
  "<?xml version=" +:+ dq +:+ "1.0" +:+ dq +:+ " encoding=" +:+ dq +:+ "UTF-8" +:+ dq +:+ "?>
<soap:Envelope xmlns:soap=" +:+ dq +:+ "http://www.w3.org/2003/05/soap-envelope" +:+ dq +:+ " xmlns:pub=" +:+ dq +:+ "http://xmlns.oracle.com/oxp/service/PublicReportService" +:+ dq +:+ ">
   <soap:Header/>
   <soap:Body>
      <pub:runReport>
         <pub:reportRequest>
            <pub:attributeFormat>pdf</pub:attributeFormat>
            <pub:parameterNameValues>
               <pub:item>
                  <pub:name>P_PO_NUM</pub:name>
                  <pub:values>
                     <pub:item>55269</pub:item>
                  </pub:values>
               </pub:item>
            </pub:parameterNameValues>
            <pub:reportAbsolutePath>/Custom/ROIC/ROIC_PO_REPORTS.xdo</pub:reportAbsolutePath>
            <pub:sizeOfDataChunkDownload>-1</pub:sizeOfDataChunkDownload>
         </pub:reportRequest>
         <pub:appParams></pub:appParams>
      </pub:runReport>
   </soap:Body>
</soap:Envelope>".

(** [system_prompt.format(prompt=prompt)]. *)
Definition classification_prompt (prompt : string) : string :=
  "You are an intent classification assistant for a multi-agent advisory system.
Based on the user's question, determine which advisor should handle it.

Available advisors:
- general: General inquiries, help, capabilities, services overview
- finance: Revenue, budget, expenses, costs, financial reports, profit/loss
- hr: HR policies, benefits, leave, employee matters, work policies, holidays
- orders: Sales orders, inventory, delivery, returns, shipping, stock, products
- reports: Analytics, workbooks, dashboards, OAC exports, visualizations

Respond with ONLY ONE WORD - the advisor name (general, finance, hr, orders, or reports).
If the query could match multiple advisors, choose the most relevant one.

User question: "
  +:+ prompt +:+
  "

Answer (one word only):".

(** [advisor_keywords] of [process_user_query]. *)
Definition general_keywords : list string :=
  ["general"; "help"; "what can you do"; "capabilities"; "services"; "assist"; "how can"; "what do you"; "tell me about"; "who are you"; "what services"; "nlp"; "nlp2sql"].

Definition finance_keywords : list string :=
  ["finance"; "revenue"; "budget"; "expense"; "cost"; "money"; "financial"; "profit"; "loss"].

Definition hr_keywords : list string :=
  ["hr"; "policy"; "benefit"; "leave"; "employee"; "work"; "holiday"; "vacation"; "staff"].

Definition orders_keywords : list string :=
  ["order"; "inventory"; "delivery"; "return"; "shipping"; "stock"; "product"; "item"; "sales"].

Definition reports_keywords : list string :=
  ["workbook"; "analytics"; "export"; "oac"; "dashboard"; "visualization"].

Definition database_keywords : list string :=
  ["list"; "show"; "get"; "find"; "search"; "query"; "select"; "count"; "sum"; "average"; "table"; "database"; "record"; "data"; "customer"; "employee"; "product"; "item"; "all"; "total"; "how many"; "sql"; "translate"].

Definition title_general : string := "General Agent " +:+ icon_robot.
Definition title_finance : string := "Finance Advisor " +:+ icon_money.
Definition title_hr : string := "HR Advisor " +:+ icon_people.
Definition title_orders : string := "Orders Advisor " +:+ icon_box.
Definition title_reports : string := "Reports Advisor " +:+ icon_chart.

(** [table[key]] for a key of the table. *)
Definition item (key : string) (table : list (string * string)) : string :=
  default "" (assoc key table).

(** The mock answer: the response of the first keyword of the table that
    occurs in the lower-cased query, else the table's default entry. *)
Definition mock_reply (table : list (string * string)) (dflt : string)
    (query_lower : string) : string :=
  match find (fun kv => PyStr.contains kv.1 query_lower) table with
  | Some kv => kv.2
  | None => item dflt table
  end.

Definition basic_auth (user password : option string) : option (string * string) :=
  match nonempty user, nonempty password with
  | Some u, Some p => Some (u, p)
  | _, _ => None
  end.

(** [sorted(items, key=key, reverse=True)]: a stable sort into descending
    order that compares keys with [<] only; [None] when a comparison
    raises.  Every element is compared with a neighbour, so keys that
    cannot all be compared with each other always raise. *)
Fixpoint insert_desc {A : Type} (key : A -> datetime) (x : A) (l : list A)
    : option (list A) :=
  match l with
  | [] => Some [x]
  | y :: l' =>
      match dt_lt (key x) (key y) with
      | None => None
      | Some true => cons y <$> insert_desc key x l'
      | Some false => Some (x :: l)
      end
  end.

Fixpoint sorted_desc {A : Type} (key : A -> datetime) (l : list A)
    : option (list A) :=
  match l with
  | [] => Some []
  | x :: l' =>
      match sorted_desc key l' with
      | Some s => insert_desc key x s
      | None => None
      end
  end.

Section Adapters.
Context (lib : Library) (cfg : Config).

(** [call_agent_api]: [None] without any request in mock mode or when the
    agent has no URL; otherwise one GET, and [None] on every failure. *)
Definition call_agent_api (agent_type query : string) : Prog (option string) :=
  let agent_url := CONFIG cfg !! (agent_type +:+ "_agent_url") in
  let agent_username := CONFIG cfg !! (agent_type +:+ "_agent_username") in
  let agent_password := CONFIG cfg !! (agent_type +:+ "_agent_password") in
  match USE_MOCK_RESPONSES cfg, nonempty agent_url with
  | false, Some url =>
      Http (mkRequest GET url [("prompt", query)] NoBody
              (basic_auth agent_username agent_password))
        (fun o =>
           match o with
           | Responded r =>
               if (status_code r =? 200)%Z then Ret (agent_reply lib r) else Ret None
           | TimedOut => Ret None
           | RequestFailed _ => Ret None
           end)
  | _, _ => Ret None
  end.

Definition get_finance_advice (query : string) : Prog string :=
  if USE_MOCK_RESPONSES cfg then
    Ret (mock_reply MOCK_finance "budget" (PyStr.lower query))
  else
    match nonempty (CONFIG cfg !! "finance_agent_url") with
    | None => Ret (item "budget" MOCK_finance)
    | Some finance_url =>
        match basic_auth (CONFIG cfg !! "finance_agent_username")
                (CONFIG cfg !! "finance_agent_password") with
        | None =>
            Ret "Finance report API credentials not configured. Please check config.properties."
        | Some auth =>
            Http (mkRequest POST finance_url [] (TextBody soap_body) (Some auth))
              (fun o =>
                 match o with
                 | Responded r =>
                     if (status_code r =? 200)%Z then
                       match re_report_bytes lib (text r) with
                       | Some g => Ret ("PDF_DOWNLOAD:Finance:" +:+ PyStr.strip g)
                       | None =>
                           Ret "Report generated but PDF data not found in SOAP response."
                       end
                     else if (status_code r =? 401)%Z then
                       Ret "Finance report API authentication failed. Please verify username and password in config.properties."
                     else
                       Ret ("Finance report API error: HTTP " +:+ pretty (status_code r))
                 | TimedOut => Ret "Finance report API timeout. Please try again."
                 | RequestFailed msg => Ret ("Finance report API error: " +:+ msg)
                 end)
        end
    end.

Definition get_hr_advice (query : string) : Prog string :=
  let* api_response := call_agent_api "hr" query in
  match nonempty api_response with
  | Some r => Ret r
  | None => Ret (mock_reply MOCK_hr "policy" (PyStr.lower query))
  end.

Definition get_general_advice (query : string) : Prog string :=
  let query_lower := PyStr.lower query in
  let is_database_query := PyStr.contains_any database_keywords query_lower in
  let* api_response :=
    (if is_database_query then call_agent_api "general" query else Ret None) in
  match nonempty api_response with
  | Some r => Ret r
  | None =>
      if genai_client cfg then
        Chat (mkChat query 500)
          (fun o =>
             match o with
             | ChatText s => Ret (PyStr.strip s)
             | ChatEmpty =>
                 Ret "I apologize, but I couldn't generate a response at this time. Please try again."
             | ChatRaised msg =>
                 Ret ("I encountered an error while processing your question: " +:+ msg)
             end)
      else Ret (mock_reply MOCK_general "help" query_lower)
  end.

(** *** Orders *)

(** [_parse_dt(it.get('LastUpdateDate'))]. *)
Definition _parse_dt (s : option json) : datetime :=
  match s with
  | Some (JStr s) =>
      default datetime_min (fromisoformat lib (PyStr.replace "Z" "+00:00" s))
  | _ => datetime_min
  end.

Definition last_update_key (it : list (string * json)) : datetime :=
  _parse_dt (assoc "LastUpdateDate" it).

(** [it.get(k, 'N/A')] inside an f-string. *)
Definition field_text (k : string) (it : list (string * json)) : string :=
  match assoc k it with
  | Some (JStr s) => s
  | Some j => str_json lib j
  | None => "N/A"
  end.

Definition order_line (it : list (string * json)) : string :=
  icon_bullet +:+ " " +:+ field_text "OrderKey" it
  +:+ " | Status: " +:+ field_text "StatusCode" it
  +:+ " | By: " +:+ field_text "CreatedBy" it
  +:+ " | Updated: " +:+ field_text "LastUpdateDate" it.

(** The objects of a decoded array, [None] when an element is no object. *)
Fixpoint as_objects (l : list json) : option (list (list (string * json))) :=
  match l with
  | [] => Some []
  | JObj m :: rest => cons m <$> as_objects rest
  | _ :: _ => None
  end.

(** The text built from the 200 response of the list request
    (lines 541-572). *)
Definition orders_list_text (r : Response) : string :=
  match json_body r with
  | inl msg => "Orders API error: " +:+ msg
  | inr (JObj data) =>
      match jget "items" data with
      | Some (JArr ((x :: xs) as items)) =>
          match as_objects items with
          | None => "Orders API error: " +:+ exc_text lib (JArr items)
          | Some objs =>
              match sorted_desc last_update_key objs with
              | None => "Orders API error: " +:+ cant_compare
              | Some items_sorted =>
                  let display_items := take 10 items_sorted in
                  let total_count := length items_sorted in
                  let has_more := (10 <? total_count)%nat in
                  let result_text :=
                    "Recent Sales Orders (showing 10 of " +:+ pretty total_count
                    +:+ "):" +:+ nl +:+ PyStr.join nl (order_line <$> display_items) in
                  if has_more
                  then result_text +:+ nl +:+ nl +:+ icon_bulb
                       +:+ " Showing first 10 of " +:+ pretty total_count
                       +:+ " orders. Use specific Order ID for details."
                  else result_text
              end
          end
      | Some j =>
          if truthy j then "Orders API error: " +:+ exc_text lib j
          else "No recent sales orders were returned by the API."
      | None => "No recent sales orders were returned by the API."
      end
  | inr j => "Orders API error: " +:+ exc_text lib j
  end.

Definition orders_failure (o : HttpOutcome) : string :=
  match o with
  | TimedOut => "Orders API timeout. Please try again."
  | RequestFailed msg => "Orders API error: " +:+ msg
  | Responded r =>
      if (status_code r =? 401)%Z
      then "Orders API authentication failed. Please verify username/password in config.properties."
      else "Orders API error: HTTP " +:+ pretty (status_code r)
  end.

Definition get_orders_advice (query : string) : Prog string :=
  if USE_MOCK_RESPONSES cfg then
    Ret (mock_reply MOCK_orders "status" (PyStr.lower query))
  else
    match nonempty (CONFIG cfg !! "orders_agent_url") with
    | None => Ret (mock_reply MOCK_orders "status" (PyStr.lower query))
    | Some orders_url =>
        match basic_auth (CONFIG cfg !! "orders_agent_username")
                (CONFIG cfg !! "orders_agent_password") with
        | None =>
            Ret "Orders API credentials not configured. Please check config.properties."
        | Some auth =>
            let order_key :=
              match re_order_key lib query with
              | Some k => Some k
              | None => re_long_id lib query
              end in
            match nonempty order_key with
            | Some key =>
                Http (mkRequest GET (orders_url +:+ "/" +:+ key) [] NoBody (Some auth))
                  (fun o =>
                     match o with
                     | Responded r =>
                         if (status_code r =? 200)%Z then Ret (order_detail lib key r)
                         else if (status_code r =? 404)%Z then
                           Ret ("No sales order found for key/id '" +:+ key +:+ "'.")
                         else Ret (orders_failure o)
                     | _ => Ret (orders_failure o)
                     end)
            | None =>
                Http (mkRequest GET orders_url [("limit", "10")] NoBody (Some auth))
                  (fun o =>
                     match o with
                     | Responded r =>
                         if (status_code r =? 200)%Z then Ret (orders_list_text r)
                         else Ret (orders_failure o)
                     | _ => Ret (orders_failure o)
                     end)
            end
        end
    end.

(** *** Reports *)

Definition api_version : string := "20210901".
Definition default_workbook_id : string := "L3NoYXJlZC9SQ09FL0Fic2VuY2UgV29ya2Jvb2s".
Definition export_format : string := "pdf".

Definition export_payload : json :=
  JObj [("name", JStr "Absence Workbook Report");
        ("type", JStr "file");
        ("canvasIds", JArr [JStr "snapshot!canvas!1"]);
        ("format", JStr export_format);
        ("screenwidth", JNum 1440);
        ("screenheight", JNum 900)].

Definition is_str (s : string) (j : json) : bool :=
  match j with
  | JStr s' => String.eqb s s'
  | _ => false
  end.

(** The export id read from the response of the export request
    (lines 727-745): [inr id], or [inl text] with the text the adapter
    returns instead. *)
Definition export_id_of (r : Response) : string + string :=
  let no_id := inl "Reports API did not return an export ID." in
  let raised (j : json) := inl ("Reports API error: " +:+ exc_text lib j) in
  let from_field (export_data : list (string * json)) :=
    match jget "exportId" export_data with
    | Some (JStr s) => if String.eqb s "" then no_id else inr s
    | Some j => if truthy j then inr (str_json lib j) else no_id
    | None => no_id
    end in
  match json_body r with
  | inr (JObj export_data) =>
      match jget "resourceUri" export_data with
      | Some (JStr uri) =>
          if PyStr.contains "/exports/" uri then
            match last (PyStr.split "/exports/" uri) with
            | Some id => if String.eqb id "" then no_id else inr id
            | None => no_id
            end
          else from_field export_data
      | Some (JArr l) =>
          if existsb (is_str "/exports/") l then raised (JArr l)
          else from_field export_data
      | Some (JObj m) =>
          match assoc "/exports/" m with
          | Some _ => raised (JObj m)
          | None => from_field export_data
          end
      | Some j => if truthy j then raised j else from_field export_data
      | None => from_field export_data
      end
  | inr _ => no_id
  | inl _ => no_id
  end.

(** The download loop (lines 757-775) with [remaining] attempts to go and
    the last response received so far.  [inl text] is a request failure
    that leaves the loop for the adapter's handler. *)
Fixpoint download_attempts (remaining : nat) (rq : Request) (download_resp : option Response)
    : Prog (string + option Response) :=
  match remaining with
  | O => Ret (inr download_resp)
  | S r =>
      let pause (k : Prog (string + option Response)) :=
        if (0 <? r)%nat then Sleep 10 k else k in
      Http rq
        (fun o =>
           match o with
           | Responded resp =>
               if (status_code resp =? 200)%Z then Ret (inr (Some resp))
               else pause (download_attempts r rq (Some resp))
           | TimedOut => pause (download_attempts r rq download_resp)
           | RequestFailed msg => Ret (inl ("Reports API error: " +:+ msg))
           end)
  end.

Definition max_attempts : nat := 3.

Definition download_failed : string :=
  "Reports download failed after retries. Please try again later.".

(** Lines 749-783: the wait, the attempts and the text returned. *)
Definition download_report_after_export (rq : Request) : Prog string :=
  Sleep 30
    (let* res := download_attempts max_attempts rq None in
     match res with
     | inl text => Ret text
     | inr (Some resp) =>
         if (status_code resp =? 200)%Z then
           Ret ("REPORT_DOWNLOAD:Reports:" +:+ PyStr.upper export_format +:+ ":"
                +:+ Base64.b64encode (text resp))
         else Ret download_failed
     | inr None => Ret download_failed
     end).

Definition get_reports_advice (query : string) : Prog string :=
  if USE_MOCK_RESPONSES cfg then
    Ret (mock_reply MOCK_reports "analytics" (PyStr.lower query))
  else
    match nonempty (CONFIG cfg !! "reports_agent_url") with
    | None => Ret (mock_reply MOCK_reports "analytics" (PyStr.lower query))
    | Some reports_url =>
        match basic_auth (CONFIG cfg !! "reports_agent_username")
                (CONFIG cfg !! "reports_agent_password") with
        | None =>
            Ret "Reports API credentials not configured. Please check config.properties."
        | Some auth =>
            let workbook_id := default default_workbook_id (CONFIG cfg !! "reports_workbook_id") in
            let exports := reports_url +:+ "/api/" +:+ api_version
                           +:+ "/catalog/workbooks/" +:+ workbook_id +:+ "/exports" in
            Http (mkRequest POST exports [] (JsonBody export_payload) (Some auth))
              (fun o =>
                 match o with
                 | TimedOut => Ret "Reports API timeout. Please try again."
                 | RequestFailed msg => Ret ("Reports API error: " +:+ msg)
                 | Responded resp =>
                     let sc := status_code resp in
                     if (sc =? 200)%Z || (sc =? 201)%Z || (sc =? 202)%Z then
                       match export_id_of resp with
                       | inl text => Ret text
                       | inr export_id =>
                           download_report_after_export
                             (mkRequest GET (exports +:+ "/" +:+ export_id) [] NoBody (Some auth))
                       end
                     else if (sc =? 401)%Z then
                       Ret "Reports API authentication failed. Please verify username/password in config.properties."
                     else Ret ("Reports export API error: HTTP " +:+ pretty sc)
                 end)
        end
    end.

(** *** Assembling the answer *)

Definition has_marker (response : string) : bool :=
  PyStr.contains "PDF_DOWNLOAD:" response || PyStr.contains "REPORT_DOWNLOAD:" response.

Definition rule28 : string := PyStr.repeat_str icon_rule 28.

Definition section_text (ar : string * string) : string :=
  ar.1 +:+ nl +:+ rule28 +:+ nl +:+ ar.2 +:+ nl.

Definition hint_for (advisor_type : string) : string :=
  if String.eqb advisor_type "general" then
    nl +:+ icon_bulb +:+ " I can route your questions to Finance, HR, Orders, or Reports advisors."
  else if String.eqb advisor_type "finance" then
    nl +:+ icon_bulb +:+ " You can also ask about budgets, expenses, or revenue forecasts."
  else if String.eqb advisor_type "hr" then
    nl +:+ icon_bulb +:+ " Feel free to ask about benefits, leaves, or company policies."
  else if String.eqb advisor_type "orders" then
    nl +:+ icon_bulb +:+ " You can inquire about inventory levels or return rates as well."
  else if String.eqb advisor_type "reports" then
    nl +:+ icon_bulb +:+ " You can request analytics dashboards or workbook exports."
  else "".

(** [format_response]: the first response that holds a download marker is
    returned as it is; otherwise every response is laid out under its
    advisor's title. *)
Definition format_response (advisors : list (string * string)) : Prog string :=
  match find (fun ar => has_marker ar.2) advisors with
  | Some ar => Ret ar.2
  | None =>
      let header :=
        if (1 <? length advisors)%nat
        then icon_target +:+ " Multiple advisors have insights to share:" +:+ nl +:+ nl
        else icon_target +:+ " Here's what I found: " in
      let body := String.concat "" (section_text <$> advisors) in
      let hint :=
        match advisors with
        | [ar] => hint_for (PyStr.lower (default "" (PyStr.first_word ar.1)))
        | _ => ""
        end in
      Now "%H:%M:%S"
        (fun t => Ret (header +:+ body +:+ hint +:+ nl +:+ nl +:+ icon_clock +:+ " " +:+ t))
  end.

(** *** Routing *)

Definition valid_intents : list string :=
  ["general"; "finance"; "hr"; "orders"; "reports"].

Definition in_list (s : string) (l : list string) : bool :=
  existsb (String.eqb s) l.

(** The label read from the classifier's text, if it is one. *)
Definition parse_intent (text : string) : option string :=
  let intent := PyStr.lower (PyStr.strip text) in
  if in_list intent valid_intents then Some intent else None.

Definition detect_intent_with_genai (prompt : string) : Prog (option string) :=
  if genai_client cfg then
    Chat (mkChat (classification_prompt prompt) 10)
      (fun o =>
         match o with
         | ChatText s => Ret (parse_intent s)
         | ChatEmpty => Ret None
         | ChatRaised _ => Ret None
         end)
  else Ret None.

Definition answer_of (title : string) (adapter : string -> Prog string) (prompt : string)
    : Prog (list (string * string)) :=
  let* response := adapter prompt in Ret [(title, response)].

(** The advisor called for a label of the classifier (lines 1047-1063). *)
Definition route_intent (detected_intent prompt : string) : Prog (list (string * string)) :=
  if String.eqb detected_intent "general" then answer_of title_general get_general_advice prompt
  else if String.eqb detected_intent "finance" then answer_of title_finance get_finance_advice prompt
  else if String.eqb detected_intent "hr" then answer_of title_hr get_hr_advice prompt
  else if String.eqb detected_intent "orders" then answer_of title_orders get_orders_advice prompt
  else if String.eqb detected_intent "reports" then answer_of title_reports get_reports_advice prompt
  else Ret [].

(** [sum(prompt_lower.count(word) for word in words)]. *)
Definition keyword_count (words : list string) (prompt_lower : string) : nat :=
  foldr (fun word acc => (PyStr.count word prompt_lower + acc)%nat) 0%nat words.

Definition word_counts (prompt_lower : string) : list (string * nat) :=
  [("finance", keyword_count finance_keywords prompt_lower);
   ("hr", keyword_count hr_keywords prompt_lower);
   ("orders", keyword_count orders_keywords prompt_lower);
   ("reports", keyword_count reports_keywords prompt_lower)].

(** [max(counts.values())]. *)
Definition max_count (counts : list (string * nat)) : nat :=
  foldr (fun kv acc => Nat.max kv.2 acc) 0%nat counts.

(** [max(counts.items(), key=lambda x: x[1])[0]]: the first entry with the
    greatest count. *)
Fixpoint best_of (best : string * nat) (rest : list (string * nat)) : string :=
  match rest with
  | [] => best.1
  | kv :: rest' => if (best.2 <? kv.2)%nat then best_of kv rest' else best_of best rest'
  end.

Definition most_relevant (counts : list (string * nat)) : string :=
  match counts with
  | [] => ""
  | kv :: rest => best_of kv rest
  end.

(** Lines 1109-1134: no advisor's keywords matched. *)
Definition infer_advisor (prompt : string) : Prog (list (string * string)) :=
  let counts := word_counts (PyStr.lower prompt) in
  if (0 <? max_count counts)%nat then
    let advisor := most_relevant counts in
    if String.eqb advisor "finance" then answer_of title_finance get_finance_advice prompt
    else if String.eqb advisor "hr" then answer_of title_hr get_hr_advice prompt
    else if String.eqb advisor "orders" then answer_of title_orders get_orders_advice prompt
    else answer_of title_reports get_reports_advice prompt
  else answer_of title_general get_general_advice prompt.

(** One answer of the advisor when one of its keywords occurs. *)
Definition when_matched (words : list string) (title : string)
    (adapter : string -> Prog string) (prompt : string) : Prog (list (string * string)) :=
  if PyStr.contains_any words (PyStr.lower prompt) then answer_of title adapter prompt
  else Ret [].

(** Keyword routing (lines 1069-1136). *)
Definition keyword_routing (prompt : string) : Prog (list (string * string)) :=
  if PyStr.contains_any general_keywords (PyStr.lower prompt) then
    answer_of title_general get_general_advice prompt
  else
    let* finance := when_matched finance_keywords title_finance get_finance_advice prompt in
    let* hr := when_matched hr_keywords title_hr get_hr_advice prompt in
    let* orders := when_matched orders_keywords title_orders get_orders_advice prompt in
    let* reports := when_matched reports_keywords title_reports get_reports_advice prompt in
    match finance ++ hr ++ orders ++ reports with
    | [] => infer_advisor prompt
    | responses => Ret responses
    end.

Definition process_user_query (prompt : string) : Prog (list (string * string)) :=
  if genai_client cfg && negb (String.eqb (GENAI_INTENT_MODE cfg) "off") then
    let* detected_intent := detect_intent_with_genai prompt in
    match detected_intent with
    | Some intent => route_intent intent prompt
    | None => keyword_routing prompt
    end
  else keyword_routing prompt.

(** *** The chat endpoint and the downloads *)

(** An entry of [download_storage]. *)
Record Download := mkDownload {
  d_type : string;
  d_format : option string;
  d_data : string;
  d_advisor : string;
  d_timestamp : string
}.

(** The JSON answer of [/chat] with its HTTP status. *)
Record ChatReply := mkReply {
  http_status : Z;
  reply : string;
  has_pdf : bool;
  download_url : option string
}.

Definition plain_reply (status : Z) (text : string) : ChatReply :=
  mkReply status text false None.

(** [s.split(marker)[1]]. *)
Definition after_marker (marker s : string) : string :=
  default "" (PyStr.split marker s !! 1%nat).

Definition pdf_ready_text (advisor_name : string) : string :=
  icon_target +:+ " Here's what I found: " +:+ advisor_name +:+ " Advisor " +:+ icon_money
  +:+ nl +:+ rule28 +:+ nl +:+ icon_page +:+ " Your report is ready!" +:+ nl +:+ nl
  +:+ "Click the button below to download the PDF report.".

Definition report_ready_text (advisor_name report_format : string) : string :=
  icon_target +:+ " Here's what I found:" +:+ nl +:+ nl +:+ advisor_name +:+ " Advisor "
  +:+ icon_chart +:+ nl +:+ rule28 +:+ nl +:+ icon_chart
  +:+ " Your analytics report is ready!" +:+ nl +:+ nl
  +:+ "Click the button below to download the " +:+ PyStr.upper report_format +:+ " report.".

(** Lines 1172-1188: the PDF data goes into [download_storage] under a
    fresh id, and the reply names the download route. *)
Definition pdf_ready (storage : gmap string Download) (advisor_name pdf_data : string)
    : Prog (ChatReply * gmap string Download) :=
  Uuid4 (fun download_id =>
  Now "%Y%m%d_%H%M%S" (fun timestamp =>
    Ret (mkReply 200 (pdf_ready_text advisor_name) true
           (Some ("/download_pdf/" +:+ download_id)),
         <[download_id := mkDownload "pdf" None pdf_data advisor_name timestamp]> storage))).

(** Lines 1198-1215, for a report. *)
Definition report_ready (storage : gmap string Download)
    (advisor_name report_format report_data : string)
    : Prog (ChatReply * gmap string Download) :=
  Uuid4 (fun download_id =>
  Now "%Y%m%d_%H%M%S" (fun timestamp =>
    Ret (mkReply 200 (report_ready_text advisor_name report_format) true
           (Some ("/download_report/" +:+ download_id)),
         <[download_id := mkDownload "report" (Some report_format) report_data
                            advisor_name timestamp]> storage))).

(** Lines 1160-1224: what [chat] does with the formatted response. *)
Definition deliver (storage : gmap string Download) (formatted_response : string)
    : Prog (ChatReply * gmap string Download) :=
  if PyStr.contains "PDF_DOWNLOAD:" formatted_response then
    let marked := PyStr.strip (after_marker "PDF_DOWNLOAD:" formatted_response) in
    match PyStr.splitn ":" 1 marked with
    | [advisor_name; pdf_data] => pdf_ready storage advisor_name pdf_data
    | _ => pdf_ready storage "Finance" marked
    end
  else if PyStr.contains "REPORT_DOWNLOAD:" formatted_response then
    let download_marker := PyStr.strip (after_marker "REPORT_DOWNLOAD:" formatted_response) in
    match PyStr.splitn ":" 2 download_marker with
    | [advisor_name; fmt; report_data] =>
        report_ready storage advisor_name (PyStr.lower fmt) report_data
    | _ => Ret (plain_reply 500 (icon_warn +:+ " Error: Invalid report format"), storage)
    end
  else Ret (plain_reply 200 formatted_response, storage).

(** Lines 1159-1224: the results of the advisors are formatted and
    delivered. *)
Definition assemble (storage : gmap string Download) (advisors : list (string * string))
    : Prog (ChatReply * gmap string Download) :=
  let* formatted_response := format_response advisors in
  deliver storage formatted_response.

(** [chat]: [data] is what [request.get_json()] returns, [None] when it
    raises. *)
Definition chat (storage : gmap string Download) (data : option json)
    : Prog (ChatReply * gmap string Download) :=
  let failed :=
    Ret (plain_reply 500 (icon_warn +:+ " An error occurred while processing your request."),
         storage) in
  let invalid_prompt :=
    Ret (plain_reply 400 (icon_warn +:+ " Error: Please provide a valid question"), storage) in
  match data with
  | None => failed
  | Some j =>
      if negb (truthy j) then
        Ret (plain_reply 400 (icon_warn +:+ " Error: Invalid request format"), storage)
      else
        match j with
        | JObj members =>
            match assoc "prompt" members with
            | Some (JStr prompt) =>
                if String.eqb prompt "" then invalid_prompt
                else
                  let* result := process_user_query (PyStr.strip prompt) in
                  assemble storage result
            | Some _ => invalid_prompt
            | None => invalid_prompt
            end
        | _ => failed
        end
  end.

End Adapters.

(** The answer of a download route. *)
Inductive FileReply :=
| SendFile (content mimetype download_name : string)
| Refused (status : Z) (text : string).

(** [download_pdf]: the store is read and handed back as it was. *)
Definition download_pdf (storage : gmap string Download) (download_id : string)
    : FileReply * gmap string Download :=
  match storage !! download_id with
  | Some download_data =>
      if String.eqb (d_type download_data) "pdf" then
        match Base64.b64decode (d_data download_data) with
        | Some pdf_bytes =>
            (SendFile pdf_bytes "application/pdf"
               ("Finance_Report_" +:+ d_timestamp download_data +:+ ".pdf"), storage)
        | None => (Refused 500 "Error downloading PDF", storage)
        end
      else (Refused 404 "No PDF available for download", storage)
  | None => (Refused 404 "No PDF available for download", storage)
  end.

Definition format_mapping (report_format : string) : string * string :=
  if String.eqb report_format "pdf" then ("application/pdf", "pdf")
  else if String.eqb report_format "png" then ("image/png", "png")
  else if String.eqb report_format "xlsx" then
    ("application/vnd.openxmlformats-officedocument.spreadsheetml.sheet", "xlsx")
  else if String.eqb report_format "csv" then ("text/csv", "csv")
  else ("application/octet-stream", "bin").

Definition download_report (storage : gmap string Download) (download_id : string)
    : FileReply * gmap string Download :=
  match storage !! download_id with
  | Some download_data =>
      if String.eqb (d_type download_data) "report" then
        let report_format := default "pdf" (d_format download_data) in
        match Base64.b64decode (d_data download_data) with
        | Some report_bytes =>
            let '(mimetype, extension) := format_mapping report_format in
            (SendFile report_bytes mimetype
               ("Analytics_Report_" +:+ d_timestamp download_data +:+ "." +:+ extension),
             storage)
        | None => (Refused 500 "Error downloading report", storage)
        end
      else (Refused 404 "No report available for download", storage)
  | None => (Refused 404 "No report available for download", storage)
  end.

(** *** Start-up: the configuration file and the settings *)

(** One pass of the loop of [load_config] (lines 69-74) on a line of the
    file.  A line that holds [=] always splits in two, so the last branch
    is never taken. *)
Definition config_line (config : gmap string string) (line : string)
    : gmap string string :=
  let line := PyStr.strip line in
  if negb (String.eqb line "") && negb (PyStr.startswith "#" line) then
    if PyStr.contains "=" line then
      match PyStr.splitn "=" 1 line with
      | [key; value] => <[PyStr.strip key := PyStr.strip value]> config
      | _ => config
      end
    else config
  else config.

(** [load_config]: [file] holds the lines of [config.properties] as the
    iteration over the file gives them, up to the end of the file or to
    the line at which reading raises; [None] when the file cannot be
    opened.  [RCOEGenAIAgents.py], [AskMeChatBot_Interactive.py] and
    [func_replica.py] read the file with the same loop. *)
Definition load_config (file : option (list string)) : gmap string string :=
  match file with
  | Some lines => foldl config_line ∅ lines
  | None => ∅
  end.

(** The settings read from [CONFIG] when the module is loaded
    (lines 153-162).  [to_int] is [int] on a string, [None] when it raises
    [ValueError], which stops the start; [client] says whether the client
    of the generative service could be created. *)
Definition start_up (to_int : string -> option Z) (config : gmap string string)
    (client : bool) : option Config :=
  let use_mock :=
    String.eqb (PyStr.lower (default "true" (config !! "use_mock_responses"))) "true" in
  _ ← to_int (default "30" (config !! "api_timeout"));
  _ ← to_int (default "3" (config !! "api_retry_count"));
  _ ← to_int (default "1" (config !! "api_retry_delay"));
  Some (mkConfig use_mock client
          (PyStr.lower (PyStr.strip (default "auto" (config !! "genai_intent_mode"))))
          config).

End AskMe.

(** ** func_replica.py: the function with artifact storage *)

Module Replica.
Import Py.

Definition nl : string := PyStr.nl.

(** The module-level settings.  [object_client], [namespace_name] and
    [genai_client] say whether the value was obtained at start-up. *)
Record Config := mkConfig {
  USE_MOCK_RESPONSES : bool;
  REQUESTS_OK : bool;
  genai_client : bool;
  GENAI_INTENT_MODE : string;
  GENERAL_ORDS_URL : string;
  object_client : bool;
  namespace_name : bool;
  ARTIFACT_BUCKET : string;
  PRESIGN_TTL_SECONDS : Z;
  FINANCE_URL : string;
  FINANCE_USER : string;
  FINANCE_PASS : string;
  ORDERS_URL : string;
  ORDERS_USER : string;
  ORDERS_PASS : string;
  REPORTS_URL : string;
  REPORTS_USER : string;
  REPORTS_PASS : string;
  HR_URL : string;
  HR_USER : string;
  HR_PASS : string
}.

(** What an advisor returns. *)
Record AdvisorResult := mkResult {
  ar_name : string;
  ar_type : string;
  ar_source : string;
  ar_text : string;
  ar_artifact : option (gmap string json)
}.

(** The live branches of the finance and orders advisors and the payload
    decoders, taken as given: [finance_live] and [orders_live] are the
    code after the mock test (lines 323-415 and 443-504), giving source,
    text and artifact; [nl2sql_answer r] is [js.get('answer') or
    js.get('response')] of a response, [hr_text r] is
    [data.get('response') or json.dumps(data)[:400]], each [None] when
    empty or raising; [str_json j] is [str(j)]. *)
Record Library := mkLibrary {
  finance_live : string -> Prog (string * string * option (gmap string json));
  orders_live : string -> Prog (string * string * option (gmap string json));
  nl2sql_answer : Response -> option string;
  hr_text : Response -> option string;
  str_json : json -> string
}.

Definition INTENTS : list string :=
  ["general"; "finance"; "hr"; "orders"; "reports"].

Definition GENERAL_DB_KEYWORDS : list string :=
  ["table"; "database"; "query"; "sql"; "select"; "data"; "record"; "nlp"; "nl2sql"].

(** [ADVISOR_KEYWORDS]. *)
Definition general_keywords : list string :=
  ["general"; "help"; "what can you do"; "capabilities"; "nlp"; "nl2sql"; "database"; "table"; "query"].

Definition finance_keywords : list string :=
  ["finance"; "revenue"; "budget"; "expense"; "cost"; "money"].

Definition hr_keywords : list string :=
  ["hr"; "policy"; "benefit"; "leave"; "employee"; "vacation"].

Definition orders_keywords : list string :=
  ["order"; "inventory"; "delivery"; "shipping"; "stock"; "sales"].

Definition reports_keywords : list string :=
  ["workbook"; "analytics"; "export"; "oac"; "dashboard"].

Definition name_general : string := "General Advisor " +:+ "🤖".
Definition name_finance : string := "Finance Advisor " +:+ "💰".
Definition name_hr : string := "HR Advisor " +:+ "👥".
Definition name_orders : string := "Orders Advisor " +:+ "📦".
Definition name_reports : string := "Reports Advisor " +:+ "📊".

(** The truth value of a string setting. *)
Definition nonblank (s : string) : bool := negb (String.eqb s "").

(** [resp.ok]. *)
Definition ok (r : Response) : bool :=
  negb ((400 <=? status_code r)%Z && (status_code r <? 600)%Z).

Definition bytes_of (codes : list nat) : string :=
  String.string_of_list_ascii (ascii_of_nat <$> codes).

(** The placeholder [dummy_pdf] of [process_download]. *)
Definition dummy_pdf : string :=
  "%PDF-1.4" +:+ nl +:+ "%" +:+ bytes_of [226; 227; 207; 211] +:+ nl
  +:+ "1 0 obj" +:+ nl +:+ "<<>>" +:+ nl +:+ "endobj" +:+ nl
  +:+ "trailer" +:+ nl +:+ "<<>>" +:+ nl +:+ "%%EOF".

Definition meta_key (artifact_id : string) : string := "artifact/" +:+ artifact_id +:+ ".json".
Definition bin_key (artifact_id : string) : string := "artifact/" +:+ artifact_id +:+ ".pdf".

(** [meta.get('status') == s]. *)
Definition status_is (s : string) (meta : gmap string json) : bool :=
  match meta !! "status" with
  | Some (JStr s') => String.eqb s' s
  | _ => false
  end.

(** The result of the download action: the document it returns, or the
    exception that leaves it, with the text [str(e)] of the exception. *)
Inductive DownloadResult :=
| NotConfigured                  (* 'artifact storage not configured' *)
| MetadataNotFound               (* 'metadata not found: ...' *)
| ArtifactReady (artifact : gmap string json) (message : string)
| NotReadyYet (artifact : gmap string json)    (* 'Artifact not ready yet' *)
| DownloadRaised (details : string).

(** [type(meta).__name__] of stored metadata that is no object. *)
Definition type_name (kind : JsonKind) : string :=
  match kind with
  | NullValue => "NoneType"
  | BoolValue => "bool"
  | IntValue => "int"
  | FloatValue => "float"
  | StrValue => "str"
  | ListValue => "list"
  end.

(** The text of the [AttributeError] that [meta.get] raises on it. *)
Definition no_get (kind : JsonKind) : string :=
  "'" +:+ type_name kind +:+ "' object has no attribute 'get'".

(** The result of the chat action. *)
Record ChatResult := mkChatResult {
  routedIntent : option string;
  advisors : list AdvisorResult;
  message : string;
  artifactsPending : bool
}.

Section Function.
Context (lib : Library) (cfg : Config).

Definition storage_configured : bool :=
  object_client cfg && namespace_name cfg && nonblank (ARTIFACT_BUCKET cfg).

Definition put_object (key : string) (raw : Blob) : Prog bool :=
  if storage_configured then PutObject key raw (fun ok => Ret ok) else Ret false.

Definition get_presigned (key : string) (ttl_seconds : Z) : Prog (option string) :=
  if storage_configured then Presign key ttl_seconds (fun url => Ret url) else Ret None.

(** *** Intent detection *)

Definition intent_prompt (prompt : string) : string :=
  "Classify user query into one of: general, finance, hr, orders, reports." +:+ nl
  +:+ "Query: " +:+ prompt +:+ nl +:+ "Category:".

(** The first label of [INTENTS] that occurs in the classifier's text. *)
Definition parse_intent (text : string) : option string :=
  let text := PyStr.lower (PyStr.strip text) in
  find (fun intent => PyStr.contains intent text) INTENTS.

Definition detect_intent (prompt : string) : Prog (option string) :=
  if negb (genai_client cfg) || String.eqb (GENAI_INTENT_MODE cfg) "off" then Ret None
  else
    Chat (mkChat (intent_prompt prompt) 12)
      (fun o =>
         match o with
         | ChatText s => Ret (parse_intent s)
         | ChatEmpty => Ret None
         | ChatRaised _ => Ret None
         end).

(** *** Advisors *)

Definition static_general : AdvisorResult :=
  mkResult name_general "general" "static"
    "I can help with general queries, database questions (via NL2SQL), and routing to other advisors."
    None.

Definition advisor_general (prompt : string) : Prog AdvisorResult :=
  let lower := PyStr.lower prompt in
  let genai_or_static :=
    if genai_client cfg then
      Chat (mkChat prompt 500)
        (fun o =>
           match o with
           | ChatText s => Ret (mkResult name_general "general" "genai" (PyStr.strip s) None)
           | ChatEmpty => Ret static_general
           | ChatRaised _ => Ret static_general
           end)
    else Ret static_general in
  if nonblank (GENERAL_ORDS_URL cfg) && REQUESTS_OK cfg
     && PyStr.contains_any GENERAL_DB_KEYWORDS lower then
    Http (mkRequest POST (GENERAL_ORDS_URL cfg) [] (JsonBody (JObj [("user_query", JStr prompt)])) None)
      (fun o =>
         match o with
         | Responded r =>
             if ok r then
               match nonempty (nl2sql_answer lib r) with
               | Some ans => Ret (mkResult name_general "general" "nl2sql" ans None)
               | None => genai_or_static
               end
             else genai_or_static
         | TimedOut => genai_or_static
         | RequestFailed _ => genai_or_static
         end)
  else genai_or_static.

Definition of_live (nm ty : string) (r : string * string * option (gmap string json))
    : AdvisorResult :=
  mkResult nm ty r.1.1 r.1.2 r.2.

Definition advisor_finance (prompt : string) : Prog AdvisorResult :=
  if USE_MOCK_RESPONSES cfg
     || negb (nonblank (FINANCE_URL cfg) && nonblank (FINANCE_USER cfg) && nonblank (FINANCE_PASS cfg))
     || negb (REQUESTS_OK cfg) then
    Ret (mkResult name_finance "finance" "mock"
           "Finance advisor mock: budget allocation 40% R&D, 30% Ops, 30% Marketing." None)
  else let* r := finance_live lib prompt in Ret (of_live name_finance "finance" r).

Definition mock_hr : AdvisorResult :=
  mkResult name_hr "hr" "mock"
    "HR policies include 20 days PTO, comprehensive health coverage, and flexible remote work."
    None.

Definition advisor_hr (prompt : string) : Prog AdvisorResult :=
  if nonblank (HR_URL cfg) && nonblank (HR_USER cfg) && nonblank (HR_PASS cfg) && REQUESTS_OK cfg
     && negb (USE_MOCK_RESPONSES cfg) then
    Http (mkRequest GET (HR_URL cfg) [("prompt", prompt)] NoBody
            (Some (HR_USER cfg, HR_PASS cfg)))
      (fun o =>
         match o with
         | Responded r =>
             if ok r then
               match hr_text lib r with
               | Some txt => Ret (mkResult name_hr "hr" "api" txt None)
               | None => Ret mock_hr
               end
             else Ret mock_hr
         | TimedOut => Ret mock_hr
         | RequestFailed _ => Ret mock_hr
         end)
  else Ret mock_hr.

Definition advisor_orders (prompt : string) : Prog AdvisorResult :=
  if USE_MOCK_RESPONSES cfg
     || negb (nonblank (ORDERS_URL cfg) && nonblank (ORDERS_USER cfg) && nonblank (ORDERS_PASS cfg))
     || negb (REQUESTS_OK cfg) then
    Ret (mkResult name_orders "orders" "mock"
           "Recent orders: fulfillment 95%, avg delivery 2.3 days." None)
  else let* r := orders_live lib prompt in Ret (of_live name_orders "orders" r).

(** [{"id": artifact_id, "type": "pdf", "status": "pending"}]. *)
Definition pending_artifact (artifact_id : string) : gmap string json :=
  <["status" := JStr "pending"]> (<["type" := JStr "pdf"]> {["id" := JStr artifact_id]}).

Definition advisor_reports (prompt : string) : Prog AdvisorResult :=
  if USE_MOCK_RESPONSES cfg
     || negb (nonblank (REPORTS_URL cfg) && nonblank (REPORTS_USER cfg) && nonblank (REPORTS_PASS cfg))
     || negb (REQUESTS_OK cfg) then
    Uuid4 (fun id =>
      Ret (mkResult name_reports "reports" "mock" "Reports export mock started."
             (Some (pending_artifact id))))
  else
    Uuid4 (fun artifact_id =>
      let done :=
        Ret (mkResult name_reports "reports" "export" "Report export initiated."
               (Some (pending_artifact artifact_id))) in
      if object_client cfg then
        Now "%Y%m%d_%H%M%S" (fun stamp =>
        Now "isoformat" (fun created =>
          let meta : gmap string json :=
            <["created" := JStr (created +:+ "Z")]>
              (<["filename" := JStr ("Analytics_Report_" +:+ stamp +:+ ".pdf")]>
                 (<["status" := JStr "pending"]>
                    (<["advisor" := JStr "reports"]>
                       (<["type" := JStr "pdf"]> {["id" := JStr artifact_id]})))) in
          let* _ := put_object (meta_key artifact_id) (JsonObject meta) in
          done))
      else done).

(** *** The chat action *)

(** [ADVISOR_FUNCS.get(routed, advisor_general)]. *)
Definition advisor_func (key : string) : string -> Prog AdvisorResult :=
  if String.eqb key "general" then advisor_general
  else if String.eqb key "finance" then advisor_finance
  else if String.eqb key "hr" then advisor_hr
  else if String.eqb key "orders" then advisor_orders
  else if String.eqb key "reports" then advisor_reports
  else advisor_general.

Definition keywords_of (key : string) : list string :=
  if String.eqb key "general" then general_keywords
  else if String.eqb key "finance" then finance_keywords
  else if String.eqb key "hr" then hr_keywords
  else if String.eqb key "orders" then orders_keywords
  else if String.eqb key "reports" then reports_keywords
  else [].

(** The loop over [['finance', 'hr', 'orders', 'reports']] of lines
    569-572: the results of the advisors whose keywords occur, in order. *)
Fixpoint fan_out (advs : list string) (lower prompt : string) : Prog (list AdvisorResult) :=
  match advs with
  | [] => Ret []
  | adv :: rest =>
      if PyStr.contains_any (keywords_of adv) lower then
        let* a := advisor_func adv prompt in
        let* others := fan_out rest lower prompt in
        Ret (a :: others)
      else fan_out rest lower prompt
  end.

(** Lines 564-574: routing by keywords. *)
Definition keyword_advisors (prompt : string) : Prog (list AdvisorResult) :=
  let lower := PyStr.lower prompt in
  let* general :=
    (if PyStr.contains_any general_keywords lower
     then let* a := advisor_general prompt in Ret [a]
     else Ret []) in
  let* others := fan_out ["finance"; "hr"; "orders"; "reports"] lower prompt in
  match general ++ others with
  | [] => let* a := advisor_general prompt in Ret [a]
  | advisors => Ret advisors
  end.

Definition is_pending (a : AdvisorResult) : bool :=
  match ar_artifact a with
  | Some artifact =>
      match artifact !! "status" with
      | Some (JStr s) => String.eqb s "pending"
      | _ => false
      end
  | None => false
  end.

Definition summary_part (a : AdvisorResult) : string :=
  "[" +:+ default "" (PyStr.first_word (ar_name a)) +:+ "] " +:+ ar_text a.

(** Lines 575-591. *)
Definition summarise (routed : option string) (advisors : list AdvisorResult) : ChatResult :=
  mkChatResult routed advisors
    (String.concat (nl +:+ nl) (summary_part <$> advisors))
    (existsb is_pending advisors).

Definition process_chat (prompt : string) : Prog ChatResult :=
  let* routed :=
    (if negb (String.eqb (GENAI_INTENT_MODE cfg) "off") then detect_intent prompt
     else Ret None) in
  let* advisors :=
    match routed with
    | Some intent => let* a := advisor_func intent prompt in Ret [a]
    | None => keyword_advisors prompt
    end in
  Ret (summarise routed advisors).

(** *** The download action *)

Definition filename_text (meta : gmap string json) : string :=
  match meta !! "filename" with
  | Some (JStr s) => s
  | Some j => str_json lib j
  | None => "None"
  end.

Definition url_json (url : option string) : json :=
  match url with
  | Some u => JStr u
  | None => JNull
  end.

(** [{**meta, 'presignedUrl': url, 'expiresIn': PRESIGN_TTL_SECONDS}]. *)
Definition with_handle (meta : gmap string json) (url : option string) : gmap string json :=
  <["expiresIn" := JNum (PRESIGN_TTL_SECONDS cfg)]> (<["presignedUrl" := url_json url]> meta).

(** The metadata after the three assignments of lines 611-613. *)
Definition mark_ready (meta : gmap string json) : gmap string json :=
  <["contentType" := JStr "application/pdf"]>
    (<["size" := JNum (Z.of_nat (String.length dummy_pdf))]>
       (<["status" := JStr "ready"]> meta)).

(** Lines 615-618, on the metadata as it then is. *)
Definition answer_download (artifact_id : string) (meta : gmap string json)
    : Prog DownloadResult :=
  if status_is "ready" meta then
    let* url := get_presigned (bin_key artifact_id) (PRESIGN_TTL_SECONDS cfg) in
    Ret (ArtifactReady (with_handle meta url) ("Artifact ready: " +:+ filename_text meta))
  else Ret (NotReadyYet meta).

(** [process_download] (lines 597-618).  The [try] of lines 602-606
    covers the reading and the parsing of the metadata only: metadata
    that parses to a value without [get] makes line 607 raise. *)
Definition process_download (artifact_id : string) : Prog DownloadResult :=
  if negb (object_client cfg) || negb (nonblank (ARTIFACT_BUCKET cfg))
     || negb (namespace_name cfg) then
    Ret NotConfigured
  else
    GetObject (meta_key artifact_id)
      (fun o =>
         match o with
         | Some (JsonObject meta) =>
             if status_is "pending" meta then
               let* _ := put_object (bin_key artifact_id) (BinObject dummy_pdf) in
               let meta := mark_ready meta in
               let* _ := put_object (meta_key artifact_id) (JsonObject meta) in
               answer_download artifact_id meta
             else answer_download artifact_id meta
         | Some (JsonOther kind) => Ret (DownloadRaised (no_get kind))
         | Some (BinObject _) => Ret MetadataNotFound
         | None => Ret MetadataNotFound
         end).

End Function.

(** *** The handler *)

(** The document the handler serialises into its response:
    [{'error': ..., 'sessionId': ...}] with a text of the handler or with
    the error of the download result,
    [{'error': 'internal error', 'details': ..., 'sessionId': ...}] for an
    exception that one of its two [try] statements caught, the chat
    document [{'sessionId', 'action', 'prompt', **result}] and the
    download document [{'sessionId', 'action', **result}]. *)
Inductive HandlerBody :=
| Failure (error : string) (sessionId : json)
| DownloadFailure (result : DownloadResult) (sessionId : json)
| InternalError (details : string) (sessionId : json)
| ChatBody (sessionId : json) (prompt : string) (result : ChatResult)
| DownloadBody (sessionId : json) (result : DownloadResult).

(** A response with its status code, or the [AttributeError] of a payload
    the handler cannot read, which leaves the handler. *)
Inductive HandlerOutcome :=
| Answered (status : Z) (body : HandlerBody)
| Raised.

Section Handler.
Context (lib : Library) (cfg : Config).

(** [parse_body]: [data] is the body of the invocation, [None] when there
    is none; [loads raw] is [json.loads] on the decoded body, [None] when
    decoding or parsing raises. *)
Definition parse_body (loads : string -> option json) (data : option string) : json :=
  match data with
  | Some raw => default (JObj []) (loads raw)
  | None => JObj []
  end.

(** [(payload.get('action') or 'chat').lower()]; [None] when the value is
    true and no string, which has no [lower]. *)
Definition action_of (payload : list (string * json)) : option string :=
  match jget "action" payload with
  | Some (JStr s) => Some (PyStr.lower (if String.eqb s "" then "chat" else s))
  | Some j => if truthy j then None else Some "chat"
  | None => Some "chat"
  end.

(** [payload.get('sessionId') or 'default']. *)
Definition session_of (payload : list (string * json)) : json :=
  match jget "sessionId" payload with
  | Some j => if truthy j then j else JStr "default"
  | None => JStr "default"
  end.

(** The text an f-string gives the artifact id. *)
Definition id_text (j : json) : string :=
  match j with
  | JStr s => s
  | _ => str_json lib j
  end.

(** [handler] (lines 639-671).  The payload is read outside the two
    [try] statements.  [process_chat] as embedded raises nothing, so the
    [except] of the chat branch (lines 653-655) is never entered; the one
    of the download branch (lines 667-669) answers 500 when
    [process_download] raises. *)
Definition handler (loads : string -> option json) (data : option string)
    : Prog HandlerOutcome :=
  match parse_body loads data with
  | JObj payload =>
      match action_of payload with
      | None => Ret Raised
      | Some action =>
          let session_id := session_of payload in
          if String.eqb action "chat" then
            let invalid :=
              Ret (Answered 400 (Failure "missing or invalid 'prompt'" session_id)) in
            match jget "prompt" payload with
            | Some (JStr prompt) =>
                if String.eqb prompt "" then invalid
                else
                  let* result := process_chat lib cfg prompt in
                  Ret (Answered 200 (ChatBody session_id prompt result))
            | _ => invalid
            end
          else if String.eqb action "download" then
            let missing := Ret (Answered 400 (Failure "missing artifactId" session_id)) in
            match jget "artifactId" payload with
            | Some artifact_id =>
                if truthy artifact_id then
                  let* result := process_download lib cfg (id_text artifact_id) in
                  match result with
                  | NotConfigured | MetadataNotFound =>
                      Ret (Answered 404 (DownloadFailure result session_id))
                  | DownloadRaised details =>
                      Ret (Answered 500 (InternalError details session_id))
                  | ArtifactReady _ _ | NotReadyYet _ =>
                      Ret (Answered 200 (DownloadBody session_id result))
                  end
                else missing
            | None => missing
            end
          else
            Ret (Answered 400
                   (Failure ("unsupported action '" +:+ action +:+ "'") session_id))
      end
  | _ => Ret Raised
  end.

End Handler.

End Replica.

(** ** RCOEGenAIAgents.py and mcp_servers/advisors.py

    The second application wraps each advisor in a server class.  Its
    order list and its route [download_pdf] repeat the code of
    [AskMeChatBot.py] with other texts. *)

Module Rcoe.
Import Py.

(** The fields a server reads from the configuration in [__init__]. *)
Record Server := mkServer {
  use_mock : bool;
  url : option string;
  username : option string;
  password : option string
}.

(** The live branches that no property looks into, taken as given: the
    code after the mock and configuration tests of the General, Finance,
    HR and Reports servers, the text built from the detail response of the
    Orders server (lines 251-269), and the text of a timeout exception. *)
Record Library := mkLibrary {
  general_live : Server -> string -> Prog string;
  finance_live : Server -> string -> Prog string;
  hr_live : Server -> string -> Prog string;
  reports_live : Server -> string -> Prog string;
  order_detail : string -> Response -> string;
  timeout_text : string
}.

Definition configured (s : Server) : option (string * string * string) :=
  match nonempty (url s), nonempty (username s), nonempty (password s) with
  | Some a, Some u, Some p => Some (a, u, p)
  | _, _, _ => None
  end.

Section Servers.
Context (lib : AskMe.Library) (live : Library).

(** [GeneralMCPServer.handle_request]. *)
Definition general_handle_request (s : Server) (query : string) : Prog string :=
  match use_mock s, nonempty (url s) with
  | false, Some _ => general_live live s query
  | _, _ =>
      Ret "I am a General Agent that can assist you with Finance, HR, Orders, or Reports queries. I can route your questions to specialized advisors or provide general information."
  end.

(** [FinanceMCPServer.handle_request]. *)
Definition finance_handle_request (s : Server) (query : string) : Prog string :=
  if use_mock s then
    Ret "Based on our financial analysis, the Q3 revenue shows a 15% increase YoY with strong performance in APAC region."
  else
    match configured s with
    | None => Ret "Finance report API not configured."
    | Some _ => finance_live live s query
    end.

(** [HRMCPServer.handle_request]. *)
Definition hr_handle_request (s : Server) (query : string) : Prog string :=
  match use_mock s, nonempty (url s) with
  | false, Some _ => hr_live live s query
  | _, _ =>
      Ret "Our work-from-home policy allows 3 days remote work per week with core hours from 10 AM to 4 PM."
  end.

(** Lines 283-308, on a 200 response of the list request. *)
Definition orders_list_text (r : Response) : string :=
  match json_body r with
  | inl msg => "Orders API error: " +:+ msg
  | inr (JObj data) =>
      match jget "items" data with
      | Some (JArr ((x :: xs) as items)) =>
          match AskMe.as_objects items with
          | None => "Orders API error: " +:+ AskMe.exc_text lib (JArr items)
          | Some objs =>
              match AskMe.sorted_desc (AskMe.last_update_key lib) objs with
              | None => "Orders API error: " +:+ AskMe.cant_compare
              | Some items_sorted =>
                  let display_items := take 10 items_sorted in
                  let total := length items_sorted in
                  let result_text :=
                    "Recent Sales Orders (showing 10 of " +:+ pretty total +:+ "):"
                    +:+ PyStr.nl +:+ PyStr.join PyStr.nl (AskMe.order_line lib <$> display_items) in
                  if (10 <? total)%nat
                  then result_text +:+ PyStr.nl +:+ PyStr.nl +:+ icon_bulb
                       +:+ " Showing first 10 of " +:+ pretty total +:+ " orders."
                  else result_text
              end
          end
      | Some j =>
          if truthy j then "Orders API error: " +:+ AskMe.exc_text lib j
          else "No recent sales orders found."
      | None => "No recent sales orders found."
      end
  | inr j => "Orders API error: " +:+ AskMe.exc_text lib j
  end.

Definition orders_failure (o : HttpOutcome) : string :=
  match o with
  | TimedOut => "Orders API error: " +:+ timeout_text live
  | RequestFailed msg => "Orders API error: " +:+ msg
  | Responded r =>
      if (status_code r =? 401)%Z then "Orders API authentication failed."
      else "Orders API error: HTTP " +:+ pretty (status_code r)
  end.

(** [OrdersMCPServer.handle_request]. *)
Definition orders_handle_request (s : Server) (query : string) : Prog string :=
  if use_mock s then
    Ret "Current order fulfillment rate is at 95% with average delivery time of 2.3 days."
  else
    match configured s with
    | None => Ret "Orders API not configured."
    | Some (orders_url, u, p) =>
        let order_key :=
          match AskMe.re_order_key lib query with
          | Some k => Some k
          | None => AskMe.re_long_id lib query
          end in
        match nonempty order_key with
        | Some key =>
            Http (mkRequest GET (orders_url +:+ "/" +:+ key) [] NoBody (Some (u, p)))
              (fun o =>
                 match o with
                 | Responded r =>
                     if (status_code r =? 200)%Z then Ret (order_detail live key r)
                     else if (status_code r =? 404)%Z then
                       Ret ("No sales order found for '" +:+ key +:+ "'.")
                     else Ret (orders_failure o)
                 | _ => Ret (orders_failure o)
                 end)
        | None =>
            Http (mkRequest GET orders_url [("limit", "10")] NoBody (Some (u, p)))
              (fun o =>
                 match o with
                 | Responded r =>
                     if (status_code r =? 200)%Z then Ret (orders_list_text r)
                     else Ret (orders_failure o)
                 | _ => Ret (orders_failure o)
                 end)
        end
    end.

(** [ReportsMCPServer.handle_request]. *)
Definition reports_handle_request (s : Server) (query : string) : Prog string :=
  if use_mock s then
    Ret "Your OAC workbook export is being prepared. This typically takes a few moments."
  else
    match configured s with
    | None => Ret "Reports API not configured."
    | Some _ => reports_live live s query
    end.

End Servers.

(** [download_pdf] of [RCOEGenAIAgents.py]. *)
Definition download_pdf (storage : gmap string AskMe.Download) (download_id : string)
    : AskMe.FileReply * gmap string AskMe.Download :=
  match storage !! download_id with
  | Some download_data =>
      if String.eqb (AskMe.d_type download_data) "pdf" then
        match Base64.b64decode (AskMe.d_data download_data) with
        | Some pdf_bytes =>
            (AskMe.SendFile pdf_bytes "application/pdf"
               ("Finance_Report_" +:+ AskMe.d_timestamp download_data +:+ ".pdf"), storage)
        | None => (AskMe.Refused 500 "Error downloading PDF", storage)
        end
      else (AskMe.Refused 404 "No PDF available", storage)
  | None => (AskMe.Refused 404 "No PDF available", storage)
  end.

(** [download_report] of [RCOEGenAIAgents.py]. *)
Definition download_report (storage : gmap string AskMe.Download) (download_id : string)
    : AskMe.FileReply * gmap string AskMe.Download :=
  match storage !! download_id with
  | Some download_data =>
      if String.eqb (AskMe.d_type download_data) "report" then
        let report_format := default "pdf" (AskMe.d_format download_data) in
        match Base64.b64decode (AskMe.d_data download_data) with
        | Some report_bytes =>
            let '(mimetype, extension) := AskMe.format_mapping report_format in
            (AskMe.SendFile report_bytes mimetype
               ("Analytics_Report_" +:+ AskMe.d_timestamp download_data +:+ "." +:+ extension),
             storage)
        | None => (AskMe.Refused 500 "Error downloading report", storage)
        end
      else (AskMe.Refused 404 "No report available", storage)
  | None => (AskMe.Refused 404 "No report available", storage)
  end.

(** *** The live branches of the Finance and Reports servers *)

Section Live.
Context (lib : AskMe.Library) (live : Library).

(** The text of [except Exception as e] for a request that raised. *)
Definition raised_text (o : HttpOutcome) : string :=
  match o with
  | TimedOut => timeout_text live
  | RequestFailed msg => msg
  | Responded _ => ""
  end.

(** [FinanceMCPServer.handle_request] after its configuration test
    (lines 92-141). *)
Definition finance_report (finance_url user pass : string) : Prog string :=
  Http (mkRequest POST finance_url [] (TextBody AskMe.soap_body) (Some (user, pass)))
    (fun o =>
       match o with
       | Responded resp =>
           if (status_code resp =? 200)%Z then
             match AskMe.re_report_bytes lib (text resp) with
             | Some g => Ret ("PDF_DOWNLOAD:Finance:" +:+ PyStr.strip g)
             | None => Ret "Report generated but PDF data not found."
             end
           else if (status_code resp =? 401)%Z then Ret "Finance API authentication failed."
           else Ret ("Finance API error: HTTP " +:+ pretty (status_code resp))
       | _ => Ret ("Finance API error: " +:+ raised_text o)
       end).

Definition workbook_id : string := "L3NoYXJlZC9ST0lDL0Fic2VuY2UgV29ya2Jvb2s".
Definition max_polls : nat := 30.
Definition poll_interval : Z := 2.

(** [status_data.get('errorMessage', 'Unknown error')] inside an
    f-string. *)
Definition error_message (status_data : list (string * json)) : string :=
  match assoc "errorMessage" status_data with
  | Some (JStr s) => s
  | Some j => AskMe.str_json lib j
  | None => "Unknown error"
  end.

(** The polling loop (lines 377-398) with [remaining] polls to go:
    [inr tt] when the export is completed, [inl text] with the text the
    server returns otherwise. *)
Fixpoint poll_status (remaining : nat) (rq : Request) : Prog (string + unit) :=
  match remaining with
  | O => Ret (inl "Reports export timeout.")
  | S r =>
      Http rq
        (fun o =>
           match o with
           | Responded status_resp =>
               if (status_code status_resp =? 200)%Z then
                 match json_body status_resp with
                 | inl msg => Ret (inl ("Reports API error: " +:+ msg))
                 | inr (JObj status_data) =>
                     match jget "status" status_data with
                     | Some (JStr status) =>
                         if String.eqb status "COMPLETED" then Ret (inr tt)
                         else if String.eqb status "FAILED" then
                           Ret (inl ("Reports export failed: " +:+ error_message status_data))
                         else Sleep poll_interval (poll_status r rq)
                     | _ => Sleep poll_interval (poll_status r rq)
                     end
                 | inr j => Ret (inl ("Reports API error: " +:+ AskMe.exc_text lib j))
                 end
               else
                 Ret (inl ("Reports status check error: HTTP "
                           +:+ pretty (status_code status_resp)))
           | _ => Ret (inl ("Reports API error: " +:+ raised_text o))
           end)
  end.

(** The download of a completed export (lines 400-410). *)
Definition download_export (rq : Request) : Prog string :=
  Http rq
    (fun o =>
       match o with
       | Responded download_resp =>
           if (status_code download_resp =? 200)%Z then
             Ret ("REPORT_DOWNLOAD:Reports:" +:+ PyStr.upper "pdf" +:+ ":"
                  +:+ Base64.b64encode (text download_resp))
           else
             Ret ("Reports download error: HTTP " +:+ pretty (status_code download_resp))
       | _ => Ret ("Reports API error: " +:+ raised_text o)
       end).

Definition export_payload : json :=
  JObj [("format", JStr "pdf"); ("pages", JArr [JStr "canvas1"])].

(** [ReportsMCPServer.handle_request] after its configuration test
    (lines 346-413). *)
Definition reports_export (reports_url user pass : string) : Prog string :=
  let auth := Some (user, pass) in
  let exports := reports_url +:+ "/api/20210901/catalog/workbooks/" +:+ workbook_id
                 +:+ "/exports" in
  Http (mkRequest POST exports [] (JsonBody export_payload) auth)
    (fun o =>
       match o with
       | Responded resp =>
           if (status_code resp =? 202)%Z then
             match json_body resp with
             | inl msg => Ret ("Reports API error: " +:+ msg)
             | inr (JObj export_data) =>
                 match jget "exportId" export_data with
                 | Some j =>
                     if truthy j then
                       let export_id :=
                         match j with JStr s => s | _ => AskMe.str_json lib j end in
                       let* polled :=
                         poll_status max_polls
                           (mkRequest GET (exports +:+ "/" +:+ export_id +:+ "/status")
                              [] NoBody auth) in
                       match polled with
                       | inl text => Ret text
                       | inr _ =>
                           download_export
                             (mkRequest GET (exports +:+ "/" +:+ export_id) [] NoBody auth)
                       end
                     else Ret "Reports API did not return export ID."
                 | None => Ret "Reports API did not return export ID."
                 end
             | inr j => Ret ("Reports API error: " +:+ AskMe.exc_text lib j)
             end
           else if (status_code resp =? 401)%Z then Ret "Reports API authentication failed."
           else Ret ("Reports export error: HTTP " +:+ pretty (status_code resp))
       | _ => Ret ("Reports API error: " +:+ raised_text o)
       end).

(** The library whose Finance and Reports branches are the code above. *)
Definition with_code : Library :=
  let on_configured (f : string -> string -> string -> Prog string) (s : Server) :=
    match configured s with
    | Some (a, u, p) => f a u p
    | None => Ret ""
    end in
  mkLibrary (general_live live) (fun s _ => on_configured finance_report s)
    (hr_live live) (fun s _ => on_configured reports_export s)
    (order_detail live) (timeout_text live).

End Live.

(** *** mcp_servers/base_server.py and the registry of RCOEGenAIAgents.py *)

(** An [MCPServer] object: the attributes of the base class, the fields
    of the subclass and its [handle_request]. *)
Record MCPServer := mkMCPServer {
  name : string;
  description : string;
  is_registered : bool;
  fields : Server;
  handle_request : string -> Prog string
}.

(** [register] logs and sets the flag; it returns [True]. *)
Definition register (s : MCPServer) : bool * MCPServer :=
  (true, mkMCPServer (name s) (description s) true (fields s) (handle_request s)).

Definition unregister (s : MCPServer) : MCPServer :=
  mkMCPServer (name s) (description s) false (fields s) (handle_request s).

(** [get_server_info]: name, description and the flag. *)
Definition get_server_info (s : MCPServer) : string * string * bool :=
  (name s, description s, is_registered s).

(** The fields the [__init__] of a server class reads from the
    configuration; [None] when [int] raises on [api_timeout]. *)
Definition new_fields (to_int : string -> option Z) (config : gmap string string)
    (kind : string) : option Server :=
  _ ← to_int (default "30" (config !! "api_timeout"));
  Some (mkServer
          (String.eqb (PyStr.lower (default "true" (config !! "use_mock_responses"))) "true")
          (config !! (kind +:+ "_agent_url"))
          (config !! (kind +:+ "_agent_username"))
          (config !! (kind +:+ "_agent_password"))).

(** The application: whether the client of the generative service was
    created, the region, and [mcp_servers] in the order of insertion. *)
Record App := mkApp {
  genai_client : bool;
  genai_region : option string;
  mcp_servers : list (string * MCPServer)
}.

(** What [route_to_mcp_server] returns. *)
Record Routed := mkRouted {
  advisor : string;
  response : string;
  intent : option string
}.

Definition rule28 : string := PyStr.repeat_str "─" 28.

Section Application.
Context (lib : AskMe.Library) (live : Library).

Definition GeneralMCPServer (f : Server) : MCPServer :=
  mkMCPServer "general" "General inquiries, help, capabilities, services overview"
    false f (general_handle_request live f).

Definition FinanceMCPServer (f : Server) : MCPServer :=
  mkMCPServer "finance" "Revenue, budget, expenses, costs, financial reports, profit/loss"
    false f (finance_handle_request live f).

Definition HRMCPServer (f : Server) : MCPServer :=
  mkMCPServer "hr" "HR policies, benefits, leave, employee matters, work policies, holidays"
    false f (hr_handle_request live f).

Definition OrdersMCPServer (f : Server) : MCPServer :=
  mkMCPServer "orders" "Sales orders, inventory, delivery, returns, shipping, stock, products"
    false f (orders_handle_request lib live f).

Definition ReportsMCPServer (f : Server) : MCPServer :=
  mkMCPServer "reports" "Analytics, workbooks, dashboards, OAC exports, visualizations"
    false f (reports_handle_request live f).

(** [if server.register(): mcp_servers[key] = server]. *)
Definition add_server (key : string) (s : MCPServer) (servers : list (string * MCPServer))
    : list (string * MCPServer) :=
  let '(registered, s') := register s in
  if registered then servers ++ [(key, s')] else servers.

(** Lines 156-184: the five servers are created and registered. *)
Definition initial_servers (to_int : string -> option Z) (config : gmap string string)
    : option (list (string * MCPServer)) :=
  g ← new_fields to_int config "general";
  f ← new_fields to_int config "finance";
  h ← new_fields to_int config "hr";
  o ← new_fields to_int config "orders";
  r ← new_fields to_int config "reports";
  Some (add_server "reports" (ReportsMCPServer r)
          (add_server "orders" (OrdersMCPServer o)
             (add_server "hr" (HRMCPServer h)
                (add_server "finance" (FinanceMCPServer f)
                   (add_server "general" (GeneralMCPServer g) []))))).

(** [classification_prompt] of [detect_intent_with_genai]. *)
Definition classification_prompt (prompt : string) : string :=
  "You are an intent classification assistant for an enterprise advisory system.
Based on the user's question, determine which advisor should handle it.

Available advisors:
- general: General inquiries, help, capabilities, services overview
- finance: Revenue, budget, expenses, costs, financial reports, profit/loss
- hr: HR policies, benefits, leave, employee matters, work policies, holidays
- orders: Sales orders, inventory, delivery, returns, shipping, stock, products
- reports: Analytics, workbooks, dashboards, OAC exports, visualizations

Respond with ONLY ONE WORD - the advisor name (general, finance, hr, orders, or reports).
If the query could match multiple advisors, choose the most relevant one.

User question: "
  +:+ prompt +:+
  "

Answer (one word only):".

Definition detect_intent_with_genai (app : App) (prompt : string) : Prog (option string) :=
  if genai_client app then
    Chat (mkChat (classification_prompt prompt) 10)
      (fun o =>
         match o with
         | ChatText s => Ret (AskMe.parse_intent s)
         | ChatEmpty => Ret None
         | ChatRaised _ => Ret None
         end)
  else Ret None.

(** [s.capitalize()] within ASCII; it is applied to a registered label. *)
Definition capitalize (s : string) : string :=
  match s with
  | EmptyString => EmptyString
  | String c s' => String (PyStr.upper_char c) (PyStr.lower s')
  end.

(** [advisor_labels.get(detected_intent, detected_intent.capitalize())]. *)
Definition advisor_label (detected_intent : string) : string :=
  default (capitalize detected_intent)
    (assoc detected_intent
       [("general", "General Agent 🤖"); ("finance", "Finance Advisor 💰");
        ("hr", "HR Advisor 👥"); ("orders", "Orders Advisor 📦");
        ("reports", "Reports Advisor 📊")]).

(** [route_to_mcp_server] (lines 260-308). *)
Definition route_to_mcp_server (app : App) (prompt : string) : Prog Routed :=
  let* detected := detect_intent_with_genai app prompt in
  let detected_intent :=
    match nonempty detected with
    | Some i => i
    | None => "general"
    end in
  match assoc detected_intent (mcp_servers app) with
  | Some server =>
      let* response := handle_request server prompt in
      Ret (mkRouted (advisor_label detected_intent) response (Some detected_intent))
  | None =>
      Ret (mkRouted "System"
             ("No advisor available for '" +:+ detected_intent +:+ "' queries.") None)
  end.

(** [list_mcp_servers]: the total, the information of each server, whether
    the generative service is enabled, and the region. *)
Definition list_mcp_servers (app : App)
    : nat * list (string * string * bool) * bool * option string :=
  let servers_info := (fun kv => get_server_info kv.2) <$> mcp_servers app in
  (length servers_info, servers_info, genai_client app, genai_region app).

Definition regular_response (advisor response t : string) : string :=
  "🎯 " +:+ advisor +:+ PyStr.nl +:+ rule28 +:+ PyStr.nl +:+ response
  +:+ PyStr.nl +:+ PyStr.nl +:+ "⏰ " +:+ t.

Definition pdf_ready_text (advisor : string) : string :=
  "🎯 " +:+ advisor +:+ PyStr.nl +:+ rule28 +:+ PyStr.nl
  +:+ "📄 Your report is ready!" +:+ PyStr.nl +:+ PyStr.nl
  +:+ "Click the button below to download the PDF report.".

Definition report_ready_text (advisor report_format : string) : string :=
  "🎯 " +:+ advisor +:+ PyStr.nl +:+ rule28 +:+ PyStr.nl
  +:+ "📊 Your analytics report is ready!" +:+ PyStr.nl +:+ PyStr.nl
  +:+ "Click the button below to download the " +:+ PyStr.upper report_format
  +:+ " report.".

(** Lines 470-526 of [chat]: what is done with the server's response. *)
Definition deliver (storage : gmap string AskMe.Download) (advisor response : string)
    : Prog (AskMe.ChatReply * gmap string AskMe.Download) :=
  let regular :=
    Now "%H:%M:%S"
      (fun t => Ret (AskMe.plain_reply 200 (regular_response advisor response t), storage)) in
  if PyStr.contains "PDF_DOWNLOAD:" response then
    let marked := PyStr.strip (AskMe.after_marker "PDF_DOWNLOAD:" response) in
    let '(advisor_name, pdf_data) :=
      match PyStr.splitn ":" 1 marked with
      | [advisor_name; pdf_data] => (advisor_name, pdf_data)
      | _ => ("Finance", marked)
      end in
    Uuid4 (fun download_id =>
    Now "%Y%m%d_%H%M%S" (fun timestamp =>
      Ret (AskMe.mkReply 200 (pdf_ready_text advisor) true
             (Some ("/download_pdf/" +:+ download_id)),
           <[download_id := AskMe.mkDownload "pdf" None pdf_data advisor_name timestamp]>
             storage)))
  else if PyStr.contains "REPORT_DOWNLOAD:" response then
    let download_marker := PyStr.strip (AskMe.after_marker "REPORT_DOWNLOAD:" response) in
    match PyStr.splitn ":" 2 download_marker with
    | [advisor_name; fmt; report_data] =>
        let report_format := PyStr.lower fmt in
        Uuid4 (fun download_id =>
        Now "%Y%m%d_%H%M%S" (fun timestamp =>
          Ret (AskMe.mkReply 200 (report_ready_text advisor report_format) true
                 (Some ("/download_report/" +:+ download_id)),
               <[download_id := AskMe.mkDownload "report" (Some report_format) report_data
                                  advisor_name timestamp]> storage)))
    | _ => regular
    end
  else regular.

(** [chat]: [data] is what [request.get_json()] returns, [None] when it
    raises. *)
Definition chat (app : App) (storage : gmap string AskMe.Download) (data : option json)
    : Prog (AskMe.ChatReply * gmap string AskMe.Download) :=
  let failed :=
    Ret (AskMe.plain_reply 500 "⚠️ An error occurred while processing your request.",
         storage) in
  let invalid_prompt :=
    Ret (AskMe.plain_reply 400 "⚠️ Error: Please provide a valid question", storage) in
  match data with
  | None => failed
  | Some j =>
      if negb (truthy j) then
        Ret (AskMe.plain_reply 400 "⚠️ Error: Invalid request format", storage)
      else
        match j with
        | JObj members =>
            match assoc "prompt" members with
            | Some (JStr prompt) =>
                if String.eqb prompt "" then invalid_prompt
                else
                  let* result := route_to_mcp_server app (PyStr.strip prompt) in
                  deliver storage (advisor result) (response result)
            | Some _ => invalid_prompt
            | None => invalid_prompt
            end
        | _ => failed
        end
  end.

End Application.

End Rcoe.

(** ** Vocabulary of the properties *)

(** Every keyword of the router of [AskMeChatBot.py]. *)
Definition all_keywords : list string :=
  AskMe.general_keywords ++ AskMe.finance_keywords ++ AskMe.hr_keywords
  ++ AskMe.orders_keywords ++ AskMe.reports_keywords.

(** The remote classifier is not consulted: the mode is [off] or there is
    no client. *)
Definition classifier_off (cfg : AskMe.Config) : Prop :=
  AskMe.GENAI_INTENT_MODE cfg = "off" \/ AskMe.genai_client cfg = false.

Definition replica_classifier_off (cfg : Replica.Config) : Prop :=
  Replica.GENAI_INTENT_MODE cfg = "off" \/ Replica.genai_client cfg = false.

(** The remote classifier is consulted: there is a client and the mode is
    not [off] (so it is [auto], [force] or any other text). *)
Definition classifier_on (cfg : AskMe.Config) : Prop :=
  AskMe.genai_client cfg = true /\ AskMe.GENAI_INTENT_MODE cfg <> "off".

Definition replica_classifier_on (cfg : Replica.Config) : Prop :=
  Replica.genai_client cfg = true /\ Replica.GENAI_INTENT_MODE cfg <> "off".

(** The classifier gave no label: its text, trimmed and lower-cased, is
    not one of the five labels, or the response was empty, or the call
    raised. *)
Definition no_label (o : Py.ChatOutcome) : Prop :=
  match o with
  | Py.ChatText s =>
      AskMe.in_list (PyStr.lower (PyStr.strip s)) AskMe.valid_intents = false
  | Py.ChatEmpty => True
  | Py.ChatRaised _ => True
  end.

(** None of the five labels occurs anywhere in the classifier's text, or
    the response was empty, or the call raised. *)
Definition no_label_inside (o : Py.ChatOutcome) : Prop :=
  match o with
  | Py.ChatText s =>
      PyStr.contains_any Replica.INTENTS (PyStr.lower (PyStr.strip s)) = false
  | Py.ChatEmpty => True
  | Py.ChatRaised _ => True
  end.

(** [label] is the first of the five labels, in the order of [INTENTS],
    that occurs in the classifier's text once trimmed and lower-cased. *)
Definition first_label_inside (s label : string) : Prop :=
  exists before after,
    Replica.INTENTS = before ++ label :: after
    /\ PyStr.contains label (PyStr.lower (PyStr.strip s)) = true
    /\ forall l, In l before -> PyStr.contains l (PyStr.lower (PyStr.strip s)) = false.

(** What [process_chat] does once the classifier gave the label
    [intent]: the advisor of the label alone, then the summary. *)
Definition replica_routed_chat (lib : Replica.Library) (cfg : Replica.Config)
    (intent prompt : string) : Py.Prog Replica.ChatResult :=
  let* advisors :=
    (let* a := Replica.advisor_func lib cfg intent prompt in Py.Ret [a]) in
  Py.Ret (Replica.summarise (Some intent) advisors).

(** In [func_replica.py]: the general advisor, then the other advisors
    whose keywords occur, then the summary. *)
Definition general_then_others (lib : Replica.Library) (cfg : Replica.Config)
    (prompt : string) : Py.Prog Replica.ChatResult :=
  let* g := Replica.advisor_general lib cfg prompt in
  let* others := Replica.fan_out lib cfg ["finance"; "hr"; "orders"; "reports"]
                   (PyStr.lower prompt) prompt in
  Py.Ret (Replica.summarise None (g :: others)).

(** ** Settings used in the examples *)

(** A library whose decoders find nothing. *)
Definition lib0 : AskMe.Library :=
  AskMe.mkLibrary (fun _ => None) (fun _ => None) (fun _ => None) (fun _ => None)
    (fun _ => "") (fun _ => "") (fun _ => None) (fun _ _ => "").

(** Mock mode, no client of the generative service, classifier off. *)
Definition mock_config : AskMe.Config := AskMe.mkConfig true false "off" ∅.

Definition rlib0 : Replica.Library :=
  Replica.mkLibrary (fun _ => Py.Ret ("api", "", None)) (fun _ => Py.Ret ("api", "", None))
    (fun _ => None) (fun _ => None) (fun _ => "").

Definition replica_mock_config : Replica.Config :=
  Replica.mkConfig true true false "off" "" false false "" 900
    "" "" "" "" "" "" "" "" "" "" "" "".

(** A server in mock mode, and live branches that answer nothing. *)
Definition mock_server : Rcoe.Server := Rcoe.mkServer true None None None.

Definition live0 : Rcoe.Library :=
  Rcoe.mkLibrary (fun _ _ => Py.Ret "") (fun _ _ => Py.Ret "") (fun _ _ => Py.Ret "")
    (fun _ _ => Py.Ret "") (fun _ _ => "") "".

(** A world with an empty bucket that answers nothing. *)
Definition quiet_world : Py.World :=
  Py.mkWorld [] ∅ (fun _ => false) (fun _ => None).

(** Classifier available, mode [auto], the advisors in mock mode. *)
Definition auto_config : AskMe.Config := AskMe.mkConfig true true "auto" ∅.

Definition replica_auto_config : Replica.Config :=
  Replica.mkConfig true true true "auto" "" false false "" 900
    "" "" "" "" "" "" "" "" "" "" "" "".

(** A world whose remote services give the answers [a]. *)
Definition answering (a : list Py.Answer) : Py.World :=
  Py.mkWorld a ∅ (fun _ => false) (fun _ => None).

(** The advisor types in the result of a run of [process_chat]. *)
Definition routed_types (r : option (Replica.ChatResult * list Py.Event * Py.World))
    : option (list string) :=
  (fun x => Replica.ar_type <$> Replica.advisors x.1.1) <$> r.

(** What [process_chat] does once keyword routing is chosen. *)
Definition replica_keyword_chat (lib : Replica.Library) (cfg : Replica.Config)
    (prompt : string) : Py.Prog Replica.ChatResult :=
  let* advisors := Replica.keyword_advisors lib cfg prompt in
  Py.Ret (Replica.summarise None advisors).

(** A program that makes no call to a remote service: no HTTP request, no
    call of the generative service, no access to the bucket. *)
Fixpoint offline {A : Type} (p : Py.Prog A) : Prop :=
  match p with
  | Py.Ret _ => True
  | Py.Http _ _ => False
  | Py.Chat _ _ => False
  | Py.Sleep _ k => offline k
  | Py.Uuid4 k => forall u, offline (k u)
  | Py.Now _ k => forall t, offline (k t)
  | Py.GetObject _ _ => False
  | Py.PutObject _ _ _ => False
  | Py.Presign _ _ _ => False
  end.

(** An adapter of [AskMeChatBot.py] answers with a text of its mock table,
    at once, and the text holds no download marker. *)
Definition canned (table : list (string * string)) (p : Py.Prog string) : Prop :=
  exists text, p = Py.Ret text /\ In text (snd <$> table) /\ AskMe.has_marker text = false.

(** A server of [mcp_servers/advisors.py] answers at once with a text
    that holds no download marker. *)
Definition canned_text (p : Py.Prog string) : Prop :=
  exists text, p = Py.Ret text /\ AskMe.has_marker text = false.

(** An advisor of [func_replica.py] answers at once with a mock result
    without artifact. *)
Definition canned_result (p : Py.Prog Replica.AdvisorResult) : Prop :=
  exists r, p = Py.Ret r /\ Replica.ar_source r = "mock" /\ Replica.ar_artifact r = None.

(** The configuration of the function with another value of
    [USE_MOCK_RESPONSES]. *)
Definition with_mock_flag (flag : bool) (cfg : Replica.Config) : Replica.Config :=
  Replica.mkConfig flag (Replica.REQUESTS_OK cfg) (Replica.genai_client cfg)
    (Replica.GENAI_INTENT_MODE cfg) (Replica.GENERAL_ORDS_URL cfg)
    (Replica.object_client cfg) (Replica.namespace_name cfg) (Replica.ARTIFACT_BUCKET cfg)
    (Replica.PRESIGN_TTL_SECONDS cfg)
    (Replica.FINANCE_URL cfg) (Replica.FINANCE_USER cfg) (Replica.FINANCE_PASS cfg)
    (Replica.ORDERS_URL cfg) (Replica.ORDERS_USER cfg) (Replica.ORDERS_PASS cfg)
    (Replica.REPORTS_URL cfg) (Replica.REPORTS_USER cfg) (Replica.REPORTS_PASS cfg)
    (Replica.HR_URL cfg) (Replica.HR_USER cfg) (Replica.HR_PASS cfg).

(** The request of the general advisor to the NL2SQL service. *)
Definition nl2sql_request (cfg : Replica.Config) (prompt : string) : Py.Request :=
  Py.mkRequest Py.POST (Replica.GENERAL_ORDS_URL cfg) []
    (Py.JsonBody (Py.JObj [("user_query", Py.JStr prompt)])) None.

(** The general advisor is about to ask the NL2SQL service: the service
    is configured, [requests] is there and the query holds one of the
    database keywords. *)
Definition asks_nl2sql (cfg : Replica.Config) (prompt : string) : bool :=
  Replica.nonblank (Replica.GENERAL_ORDS_URL cfg) && Replica.REQUESTS_OK cfg
  && PyStr.contains_any Replica.GENERAL_DB_KEYWORDS (PyStr.lower prompt).

(** The NL2SQL service gives no answer: the request fails, the response
    is not [ok], or it holds no answer. *)
Definition nl2sql_silent (lib : Replica.Library) (o : Py.HttpOutcome) : Prop :=
  match o with
  | Py.Responded r =>
      Replica.ok r = false \/ Py.nonempty (Replica.nl2sql_answer lib r) = None
  | Py.TimedOut => True
  | Py.RequestFailed _ => True
  end.

(** A download attempt fails when the service answers with a status other
    than 200 or the request times out. *)
Definition attempt_failed (o : Py.HttpOutcome) : Prop :=
  match o with
  | Py.Responded r => Py.status_code r <> 200%Z
  | Py.TimedOut => True
  | Py.RequestFailed _ => False
  end.

(** The calls of a run of attempts with the outcomes [outs]: one request
    per outcome, ten seconds of sleep between two requests. *)
Fixpoint attempts_trace (rq : Py.Request) (outs : list Py.HttpOutcome) : list Py.Event :=
  match outs with
  | [] => []
  | [o] => [Py.EvHttp rq o]
  | o :: rest => Py.EvHttp rq o :: Py.EvSleep 10 :: attempts_trace rq rest
  end.

(** The number of HTTP requests in a trace. *)
Definition http_calls (tr : list Py.Event) : nat :=
  length (List.filter (fun e => match e with Py.EvHttp _ _ => true | _ => false end) tr).

(** The text the adapter returns for a downloaded body. *)
Definition report_marker (body : string) : string :=
  "REPORT_DOWNLOAD:Reports:PDF:" +:+ Base64.b64encode body.

(** A response with the given status and body that is not JSON. *)
Definition plain_response (status : Z) (body : string) : Py.Response :=
  Py.mkResponse status body (inl "Expecting value").

(** Live mode with the reports service configured. *)
Definition reports_config : AskMe.Config :=
  AskMe.mkConfig false false "off"
    (<["reports_agent_url" := "https://oac.example"]>
       (<["reports_agent_username" := "analyst"]>
          (<["reports_agent_password" := "secret"]> ∅))).

Definition exports_url : string :=
  "https://oac.example/api/20210901/catalog/workbooks/"
  +:+ AskMe.default_workbook_id +:+ "/exports".

Definition download_request : Py.Request :=
  Py.mkRequest Py.GET (exports_url +:+ "/42") [] Py.NoBody (Some ("analyst", "secret")).

(** The export service accepts the job and names it by a resource URI. *)
Definition export_accepted : Py.Response :=
  Py.mkResponse 202 ""
    (inr (Py.JObj [("resourceUri", Py.JStr (exports_url +:+ "/42"))])).


(** [n] requests to a download route one after the other, each on the
    store the previous one left: the replies, and the store at the end. *)
Fixpoint serve_repeatedly
    (route : gmap string AskMe.Download -> string -> AskMe.FileReply * gmap string AskMe.Download)
    (n : nat) (storage : gmap string AskMe.Download) (download_id : string)
    : list AskMe.FileReply * gmap string AskMe.Download :=
  match n with
  | O => ([], storage)
  | S k =>
      let '(reply, storage') := route storage download_id in
      let '(replies, storage'') := serve_repeatedly route k storage' download_id in
      (reply :: replies, storage'')
  end.

(** The three download routes. *)
Definition download_routes
    : list (gmap string AskMe.Download -> string -> AskMe.FileReply * gmap string AskMe.Download) :=
  [AskMe.download_pdf; AskMe.download_report; Rcoe.download_pdf].

(** A store holding one finance report. *)
Definition one_report : gmap string AskMe.Download :=
  {["7c1d" := AskMe.mkDownload "pdf" None "JVBERi0xLjQ=" "Finance" "20251127_123456"]}.

(** [n] download actions on the same artifact, one after the other. *)
Fixpoint download_repeatedly (lib : Replica.Library) (cfg : Replica.Config)
    (artifact_id : string) (n : nat) : Py.Prog (list Replica.DownloadResult) :=
  match n with
  | O => Py.Ret []
  | S k =>
      let* r := Replica.process_download lib cfg artifact_id in
      let* rs := download_repeatedly lib cfg artifact_id k in
      Py.Ret (r :: rs)
  end.

(** The stored metadata document of an artifact, if there is one. *)
Definition stored_meta (w : Py.World) (key : string) : option (gmap string Py.json) :=
  match Py.bucket w !! key with
  | Some (Py.JsonObject meta) => Some meta
  | _ => None
  end.

(** The function with artifact storage configured. *)
Definition storage_config : Replica.Config :=
  Replica.mkConfig true true false "off" "" true true "artifacts" 900
    "" "" "" "" "" "" "" "" "" "" "" "".

(** The metadata the reports advisor stores when it starts an export. *)
Definition pending_meta : gmap string Py.json :=
  <["created" := Py.JStr "2025-11-27T12:34:56Z"]>
    (<["filename" := Py.JStr "Analytics_Report_20251127_123456.pdf"]>
       (<["status" := Py.JStr "pending"]>
          (<["advisor" := Py.JStr "reports"]>
             (<["type" := Py.JStr "pdf"]> {["id" := Py.JStr "e1"]})))).

(** A bucket that holds the metadata of a started export and nothing else:
    no export job has produced a file. *)
Definition export_started : Py.World :=
  Py.mkWorld [] {[Replica.meta_key "e1" := Py.JsonObject pending_meta]}
    (fun _ => false) (fun key => Some ("https://objectstorage.example/p/" +:+ key)).

(** The bucket after the export of [export_started] was finalised. *)
Definition export_finished : Py.World :=
  Py.mkWorld []
    (<[Replica.meta_key "e1" := Py.JsonObject (Replica.mark_ready pending_meta)]>
       (<[Replica.bin_key "e1" := Py.BinObject Replica.dummy_pdf]>
          {[Replica.meta_key "e1" := Py.JsonObject pending_meta]}))
    (fun _ => false) (fun key => Some ("https://objectstorage.example/p/" +:+ key)).

(** As [export_started], but the bucket refuses the binary object. *)
Definition export_started_readonly : Py.World :=
  Py.mkWorld [] {[Replica.meta_key "e1" := Py.JsonObject pending_meta]}
    (fun key => String.eqb key (Replica.bin_key "e1")) (fun _ => None).

(** What [datetime.fromisoformat] gives on the timestamps of the examples
    (seconds since the epoch for the aware values, seconds since
    [datetime.min] for the naive ones); it raises on every other text. *)
Definition iso_table : list (string * AskMe.datetime) :=
  [("2025-01-01T10:00:00+00:00", AskMe.Aware 1735725600);
   ("2025-02-01T10:00:00+00:00", AskMe.Aware 1738404000);
   ("2025-03-01T10:00:00+00:00", AskMe.Aware 1740823200);
   ("2025-01-01T10:00:00", AskMe.Naive 63871322400);
   ("2025-02-01T10:00:00", AskMe.Naive 63874000800);
   ("2025-03-01T10:00:00", AskMe.Naive 63876420000)].

Definition iso_lib : AskMe.Library :=
  AskMe.mkLibrary (fun _ => None) (fun _ => None) (fun _ => None)
    (fun s => Py.assoc s iso_table)
    (fun _ => "") (fun _ => "") (fun _ => None) (fun _ _ => "").

(** An order as the order service lists it. *)
Definition order (key last_update : string) : Py.json :=
  Py.JObj [("OrderKey", Py.JStr key); ("StatusCode", Py.JStr "OPEN");
           ("CreatedBy", Py.JStr "scm"); ("LastUpdateDate", Py.JStr last_update)].

Definition orders_response (items : list Py.json) : Py.Response :=
  Py.mkResponse 200 "" (inr (Py.JObj [("items", Py.JArr items)])).

(** Orders updated at T3, T1, T2, written with a trailing [Z], and one
    order whose timestamp cannot be parsed. *)
Definition orders_utc : list Py.json :=
  [order "A3" "2025-03-01T10:00:00Z"; order "A1" "2025-01-01T10:00:00Z";
   order "A2" "2025-02-01T10:00:00Z"; order "A0" "not-a-date"].

(** The same orders with timestamps that carry no offset. *)
Definition orders_local : list Py.json :=
  [order "A3" "2025-03-01T10:00:00"; order "A1" "2025-01-01T10:00:00";
   order "A2" "2025-02-01T10:00:00"; order "A0" "not-a-date"].

Definition is_aware (d : AskMe.datetime) : bool :=
  match d with
  | AskMe.Aware _ => true
  | AskMe.Naive _ => false
  end.

(** The instant of a value, for values of one kind. *)
Definition instant (d : AskMe.datetime) : Z :=
  match d with
  | AskMe.Aware t => t
  | AskMe.Naive t => t
  end.

(** The order keys of a decoded list, for reading results. *)
Definition order_keys (lib : AskMe.Library) (objs : list (list (string * Py.json))) : list string :=
  AskMe.field_text lib "OrderKey" <$> objs.

(** Live mode with the order service configured. *)
Definition orders_config : AskMe.Config :=
  AskMe.mkConfig false false "off"
    (<["orders_agent_url" := "https://scm.example/salesOrders"]>
       (<["orders_agent_username" := "buyer"]>
          (<["orders_agent_password" := "secret"]> ∅))).

Definition orders_list_request : Py.Request :=
  Py.mkRequest Py.GET "https://scm.example/salesOrders" [("limit", "10")] Py.NoBody
    (Some ("buyer", "secret")).

(** The order keys of the sorted list of a payload, [None] when the sort
    raises. *)
Definition sorted_order_keys (lib : AskMe.Library) (items : list Py.json) : option (list string) :=
  objs ← AskMe.as_objects items;
  order_keys lib <$> AskMe.sorted_desc (AskMe.last_update_key lib) objs.

(** The result of a program followed by the run of its continuation. *)
Definition then_run {A B : Type} (r : option (A * list Py.Event * Py.World))
    (f : A -> Py.Prog B) : option (B * list Py.Event * Py.World) :=
  match r with
  | Some (a, tr, w') =>
      match Py.run (f a) w' with
      | Some (b, tr', w'') => Some (b, tr ++ tr', w'')
      | None => None
      end
  | None => None
  end.

(** Two programs behave alike when in every world they give the same
    result, make the same calls and leave the same world. *)
Definition same_behaviour {A : Type} (p q : Py.Prog A) : Prop :=
  forall w, Py.run p w = Py.run q w.

(** Descending order of the keys of a list. *)
Definition descending {A : Type} (key : A -> AskMe.datetime) (l : list A) : Prop :=
  StronglySorted (fun a b => (instant (key b) <= instant (key a))%Z) l.

(** ** Tactics for runs of the download loop *)

(** [failed_attempt o H] splits a failed attempt [o] into its cases;
    [run_attempts] runs the loop on answers whose status tests are among
    the hypotheses. *)
Ltac failed_attempt o H :=
  destruct o as [? | | ?]; cbn in H; try contradiction;
  try apply Z.eqb_neq in H.

Ltac run_attempts :=
  repeat (cbn; match goal with H : (_ =? _)%Z = _ |- _ => rewrite H end);
  cbn; try reflexivity.

(** [next_answer], [on_status] and [finish_run] follow a run of the loop
    answer by answer. *)
Ltac next_answer H ans :=
  destruct ans as [|[[?r| |?m]| | |] ans]; cbn in H; try discriminate H.

Ltac on_status H :=
  match type of H with
  | context [(Py.status_code ?r =? 200)%Z] =>
      destruct (Py.status_code r =? 200)%Z eqn:?; cbn in H
  end.

Ltac finish_run H :=
  injection H as <- <- <-; cbn; split; [reflexivity | lia].

(** ** Vocabulary of the further properties *)

(** The character of a sextet decodes to the sextet, is no padding and
    is ASCII. *)
Definition sextet_ok (n : N) : bool :=
  match Base64.dec6 (Base64.enc6 n) with
  | Some m => (m =? n)%N
  | None => false
  end
  && negb (Ascii.eqb (Base64.enc6 n) "="%char)
  && (nat_of_ascii (Base64.enc6 n) <? 128)%nat.

(** Every character of a string passes a test. *)
Fixpoint all_chars (P : ascii -> bool) (s : string) : bool :=
  match s with
  | EmptyString => true
  | String c s' => P c && all_chars P s'
  end.

(** A character of ASCII. *)
Definition ascii_char (c : ascii) : bool := (nat_of_ascii c <? 128)%nat.

(** A character of ASCII that is no white space. *)
Definition plain_char (c : ascii) : bool :=
  negb (PyStr.is_space c) && (nat_of_ascii c <? 128)%nat.

(** A list of units is stable when cutting its text gives it back. *)
Definition stable (us : list (bool * string)) : Prop :=
  PyStr.units (PyStr.text_of us) = us.

(** A text of a download: characters of ASCII, no white space and no
    underscore. *)
Definition payload_char (c : ascii) : bool :=
  plain_char c && negb (Ascii.eqb c "_"%char).

(** The character of a sextet may stand in the text of a download. *)
Definition sextet_plain (n : N) : bool := payload_char (Base64.enc6 n).

(** The text a Finance adapter returns for a report whose Base64 text it
    found in the SOAP response. *)
Definition pdf_marker (body : string) : string :=
  "PDF_DOWNLOAD:Finance:" +:+ Base64.b64encode body.

(** The orders of one instant, in the order of the list. *)
Definition updated_at {A : Type} (key : A -> AskMe.datetime) (t : Z) (l : list A) : list A :=
  List.filter (fun x => (instant (key x) =? t)%Z) l.

(** The text of the order list for the orders [shown] of [total]. *)
Definition order_list_of (lib : AskMe.Library) (shown : list (list (string * Py.json)))
    (total : nat) : string :=
  "Recent Sales Orders (showing 10 of " +:+ pretty total +:+ "):" +:+ PyStr.nl
  +:+ PyStr.join PyStr.nl (AskMe.order_line lib <$> shown).

(** A call that stays inside the process: a sleep, a fresh id, the
    clock. *)
Definition local_event (e : Py.Event) : Prop :=
  match e with
  | Py.EvSleep _ | Py.EvUuid _ | Py.EvNow _ _ => True
  | _ => False
  end.

(** [costs p n Q]: whatever the outside answers, [p] makes at most [n]
    HTTP requests, and its result satisfies [Q]. *)
Fixpoint costs {A : Type} (p : Py.Prog A) (n : nat) (Q : A -> Prop) : Prop :=
  match p with
  | Py.Ret a => Q a
  | Py.Http _ k =>
      match n with
      | O => False
      | S m => forall o, costs (k o) m Q
      end
  | Py.Chat _ k => forall o, costs (k o) n Q
  | Py.Sleep _ k => costs k n Q
  | Py.Uuid4 k => forall u, costs (k u) n Q
  | Py.Now _ k => forall t, costs (k t) n Q
  | Py.GetObject _ k => forall o, costs (k o) n Q
  | Py.PutObject _ _ k => forall ok, costs (k ok) n Q
  | Py.Presign _ _ k => forall u, costs (k u) n Q
  end.

(** Nothing is said about the result. *)
Definition any_result {A : Type} : A -> Prop := fun _ => True.

(** The servers of the application are the five that the module creates. *)
Definition five_servers (lib : AskMe.Library) (live : Rcoe.Library)
    (servers : list (string * Rcoe.MCPServer)) : Prop :=
  exists to_int config, Rcoe.initial_servers lib live to_int config = Some servers.

(** The query is handed to the General server. *)
Definition general_route (g : Rcoe.MCPServer) (prompt : string) : Py.Prog Rcoe.Routed :=
  let* response := Rcoe.handle_request g prompt in
  Py.Ret (Rcoe.mkRouted "General Agent 🤖" response (Some "general")).

(** What a chat request does to the download store: nothing, or one
    entry is put under the id that the reply's download URL names. *)
Definition store_step (storage : gmap string AskMe.Download)
    (r : AskMe.ChatReply * gmap string AskMe.Download) : Prop :=
  (AskMe.has_pdf r.1 = false /\ AskMe.download_url r.1 = None /\ r.2 = storage)
  \/ exists route id d,
       AskMe.http_status r.1 = 200%Z /\ AskMe.has_pdf r.1 = true
       /\ AskMe.download_url r.1 = Some (route +:+ id)
       /\ r.2 = <[id := d]> storage
       /\ route = "/download_" +:+ AskMe.d_type d +:+ "/".

(** The answer of one advisor, under its title. *)
Definition titled (title : string) (l : list (string * string)) : Prop :=
  exists text, l = [(title, text)].

(** The titles of the advisors that keyword routing can combine, in the
    order of their answers. *)
Definition combined_titles : list string :=
  [AskMe.title_finance; AskMe.title_hr; AskMe.title_orders; AskMe.title_reports].

(** What routing returns: at least one answer; the General Agent alone,
    or advisors among Finance, HR, Orders and Reports, each at most once
    and in this order. *)
Definition routing_result (l : list (string * string)) : Prop :=
  l <> []
  /\ (fst <$> l = [AskMe.title_general] \/ sublist (fst <$> l) combined_titles).

(** A character other than [=]. *)
Definition not_eq_sign (c : ascii) : bool := negb (Ascii.eqb c "="%char).

(** A line of the configuration file as its author means it: a setting
    [key_part=value_part], or another line. *)
Inductive Line :=
| Setting (key_part value_part : string)
| Other (text : string).

(** The text of a line. *)
Definition line_text (l : Line) : string :=
  match l with
  | Setting a b => a +:+ "=" +:+ b
  | Other t => t
  end.

(** A setting has no [=] in its key part and is no comment; another line
    is blank, a comment, or holds no [=]. *)
Definition well_formed (l : Line) : Prop :=
  match l with
  | Setting a b =>
      PyStr.contains "=" a = false /\ PyStr.startswith "#" (PyStr.lstrip a) = false
  | Other t =>
      PyStr.strip t = "" \/ PyStr.startswith "#" (PyStr.strip t) = true
      \/ PyStr.contains "=" t = false
  end.

(** The settings of a file, first line first. *)
Fixpoint settings_of (ls : list Line) : list (string * string) :=
  match ls with
  | [] => []
  | Setting a b :: rest => (PyStr.strip a, PyStr.strip b) :: settings_of rest
  | Other _ :: rest => settings_of rest
  end.

(** A key or value as [load_config] stores it. *)
Definition trimmed_entry (k v : string) : Prop :=
  PyStr.strip k = k /\ PyStr.strip v = v
  /\ PyStr.contains "=" k = false /\ PyStr.startswith "#" k = false.

(** The payload can be read: it is an object, and its action is a string
    or counts as false. *)
Definition readable (payload : Py.json) : bool :=
  match payload with
  | Py.JObj members =>
      match Py.jget "action" members with
      | Some (Py.JStr _) => true
      | Some j => negb (Py.truthy j)
      | None => true
      end
  | _ => false
  end.

(** The response stands for a rejected request. *)
Definition rejected (out : Replica.HandlerOutcome) : Prop :=
  match out with
  | Replica.Answered status (Replica.Failure _ _) => status = 400%Z
  | _ => False
  end.

(** The response carries the result of an action. *)
Definition served (out : Replica.HandlerOutcome) : Prop :=
  match out with
  | Replica.Answered status (Replica.ChatBody _ _ _) => status = 200%Z
  | Replica.Answered status (Replica.DownloadBody _ (Replica.ArtifactReady _ _)) => status = 200%Z
  | Replica.Answered status (Replica.DownloadBody _ (Replica.NotReadyYet _)) => status = 200%Z
  | Replica.Answered status (Replica.DownloadFailure Replica.NotConfigured _) => status = 404%Z
  | Replica.Answered status (Replica.DownloadFailure Replica.MetadataNotFound _) => status = 404%Z
  | _ => False
  end.

(** The response reports an exception that the handler caught. *)
Definition failed (out : Replica.HandlerOutcome) : Prop :=
  match out with
  | Replica.Answered status (Replica.InternalError _ _) => status = 500%Z
  | _ => False
  end.

(** The payload asks for the download of the artifact [id]. *)
Definition asks_download (payload : Py.json) (id : Py.json) : Prop :=
  exists members,
    payload = Py.JObj members
    /\ Replica.action_of members = Some "download"
    /\ Py.jget "artifactId" members = Some id
    /\ Py.truthy id = true.

(** The session the response names. *)
Definition session_named (payload : Py.json) : Py.json :=
  match payload with
  | Py.JObj members => Replica.session_of members
  | _ => Py.JStr "default"
  end.



(** The status poll saw an export that is still running: a 200 response
    whose document holds a status other than COMPLETED and FAILED, or
    none. *)
Definition in_progress (o : Py.HttpOutcome) : Prop :=
  match o with
  | Py.Responded r =>
      Py.status_code r = 200%Z
      /\ exists status_data,
           Py.json_body r = inr (Py.JObj status_data)
           /\ match Py.jget "status" status_data with
              | Some (Py.JStr status) => status <> "COMPLETED" /\ status <> "FAILED"
              | _ => True
              end
  | _ => False
  end.

(** The status poll saw the end of the export. *)
Definition completed (o : Py.HttpOutcome) : Prop :=
  match o with
  | Py.Responded r =>
      Py.status_code r = 200%Z
      /\ exists status_data,
           Py.json_body r = inr (Py.JObj status_data)
           /\ Py.jget "status" status_data = Some (Py.JStr "COMPLETED")
  | _ => False
  end.

(** The calls of a run of polls with the outcomes [outs], each followed by
    the sleep of two seconds. *)
Definition polls_trace (rq : Py.Request) (outs : list Py.HttpOutcome) : list Py.Event :=
  outs ≫= (fun o => [Py.EvHttp rq o; Py.EvSleep 2]).

(** ** Settings used in the further examples *)

(** A request body that asks the reports advisor for an export. *)
Definition export_request : Py.json :=
  Py.JObj [("prompt", Py.JStr "export the analytics dashboard")].

(** The export service accepts the job and serves the file at once; then
    an id and a time stamp are drawn. *)
Definition export_world : Py.World :=
  answering [Py.AnsHttp (Py.Responded export_accepted);
             Py.AnsHttp (Py.Responded (plain_response 200 "%PDF-1.4"));
             Py.AnsUuid "7c1d"; Py.AnsNow "20251127_123456"].

(** The settings of [RCOEGenAIAgents.py] in live mode with the reports
    service configured. *)
Definition rcoe_settings : gmap string string :=
  <["use_mock_responses" := "false"]>
    (<["reports_agent_url" := "https://oac.example"]>
       (<["reports_agent_username" := "analyst"]>
          (<["reports_agent_password" := "secret"]> ∅))).

(** The application these settings give when the client of the
    generative service exists. *)
Definition rcoe_app : Rcoe.App :=
  Rcoe.mkApp true (Some "us-chicago-1")
    (default []
       (Rcoe.initial_servers lib0 (Rcoe.with_code lib0 live0) (fun _ => Some 30%Z)
          rcoe_settings)).

(** The answer of the export service to a status poll. *)
Definition status_response (status : string) : Py.Response :=
  Py.mkResponse 200 "" (inr (Py.JObj [("status", Py.JStr status)])).

(** The classifier names the reports server; the export service accepts
    the job under the id 42, reports it running and then completed, and
    serves the file; then an id and a time stamp are drawn. *)
Definition rcoe_export_world : Py.World :=
  answering [Py.AnsChat (Py.ChatText "Reports");
             Py.AnsHttp (Py.Responded
                           (Py.mkResponse 202 "" (inr (Py.JObj [("exportId", Py.JStr "42")]))));
             Py.AnsHttp (Py.Responded (status_response "RUNNING"));
             Py.AnsHttp (Py.Responded (status_response "COMPLETED"));
             Py.AnsHttp (Py.Responded (plain_response 200 "%PDF-1.4"));
             Py.AnsUuid "7c1d"; Py.AnsNow "20251127_123456"].

(** Live mode with the four services configured, classifier off. *)
Definition all_services : AskMe.Config :=
  AskMe.mkConfig false false "off"
    (list_to_map
       [("finance_agent_url", "https://erp.example/report");
        ("finance_agent_username", "clerk"); ("finance_agent_password", "secret");
        ("hr_agent_url", "https://hr.example/ask");
        ("orders_agent_url", "https://scm.example/salesOrders");
        ("orders_agent_username", "buyer"); ("orders_agent_password", "secret");
        ("reports_agent_url", "https://oac.example");
        ("reports_agent_username", "analyst"); ("reports_agent_password", "secret")]).

(** Three services refuse the connection; the export service accepts the
    job and then lets every download attempt time out. *)
Definition busy_world : Py.World :=
  answering [Py.AnsHttp (Py.RequestFailed "connection refused");
             Py.AnsHttp (Py.RequestFailed "connection refused");
             Py.AnsHttp (Py.RequestFailed "connection refused");
             Py.AnsHttp (Py.Responded export_accepted);
             Py.AnsHttp Py.TimedOut; Py.AnsHttp Py.TimedOut; Py.AnsHttp Py.TimedOut;
             Py.AnsNow "12:34:56"].

(** A question on the topics of four advisors. *)
Definition four_topics : string := "budget, leave, orders and the dashboard".

(** The members of the orders of [orders_local]. *)
Definition local_orders : list (list (string * Py.json)) :=
  default [] (AskMe.as_objects orders_local).

(** The no-break space U+00A0 and the Kelvin sign U+212A. *)
Definition no_break_space : string :=
  String (ascii_of_nat 194) (String (ascii_of_nat 160) EmptyString).

Definition kelvin_sign : string :=
  String (ascii_of_nat 226) (String (ascii_of_nat 132) (String (ascii_of_nat 170) EmptyString)).

(** A configuration file: a comment, two settings written with blanks, an
    empty line, a setting written with no-break spaces, a comment after a
    no-break space and a line without [=]. *)
Definition settings_file : list string :=
  ["# AskMe settings" +:+ PyStr.nl;
   "use_mock_responses = false" +:+ PyStr.nl;
   PyStr.nl;
   "  api_timeout=45  " +:+ PyStr.nl;
   "region" +:+ no_break_space +:+ "=" +:+ no_break_space +:+ "eu" +:+ no_break_space
     +:+ PyStr.nl;
   no_break_space +:+ "# note = none" +:+ PyStr.nl;
   "genai_intent_mode"].

(** The same file, line by line, as settings and other lines. *)
Definition settings_lines : list Line :=
  [Other ("# AskMe settings" +:+ PyStr.nl);
   Setting "use_mock_responses " (" false" +:+ PyStr.nl);
   Other PyStr.nl;
   Setting "  api_timeout" ("45  " +:+ PyStr.nl);
   Setting ("region" +:+ no_break_space)
     (no_break_space +:+ "eu" +:+ no_break_space +:+ PyStr.nl);
   Other (no_break_space +:+ "# note = none" +:+ PyStr.nl);
   Other "genai_intent_mode"].

(** The body of a download of the artifact [e1], and a bucket in which
    the metadata of [e1] is the JSON text of a list. *)
Definition loads_artifact (raw : string) : option Py.json :=
  if String.eqb raw "{...}" then
    Some (Py.JObj [("action", Py.JStr "download"); ("artifactId", Py.JStr "e1");
                   ("sessionId", Py.JStr "s1")])
  else None.

Definition listed_world : Py.World :=
  Py.mkWorld [] {[Replica.meta_key "e1" := Py.JsonOther Py.ListValue]}
    (fun _ => false) (fun _ => None).


(* ================================================================== *)
(** * Properties *)
(* ================================================================== *)

(** ** Sanity checks of the string operations against Python *)

Example contains_ex : PyStr.contains "order" "show me the purchase order report" = true.
Proof. reflexivity. Qed.
Example count_ex : PyStr.count "aa" "aaaaa" = 2%nat.
Proof. reflexivity. Qed.
Example split_ex : PyStr.split "::" "a::b:::c::" = ["a"; "b"; ":c"; ""].
Proof. reflexivity. Qed.
Example splitn_ex : PyStr.splitn ":" 2 "Reports:PDF:QUJD:x" = ["Reports"; "PDF"; "QUJD:x"].
Proof. reflexivity. Qed.
Example splitn_ex2 : PyStr.splitn ":" 1 "nocolon" = ["nocolon"].
Proof. reflexivity. Qed.
Example strip_ex : PyStr.strip "  Finance  " = "Finance".
Proof. reflexivity. Qed.
Example lower_ex : PyStr.lower "Show ME" = "show me".
Proof. reflexivity. Qed.
Example strip_no_break_space :
  PyStr.strip (no_break_space +:+ "Finance" +:+ no_break_space +:+ PyStr.nl) = "Finance".
Proof. reflexivity. Qed.
Example first_word_no_break_space :
  PyStr.first_word ("Finance" +:+ no_break_space +:+ "Advisor") = Some "Finance".
Proof. reflexivity. Qed.
Example lower_kelvin :
  PyStr.lower ("STOC" +:+ kelvin_sign +:+ " LEVELS") = "stock levels"
  /\ PyStr.contains_any AskMe.orders_keywords
       (PyStr.lower ("STOC" +:+ kelvin_sign +:+ " LEVELS")) = true.
Proof. split; reflexivity. Qed.
Example label_after_no_break_space :
  AskMe.parse_intent ("Finance" +:+ no_break_space) = Some "finance"
  /\ Replica.parse_intent ("Finance" +:+ no_break_space) = Some "finance".
Proof. repeat split; reflexivity. Qed.
Example config_line_no_break_space :
  AskMe.config_line ∅
    ("k" +:+ no_break_space +:+ "=" +:+ no_break_space +:+ "v" +:+ no_break_space)
  = {["k" := "v"]}
  /\ AskMe.config_line ∅ (no_break_space +:+ "# k = v") = ∅.
Proof. split; reflexivity. Qed.

(** ** Sanity checks of the Base64 model against Python *)

Example b64encode_ex : Base64.b64encode "Man" = "TWFu" /\ Base64.b64encode "Ma" = "TWE="
  /\ Base64.b64encode "M" = "TQ==" /\ Base64.b64encode "%PDF-1.4" = "JVBERi0xLjQ=".
Proof. repeat split; reflexivity. Qed.

Example b64decode_ex : Base64.b64decode "TWFu" = Some "Man" /\ Base64.b64decode "TWE=" = Some "Ma"
  /\ Base64.b64decode "TQ==" = Some "M" /\ Base64.b64decode "TQ=" = None
  /\ Base64.b64decode "A" = None /\ Base64.b64decode "TW Fu!" = Some "Man"
  /\ Base64.b64decode "TWE=TWFu" = Some "Ma" /\ Base64.b64decode "" = Some ""
  /\ Base64.b64decode "=TWFu" = Some "Man" /\ Base64.b64decode "T=WFu" = Some "Man"
  /\ Base64.b64decode "TWFuTQ" = None.
Proof. repeat split; reflexivity. Qed.

(** ** Facts about the string operations *)

Lemma contains_false_inv sub c s :
  PyStr.contains sub (String c s) = false ->
  PyStr.startswith sub (String c s) = false /\ PyStr.contains sub s = false.
Proof.
  cbn [PyStr.contains]. intros H. apply orb_false_elim in H. exact H.
Qed.

(** A string that does not occur is counted zero times. *)
Lemma count_from_absent sub s :
  PyStr.contains sub s = false -> forall skip, PyStr.count_from sub s skip = 0%nat.
Proof.
  induction s as [|c s IH]; intros H skip.
  - destruct sub; [discriminate H | reflexivity].
  - apply contains_false_inv in H as [Hp Hs].
    cbn [PyStr.count_from]. destruct skip as [|k].
    + rewrite Hp. apply IH, Hs.
    + apply IH, Hs.
Qed.

Lemma count_absent sub s : PyStr.contains sub s = false -> PyStr.count sub s = 0%nat.
Proof. intros H. apply count_from_absent, H. Qed.

(** An occurrence is counted at least once. *)
Lemma count_from_present sub s :
  sub <> EmptyString -> PyStr.contains sub s = true ->
  (0 < PyStr.count_from sub s 0)%nat.
Proof.
  intros Hne. induction s as [|c s IH]; intros H.
  - destruct sub; [congruence | discriminate H].
  - cbn [PyStr.contains] in H. cbn [PyStr.count_from].
    destruct (PyStr.startswith sub (String c s)) eqn:Hp; [lia|].
    apply IH. exact H.
Qed.

Lemma contains_any_false_inv k ks s :
  PyStr.contains_any (k :: ks) s = false ->
  PyStr.contains k s = false /\ PyStr.contains_any ks s = false.
Proof. unfold PyStr.contains_any. cbn [existsb]. intros H. apply orb_false_elim in H. exact H. Qed.

Lemma keyword_count_absent ks s :
  PyStr.contains_any ks s = false -> AskMe.keyword_count ks s = 0%nat.
Proof.
  induction ks as [|k ks IH]; intros H; [reflexivity|].
  apply contains_any_false_inv in H as [Hk Hks].
  unfold AskMe.keyword_count in *. cbn [foldr]. rewrite IH by exact Hks.
  rewrite count_absent by exact Hk. reflexivity.
Qed.

(** ** Running programs *)

Lemma then_run_step {A B : Type} (e : Py.Event) (r : option (A * list Py.Event * Py.World))
    (f : A -> Py.Prog B) :
  then_run (match r with Some (a, tr, w') => Some (a, e :: tr, w') | None => None end) f
  = match then_run r f with Some (b, tr, w') => Some (b, e :: tr, w') | None => None end.
Proof.
  destruct r as [[[a tr] w']|]; [|reflexivity]. cbn.
  destruct (Py.run (f a) w') as [[[b tr'] w'']|]; reflexivity.
Qed.

(** A sequence runs its first part, then the rest in the world that part
    left, and makes the calls of both in that order. *)
Lemma run_bind {A B : Type} (p : Py.Prog A) (f : A -> Py.Prog B) (w : Py.World) :
  Py.run (Py.bind p f) w = then_run (Py.run p w) f.
Proof.
  revert w. induction p as [a|rq k IH|rq k IH|secs k IH|k IH|fmt k IH|key k IH|key b k IH|key ttl k IH];
    intros w; cbn [Py.bind Py.run].
  - cbn. destruct (Py.run (f a) w) as [[[b tr] w']|]; reflexivity.
  - destruct (Py.answers w) as [|[o|o|u|t] rest]; try reflexivity.
    rewrite IH. symmetry. apply then_run_step.
  - destruct (Py.answers w) as [|[o|o|u|t] rest]; try reflexivity.
    rewrite IH. symmetry. apply then_run_step.
  - rewrite IH. symmetry. apply then_run_step.
  - destruct (Py.answers w) as [|[o|o|u|t] rest]; try reflexivity.
    rewrite IH. symmetry. apply then_run_step.
  - destruct (Py.answers w) as [|[o|o|u|t] rest]; try reflexivity.
    rewrite IH. symmetry. apply then_run_step.
  - rewrite IH. symmetry. apply then_run_step.
  - destruct (Py.faulty w key); rewrite IH; symmetry; apply then_run_step.
  - rewrite IH. symmetry. apply then_run_step.
Qed.

Lemma bind_assoc {A B C : Type} (p : Py.Prog A) (f : A -> Py.Prog B) (g : B -> Py.Prog C) :
  same_behaviour (Py.bind (Py.bind p f) g) (Py.bind p (fun a => Py.bind (f a) g)).
Proof.
  intros w. rewrite !run_bind.
  destruct (Py.run p w) as [[[a tr] w']|]; [|reflexivity]. cbn.
  rewrite run_bind.
  destruct (Py.run (f a) w') as [[[b tr'] w'']|]; [|reflexivity]. cbn.
  destruct (Py.run (g b) w'') as [[[c tr''] w''']|]; [|reflexivity].
  rewrite app_assoc. reflexivity.
Qed.

Lemma bind_cong {A B : Type} (p : Py.Prog A) (f g : A -> Py.Prog B) :
  (forall a, same_behaviour (f a) (g a)) -> same_behaviour (Py.bind p f) (Py.bind p g).
Proof.
  intros H w. rewrite !run_bind.
  destruct (Py.run p w) as [[[a tr] w']|]; [|reflexivity]. cbn. rewrite H. reflexivity.
Qed.

(** ** Routing by keywords *)

Lemma contains_any_app ks1 ks2 s :
  PyStr.contains_any (ks1 ++ ks2) s = PyStr.contains_any ks1 s || PyStr.contains_any ks2 s.
Proof. unfold PyStr.contains_any. apply existsb_app. Qed.

(** Without the classifier [process_user_query] is keyword routing. *)
Lemma process_user_query_off lib cfg prompt :
  classifier_off cfg ->
  AskMe.process_user_query lib cfg prompt = AskMe.keyword_routing lib cfg prompt.
Proof.
  intros [Hm|Hc]; unfold AskMe.process_user_query.
  - rewrite Hm. cbn. rewrite andb_false_r. reflexivity.
  - rewrite Hc. reflexivity.
Qed.

Lemma detect_intent_off cfg prompt :
  replica_classifier_off cfg ->
  (if negb (String.eqb (Replica.GENAI_INTENT_MODE cfg) "off")
   then Replica.detect_intent cfg prompt else Py.Ret None) = Py.Ret None.
Proof.
  intros [Hm|Hc].
  - rewrite Hm. reflexivity.
  - unfold Replica.detect_intent. rewrite Hc. cbn.
    destruct (negb _); reflexivity.
Qed.

(** Without the classifier [process_chat] is keyword routing followed by
    the summary. *)
Lemma process_chat_off lib cfg prompt :
  replica_classifier_off cfg ->
  Replica.process_chat lib cfg prompt
  = (let* advisors := Replica.keyword_advisors lib cfg prompt in
     Py.Ret (Replica.summarise None advisors)).
Proof.
  intros H. unfold Replica.process_chat. rewrite (detect_intent_off cfg prompt H).
  reflexivity.
Qed.

(** In [func_replica.py] a general keyword puts the general advisor first
    and the advisors of the other matching keywords after it. *)
Lemma keyword_advisors_general lib cfg prompt :
  PyStr.contains_any Replica.general_keywords (PyStr.lower prompt) = true ->
  same_behaviour (Replica.keyword_advisors lib cfg prompt)
    (let* g := Replica.advisor_general lib cfg prompt in
     let* others := Replica.fan_out lib cfg ["finance"; "hr"; "orders"; "reports"]
                      (PyStr.lower prompt) prompt in
     Py.Ret (g :: others)).
Proof.
  intros H w. unfold Replica.keyword_advisors. cbv zeta. rewrite H.
  rewrite (bind_assoc _ _ _ w). apply bind_cong. intros a w'. reflexivity.
Qed.

Lemma find_none_of_existsb {A : Type} (f : A -> bool) (l : list A) :
  existsb f l = false -> find f l = None.
Proof.
  induction l as [|x l IH]; [reflexivity|]. cbn. intros H.
  apply orb_false_elim in H as [Hx Hl]. rewrite Hx. apply IH, Hl.
Qed.

Lemma askme_parse_intent_invalid s :
  AskMe.in_list (PyStr.lower (PyStr.strip s)) AskMe.valid_intents = false ->
  AskMe.parse_intent s = None.
Proof. intros H. unfold AskMe.parse_intent. cbv zeta. rewrite H. reflexivity. Qed.

Lemma replica_parse_intent_none s :
  PyStr.contains_any Replica.INTENTS (PyStr.lower (PyStr.strip s)) = false ->
  Replica.parse_intent s = None.
Proof. intros H. unfold Replica.parse_intent. apply find_none_of_existsb, H. Qed.

(** In [AskMeChatBot.py] a general keyword makes keyword routing one call
    of the General agent. *)
Lemma keyword_routing_general lib cfg prompt :
  PyStr.contains_any AskMe.general_keywords (PyStr.lower prompt) = true ->
  AskMe.keyword_routing lib cfg prompt
  = AskMe.answer_of AskMe.title_general (AskMe.get_general_advice lib cfg) prompt.
Proof. intros H. unfold AskMe.keyword_routing. rewrite H. reflexivity. Qed.

Lemma replica_keyword_chat_general lib cfg prompt :
  PyStr.contains_any Replica.general_keywords (PyStr.lower prompt) = true ->
  same_behaviour (replica_keyword_chat lib cfg prompt) (general_then_others lib cfg prompt).
Proof.
  intros Hgen w. unfold replica_keyword_chat, general_then_others.
  rewrite run_bind, (keyword_advisors_general lib cfg prompt Hgen w), <- run_bind.
  rewrite (bind_assoc _ _ _ w). apply bind_cong. intros g w'.
  rewrite (bind_assoc _ _ _ w'). apply bind_cong. intros others w''. reflexivity.
Qed.

(** With the classifier in use, [process_user_query] asks it and, when it
    gives no label, goes on with keyword routing. *)
Lemma askme_after_classifier lib cfg prompt :
  classifier_on cfg ->
  exists k,
    AskMe.process_user_query lib cfg prompt
    = Py.Chat (Py.mkChat (AskMe.classification_prompt prompt) 10) k
    /\ forall o, no_label o -> k o = AskMe.keyword_routing lib cfg prompt.
Proof.
  intros [Hc Hm]. apply String.eqb_neq in Hm.
  unfold AskMe.process_user_query, AskMe.detect_intent_with_genai.
  rewrite Hc, Hm. cbn [andb negb Py.bind]. eexists. split; [reflexivity|].
  intros [s| |msg] Ho; cbn in Ho; [|reflexivity|reflexivity].
  rewrite (askme_parse_intent_invalid s Ho). reflexivity.
Qed.

(** The same for [process_chat], where a text gives no label only when no
    label occurs in it. *)
Lemma replica_after_classifier lib cfg prompt :
  replica_classifier_on cfg ->
  exists k,
    Replica.process_chat lib cfg prompt
    = Py.Chat (Py.mkChat (Replica.intent_prompt prompt) 12) k
    /\ forall o, no_label_inside o -> k o = replica_keyword_chat lib cfg prompt.
Proof.
  intros [Hc Hm]. apply String.eqb_neq in Hm.
  unfold Replica.process_chat, Replica.detect_intent.
  rewrite Hc, Hm. cbn [orb negb Py.bind]. eexists. split; [reflexivity|].
  intros [s| |msg] Ho; cbn in Ho; [|reflexivity|reflexivity].
  rewrite (replica_parse_intent_none s Ho). reflexivity.
Qed.

(** The first element of a list that passes a test. *)
Lemma find_first {A} (P : A -> bool) before x after :
  (forall a, In a before -> P a = false) -> P x = true ->
  find P (before ++ x :: after) = Some x.
Proof.
  intros Hb Hx. induction before as [|b before IH]; cbn.
  - now rewrite Hx.
  - rewrite (Hb b) by now left. apply IH. intros a Ha. apply Hb. now right.
Qed.

Lemma first_that_passes {A} (P : A -> bool) l :
  existsb P l = true ->
  exists before x after,
    l = before ++ x :: after /\ P x = true /\ forall a, In a before -> P a = false.
Proof.
  induction l as [|y l IH]; [discriminate|]. cbn [existsb].
  destruct (P y) eqn:Hy.
  - intros _. exists [], y, l. repeat split; [exact Hy | intros a []].
  - intros H. destruct (IH H) as (before & x & after & -> & Hx & Hb).
    exists (y :: before), x, after. repeat split; [exact Hx|].
    intros a [<-|Ha]; [exact Hy | exact (Hb a Ha)].
Qed.

(** In [func_replica.py] the classifier's text gives the first label that
    occurs in it, and [process_chat] goes on with the advisor of that
    label alone. *)
Lemma replica_parse_intent_first s label :
  first_label_inside s label -> Replica.parse_intent s = Some label.
Proof.
  intros (before & after & E & Hl & Hb). unfold Replica.parse_intent. cbv zeta.
  rewrite E. now apply find_first.
Qed.

Lemma replica_label_inside s :
  ~ no_label_inside (Py.ChatText s) -> exists label, first_label_inside s label.
Proof.
  cbn [no_label_inside]. intros H. apply not_false_is_true in H.
  apply first_that_passes in H as (before & x & after & E & Hx & Hb).
  exists x, before, after. auto.
Qed.

Lemma replica_after_label lib cfg prompt :
  replica_classifier_on cfg ->
  exists k,
    Replica.process_chat lib cfg prompt
    = Py.Chat (Py.mkChat (Replica.intent_prompt prompt) 12) k
    /\ forall s label,
         first_label_inside s label ->
         k (Py.ChatText s) = replica_routed_chat lib cfg label prompt.
Proof.
  intros [Hc Hm]. apply String.eqb_neq in Hm.
  unfold Replica.process_chat, Replica.detect_intent.
  rewrite Hc, Hm. cbn [orb negb Py.bind]. eexists. split; [reflexivity|].
  intros s label Hl. cbn beta iota.
  rewrite (replica_parse_intent_first s label Hl). reflexivity.
Qed.

(** C1 (as amended).  Let the lower-cased query contain a general keyword.
    In [AskMeChatBot.py], [process_user_query] with the classifier off, and
    the rest of it after a classifier that gave no label, is exactly one
    call of the General agent, whatever other keywords occur.  In
    [func_replica.py], [process_chat] in the same two situations calls the
    general advisor first and then every other advisor whose keywords
    occur, and returns their results in that order. *)
Theorem general_keyword_routing lib cfg rlib rcfg prompt :
  (PyStr.contains_any AskMe.general_keywords (PyStr.lower prompt) = true ->
   (classifier_off cfg ->
    AskMe.process_user_query lib cfg prompt
    = AskMe.answer_of AskMe.title_general (AskMe.get_general_advice lib cfg) prompt)
   /\ (classifier_on cfg ->
       exists k,
         AskMe.process_user_query lib cfg prompt
         = Py.Chat (Py.mkChat (AskMe.classification_prompt prompt) 10) k
         /\ forall o, no_label o ->
              k o = AskMe.answer_of AskMe.title_general
                      (AskMe.get_general_advice lib cfg) prompt))
  /\ (PyStr.contains_any Replica.general_keywords (PyStr.lower prompt) = true ->
      (replica_classifier_off rcfg ->
       same_behaviour (Replica.process_chat rlib rcfg prompt)
         (general_then_others rlib rcfg prompt))
      /\ (replica_classifier_on rcfg ->
          exists k,
            Replica.process_chat rlib rcfg prompt
            = Py.Chat (Py.mkChat (Replica.intent_prompt prompt) 12) k
            /\ forall o, no_label_inside o ->
                 same_behaviour (k o) (general_then_others rlib rcfg prompt))).
Proof.
  split.
  - intros Hgen. split.
    + intros Hoff. rewrite process_user_query_off by exact Hoff.
      apply keyword_routing_general, Hgen.
    + intros Hon. destruct (askme_after_classifier lib cfg prompt Hon) as [k [Hk Hfail]].
      exists k. split; [exact Hk|]. intros o Ho. rewrite (Hfail o Ho).
      apply keyword_routing_general, Hgen.
  - intros Hgen. split.
    + intros Hoff. rewrite process_chat_off by exact Hoff.
      apply replica_keyword_chat_general, Hgen.
    + intros Hon. destruct (replica_after_classifier rlib rcfg prompt Hon) as [k [Hk Hfail]].
      exists k. split; [exact Hk|]. intros o Ho. rewrite (Hfail o Ho).
      apply replica_keyword_chat_general, Hgen.
Qed.

Lemma general_keyword_routing_witness :
  PyStr.contains_any AskMe.general_keywords (PyStr.lower "help me with the budget") = true
  /\ PyStr.contains_any Replica.general_keywords (PyStr.lower "help me with the budget") = true
  /\ AskMe.process_user_query lib0 mock_config "help me with the budget"
     = AskMe.answer_of AskMe.title_general (AskMe.get_general_advice lib0 mock_config)
         "help me with the budget"
  /\ same_behaviour (Replica.process_chat rlib0 replica_mock_config "help me with the budget")
       (general_then_others rlib0 replica_mock_config "help me with the budget").
Proof.
  destruct (general_keyword_routing lib0 mock_config rlib0 replica_mock_config
              "help me with the budget") as [H1 H2].
  split; [reflexivity|]. split; [reflexivity|]. split.
  - apply H1; [reflexivity | left; reflexivity].
  - apply H2; [reflexivity | left; reflexivity].
Defined.

(** C1 fails as stated on [func_replica.py]: with the classifier off, the
    query "help me with the budget" contains the general keyword "help",
    and [process_chat] returns two results, the second from the finance
    advisor. *)
Lemma general_keyword_fans_out_in_replica :
  PyStr.contains_any Replica.general_keywords (PyStr.lower "help me with the budget") = true
  /\ exists res,
       Replica.process_chat rlib0 replica_mock_config "help me with the budget" = Py.Ret res
       /\ Replica.ar_type <$> Replica.advisors res = ["general"; "finance"].
Proof.
  split; [reflexivity|]. eexists. split; reflexivity.
Qed.

(** The entry [most_relevant] selects has the greatest count, and no entry
    before it has that count. *)
Lemma best_of_spec best rest :
  exists n, In (AskMe.best_of best rest, n) (best :: rest)
            /\ n = AskMe.max_count (best :: rest).
Proof.
  revert best. induction rest as [|kv rest IH]; intros [k c].
  - exists c. cbn. split; [left; reflexivity | lia].
  - cbn [AskMe.best_of]. cbn [snd]. destruct (c <? kv.2)%nat eqn:E.
    + destruct (IH kv) as [n [Hin Hn]]. exists n. split; [right; exact Hin|].
      apply Nat.ltb_lt in E. revert Hn. unfold AskMe.max_count. cbn [foldr snd]. lia.
    + destruct (IH (k, c)) as [n [Hin Hn]]. exists n. split.
      * destruct Hin as [Hin|Hin]; [left; exact Hin | right; right; exact Hin].
      * apply Nat.ltb_ge in E. revert Hn. unfold AskMe.max_count. cbn [foldr snd]. lia.
Qed.

Lemma most_relevant_spec prompt_lower :
  exists n, In (AskMe.most_relevant (AskMe.word_counts prompt_lower), n)
              (AskMe.word_counts prompt_lower)
            /\ n = AskMe.max_count (AskMe.word_counts prompt_lower).
Proof. unfold AskMe.word_counts, AskMe.most_relevant. apply best_of_spec. Qed.

(** C5.  When no keyword of any advisor occurs in the lower-cased query,
    keyword routing is the ranking of lines 1109-1134; every count of the
    ranking is zero; and the ranking, finding no positive count, calls the
    General agent only.  ([most_relevant_spec] is the ranking's choice when
    a count is positive.) *)
Theorem no_keyword_routes_to_general lib cfg prompt :
  PyStr.contains_any all_keywords (PyStr.lower prompt) = false ->
  AskMe.keyword_routing lib cfg prompt = AskMe.infer_advisor lib cfg prompt
  /\ Forall (fun kv => kv.2 = 0%nat) (AskMe.word_counts (PyStr.lower prompt))
  /\ AskMe.keyword_routing lib cfg prompt
     = AskMe.answer_of AskMe.title_general (AskMe.get_general_advice lib cfg) prompt.
Proof.
  unfold all_keywords. rewrite !contains_any_app. intros H.
  apply orb_false_elim in H as [Hg H]. apply orb_false_elim in H as [Hf H].
  apply orb_false_elim in H as [Hh H]. apply orb_false_elim in H as [Ho Hr].
  assert (Hroute : AskMe.keyword_routing lib cfg prompt = AskMe.infer_advisor lib cfg prompt).
  { unfold AskMe.keyword_routing, AskMe.when_matched. rewrite Hg, Hf, Hh, Ho, Hr. reflexivity. }
  assert (Hcounts : AskMe.word_counts (PyStr.lower prompt)
                    = [("finance", 0); ("hr", 0); ("orders", 0); ("reports", 0)]%nat).
  { unfold AskMe.word_counts. rewrite !keyword_count_absent by assumption. reflexivity. }
  split; [exact Hroute|]. split.
  - rewrite Hcounts. repeat constructor.
  - rewrite Hroute. unfold AskMe.infer_advisor. cbv zeta. rewrite Hcounts. reflexivity.
Qed.

Lemma no_keyword_routes_to_general_witness :
  PyStr.contains_any all_keywords (PyStr.lower "hello there") = false
  /\ AskMe.keyword_routing lib0 mock_config "hello there"
     = AskMe.answer_of AskMe.title_general (AskMe.get_general_advice lib0 mock_config)
         "hello there".
Proof.
  split; [reflexivity|].
  apply (no_keyword_routes_to_general lib0 mock_config "hello there"). reflexivity.
Defined.

(** ** The remote classifier *)

(** C4 (as amended).  With the classifier in use (a client and a mode
    other than [off], so [auto] and [force] alike), the router asks the
    classifier once and continues with [k] on its answer.
    - In [AskMeChatBot.py], after any text that is not one of the five
      labels once trimmed and lower-cased, after an empty response and
      after an error, [k] is keyword routing: the very program the router
      is when there is no client.
    - In [func_replica.py] the same holds after any text in which none of
      the five labels occurs as a substring.  A text in which a label
      occurs has a first such label in the order general, finance, hr,
      orders, reports, and after it [k] is the advisor of that label
      alone, with that label as the routed intent.
    No answer of the classifier makes the request fail: the router goes
    on in every case. *)
Theorem invalid_label_falls_back lib cfg rlib rcfg prompt :
  (classifier_on cfg ->
   exists k,
     AskMe.process_user_query lib cfg prompt
     = Py.Chat (Py.mkChat (AskMe.classification_prompt prompt) 10) k
     /\ forall o, no_label o -> k o = AskMe.keyword_routing lib cfg prompt)
  /\ (AskMe.genai_client cfg = false ->
      AskMe.process_user_query lib cfg prompt = AskMe.keyword_routing lib cfg prompt)
  /\ (replica_classifier_on rcfg ->
      exists k,
        Replica.process_chat rlib rcfg prompt
        = Py.Chat (Py.mkChat (Replica.intent_prompt prompt) 12) k
        /\ forall o, no_label_inside o -> k o = replica_keyword_chat rlib rcfg prompt)
  /\ (Replica.genai_client rcfg = false ->
      Replica.process_chat rlib rcfg prompt = replica_keyword_chat rlib rcfg prompt)
  /\ (replica_classifier_on rcfg ->
      exists k,
        Replica.process_chat rlib rcfg prompt
        = Py.Chat (Py.mkChat (Replica.intent_prompt prompt) 12) k
        /\ forall s label,
             first_label_inside s label ->
             k (Py.ChatText s) = replica_routed_chat rlib rcfg label prompt)
  /\ (forall s, ~ no_label_inside (Py.ChatText s) ->
                exists label, first_label_inside s label).
Proof.
  split; [|split; [|split; [|split; [|split]]]].
  - apply askme_after_classifier.
  - intros Hc. apply process_user_query_off. right. exact Hc.
  - apply replica_after_classifier.
  - intros Hc. apply process_chat_off. right. exact Hc.
  - apply replica_after_label.
  - apply replica_label_inside.
Qed.

Lemma invalid_label_falls_back_witness :
  classifier_on auto_config
  /\ replica_classifier_on replica_auto_config
  /\ no_label (Py.ChatText "I am not sure")
  /\ no_label_inside (Py.ChatText "I am not sure")
  /\ (exists k,
        AskMe.process_user_query lib0 auto_config "what is our leave policy"
        = Py.Chat (Py.mkChat (AskMe.classification_prompt "what is our leave policy") 10) k
        /\ k (Py.ChatText "I am not sure")
           = AskMe.keyword_routing lib0 auto_config "what is our leave policy")
  /\ (exists k,
        Replica.process_chat rlib0 replica_auto_config "what is our leave policy"
        = Py.Chat (Py.mkChat (Replica.intent_prompt "what is our leave policy") 12) k
        /\ k (Py.ChatText "I am not sure")
           = replica_keyword_chat rlib0 replica_auto_config "what is our leave policy").
Proof.
  assert (Hon : classifier_on auto_config) by (split; [reflexivity | discriminate]).
  assert (Hron : replica_classifier_on replica_auto_config)
    by (split; [reflexivity | discriminate]).
  destruct (invalid_label_falls_back lib0 auto_config rlib0 replica_auto_config
              "what is our leave policy") as [HA [_ [HR _]]].
  split; [exact Hon|]. split; [exact Hron|].
  split; [reflexivity|]. split; [reflexivity|]. split.
  - destruct (HA Hon) as [k [Hk Hs]].
    exists k. split; [exact Hk | apply Hs; reflexivity].
  - destruct (HR Hron) as [k [Hk Hs]].
    exists k. split; [exact Hk | apply Hs; reflexivity].
Defined.

(** C4 fails as stated on [func_replica.py]: the classifier's text
    "finance advisor" is not one of the five labels, yet [process_chat]
    routes the query "what is our leave policy" to the finance advisor,
    while after a classifier error keyword routing sends it to HR. *)
Lemma label_inside_text_is_accepted :
  no_label (Py.ChatText "finance advisor")
  /\ routed_types
       (Py.run (Replica.process_chat rlib0 replica_auto_config "what is our leave policy")
          (answering [Py.AnsChat (Py.ChatText "finance advisor")]))
     = Some ["finance"]
  /\ routed_types
       (Py.run (Replica.process_chat rlib0 replica_auto_config "what is our leave policy")
          (answering [Py.AnsChat (Py.ChatRaised "service unavailable")]))
     = Some ["hr"].
Proof. repeat split; reflexivity. Qed.

(** ** Mock mode *)

Lemma mock_reply_cases table dflt ql :
  In (AskMe.mock_reply table dflt ql) (snd <$> table)
  \/ AskMe.mock_reply table dflt ql = AskMe.item dflt table.
Proof.
  unfold AskMe.mock_reply.
  destruct (find _ table) as [kv|] eqn:E; [left | right; reflexivity].
  apply find_some in E as [Hin _]. apply in_map. exact Hin.
Qed.

Lemma canned_mock_reply table dflt ql :
  In (AskMe.item dflt table) (snd <$> table) ->
  forallb (fun kv => negb (AskMe.has_marker kv.2)) table = true ->
  canned table (Py.Ret (AskMe.mock_reply table dflt ql)).
Proof.
  intros Hd Hm. exists (AskMe.mock_reply table dflt ql). split; [reflexivity|].
  assert (Hin : In (AskMe.mock_reply table dflt ql) (snd <$> table)).
  { destruct (mock_reply_cases table dflt ql) as [H|H]; [exact H | rewrite H; exact Hd]. }
  split; [exact Hin|].
  apply in_map_iff in Hin as [kv [Hkv Hin]]. rewrite forallb_forall in Hm.
  specialize (Hm kv Hin). rewrite Hkv in Hm. apply negb_true_iff in Hm. exact Hm.
Qed.

(** With mock mode on, the General agent still calls the generative
    service when a client exists: the flag only keeps it from the NL2SQL
    service. *)
Lemma general_agent_ignores_mock_flag lib cfg query :
  AskMe.USE_MOCK_RESPONSES cfg = true -> AskMe.genai_client cfg = true ->
  exists k, AskMe.get_general_advice lib cfg query = Py.Chat (Py.mkChat query 500) k.
Proof.
  intros Hm Hc. unfold AskMe.get_general_advice, AskMe.call_agent_api. cbv zeta.
  rewrite Hm, Hc.
  destruct (PyStr.contains_any _ _); cbn; eexists; reflexivity.
Qed.

(** The general advisor of [func_replica.py] asks the NL2SQL service
    first when [asks_nl2sql] holds, and returns its answer when it gives
    one; the mock flag plays no part. *)
Lemma advisor_general_asks_nl2sql rlib rcfg query :
  asks_nl2sql rcfg query = true ->
  exists k,
    Replica.advisor_general rlib rcfg query = Py.Http (nl2sql_request rcfg query) k
    /\ (forall r ans,
          Replica.ok r = true -> Py.nonempty (Replica.nl2sql_answer rlib r) = Some ans ->
          k (Py.Responded r)
          = Py.Ret (Replica.mkResult Replica.name_general "general" "nl2sql" ans None))
    /\ (forall o,
          nl2sql_silent rlib o -> Replica.genai_client rcfg = true ->
          exists k', k o = Py.Chat (Py.mkChat query 500) k').
Proof.
  unfold asks_nl2sql. intros H. unfold Replica.advisor_general. cbv zeta. rewrite H.
  eexists. split; [reflexivity|]. split.
  - intros r ans Hok Ha. cbn beta iota. now rewrite Hok, Ha.
  - intros [r| |msg] Ho Hc; cbn beta iota; rewrite Hc; [|eexists; reflexivity..].
    destruct Ho as [Ho|Ho]; rewrite Ho; [eexists; reflexivity|].
    destruct (Replica.ok r); eexists; reflexivity.
Qed.

Lemma advisor_general_asks_genai rlib rcfg query :
  asks_nl2sql rcfg query = false -> Replica.genai_client rcfg = true ->
  exists k, Replica.advisor_general rlib rcfg query = Py.Chat (Py.mkChat query 500) k.
Proof.
  unfold asks_nl2sql. intros H Hc. unfold Replica.advisor_general. cbv zeta.
  rewrite H, Hc. eexists. reflexivity.
Qed.

(** C3 (as amended).  With mock mode on, the Finance, HR, Orders and
    Reports adapters of [AskMeChatBot.py] return at once a text of their
    mock table, which holds no download marker; the five servers of
    [mcp_servers/advisors.py] return at once their fixed text, which holds
    none either; and the finance, HR and orders advisors of
    [func_replica.py] return at once a mock result without artifact.  None
    makes a call to a remote service.  The reports advisor of
    [func_replica.py] makes no such call either, but its mock result
    carries a pending PDF artifact with a fresh id.  The query
    "show me the purchase order report" gives the budget text in the
    Finance adapter, and a result of source [mock] without artifact in the
    finance advisor.

    The General adapter is not canned by the flag.  In [AskMeChatBot.py]
    the flag keeps it from the NL2SQL service only: with a generative
    client it calls the generative service first, without one it returns a
    text of its mock table.  In [func_replica.py] the general advisor
    does not read the flag: it is the same program for either value; it
    first posts the query to the NL2SQL service when that service is
    configured and the query holds a database keyword, and returns the
    answer of the service, without a generative call, when it gives one;
    when the service gives none, and when it is not asked, the advisor
    calls the generative service when a client is configured. *)
Theorem mock_mode_is_canned lib cfg rlib rcfg live server query :
  (AskMe.USE_MOCK_RESPONSES cfg = true ->
   canned AskMe.MOCK_finance (AskMe.get_finance_advice lib cfg query)
   /\ canned AskMe.MOCK_hr (AskMe.get_hr_advice lib cfg query)
   /\ canned AskMe.MOCK_orders (AskMe.get_orders_advice lib cfg query)
   /\ canned AskMe.MOCK_reports (AskMe.get_reports_advice lib cfg query)
   /\ AskMe.get_finance_advice lib cfg "show me the purchase order report"
      = Py.Ret (AskMe.item "budget" AskMe.MOCK_finance)
   /\ (AskMe.genai_client cfg = true ->
       exists k, AskMe.get_general_advice lib cfg query = Py.Chat (Py.mkChat query 500) k)
   /\ (AskMe.genai_client cfg = false ->
       canned AskMe.MOCK_general (AskMe.get_general_advice lib cfg query)))
  /\ (Rcoe.use_mock server = true ->
      canned_text (Rcoe.general_handle_request live server query)
      /\ canned_text (Rcoe.finance_handle_request live server query)
      /\ canned_text (Rcoe.hr_handle_request live server query)
      /\ canned_text (Rcoe.orders_handle_request lib live server query)
      /\ canned_text (Rcoe.reports_handle_request live server query))
  /\ (Replica.USE_MOCK_RESPONSES rcfg = true ->
      canned_result (Replica.advisor_finance rlib rcfg query)
      /\ canned_result (Replica.advisor_hr rlib rcfg query)
      /\ canned_result (Replica.advisor_orders rlib rcfg query)
      /\ Replica.advisor_reports rcfg query
         = Py.Uuid4 (fun id =>
             Py.Ret (Replica.mkResult Replica.name_reports "reports" "mock"
                       "Reports export mock started." (Some (Replica.pending_artifact id))))
      /\ offline (Replica.advisor_reports rcfg query)
      /\ exists r,
           Replica.advisor_finance rlib rcfg "show me the purchase order report" = Py.Ret r
           /\ Replica.ar_source r <> "error" /\ Replica.ar_artifact r = None)
  /\ (forall flag,
        Replica.advisor_general rlib (with_mock_flag flag rcfg) query
        = Replica.advisor_general rlib rcfg query)
  /\ (asks_nl2sql rcfg query = true ->
      exists k,
        Replica.advisor_general rlib rcfg query = Py.Http (nl2sql_request rcfg query) k
        /\ (forall r ans,
              Replica.ok r = true ->
              Py.nonempty (Replica.nl2sql_answer rlib r) = Some ans ->
              k (Py.Responded r)
              = Py.Ret (Replica.mkResult Replica.name_general "general" "nl2sql" ans None))
        /\ (forall o,
              nl2sql_silent rlib o -> Replica.genai_client rcfg = true ->
              exists k', k o = Py.Chat (Py.mkChat query 500) k'))
  /\ (asks_nl2sql rcfg query = false -> Replica.genai_client rcfg = true ->
      exists k, Replica.advisor_general rlib rcfg query = Py.Chat (Py.mkChat query 500) k).
Proof.
  split; [|split; [|split; [|split; [|split]]]];
    [| | | reflexivity | apply advisor_general_asks_nl2sql
     | apply advisor_general_asks_genai].
  - intros Hm. split; [|split; [|split; [|split; [|split; [|split]]]]];
      [| | | | | intros Hc; now apply general_agent_ignores_mock_flag
       | intros Hc; unfold AskMe.get_general_advice, AskMe.call_agent_api; cbv zeta;
         rewrite Hm, Hc;
         assert (Hcan : canned AskMe.MOCK_general
                          (Py.Ret (AskMe.mock_reply AskMe.MOCK_general "help"
                                     (PyStr.lower query))))
           by (apply canned_mock_reply; [cbn; tauto | reflexivity]);
         destruct (PyStr.contains_any _ _); exact Hcan].
    + unfold AskMe.get_finance_advice. rewrite Hm.
      apply canned_mock_reply; [cbn; tauto | reflexivity].
    + unfold AskMe.get_hr_advice, AskMe.call_agent_api. rewrite Hm. cbn.
      apply canned_mock_reply; [cbn; tauto | reflexivity].
    + unfold AskMe.get_orders_advice. rewrite Hm.
      apply canned_mock_reply; [cbn; tauto | reflexivity].
    + unfold AskMe.get_reports_advice. rewrite Hm.
      apply canned_mock_reply; [cbn; tauto | reflexivity].
    + unfold AskMe.get_finance_advice. rewrite Hm. reflexivity.
  - intros Hm.
    unfold Rcoe.general_handle_request, Rcoe.finance_handle_request,
      Rcoe.hr_handle_request, Rcoe.orders_handle_request, Rcoe.reports_handle_request.
    rewrite Hm. repeat split; eexists; split; reflexivity.
  - intros Hm.
    assert (Hfin : forall q, canned_result (Replica.advisor_finance rlib rcfg q)).
    { intros q. unfold Replica.advisor_finance. rewrite Hm. cbn.
      eexists. repeat split; reflexivity. }
    split; [apply Hfin|]. split; [|split; [|split; [|split]]].
    + unfold Replica.advisor_hr. rewrite Hm. rewrite !andb_false_r.
      eexists. repeat split; reflexivity.
    + unfold Replica.advisor_orders. rewrite Hm. cbn.
      eexists. repeat split; reflexivity.
    + unfold Replica.advisor_reports. rewrite Hm. reflexivity.
    + unfold Replica.advisor_reports. rewrite Hm. cbn. intros u. exact I.
    + destruct (Hfin "show me the purchase order report") as [r [Hr [Hs Ha]]].
      exists r. split; [exact Hr|]. split; [rewrite Hs; discriminate | exact Ha].
Qed.

Lemma mock_mode_is_canned_witness :
  AskMe.get_finance_advice lib0 mock_config "show me the purchase order report"
  = Py.Ret (AskMe.item "budget" AskMe.MOCK_finance)
  /\ canned_text (Rcoe.finance_handle_request live0 mock_server
                    "show me the purchase order report")
  /\ canned_result (Replica.advisor_finance rlib0 replica_mock_config
                      "show me the purchase order report").
Proof.
  destruct (mock_mode_is_canned lib0 mock_config rlib0 replica_mock_config live0 mock_server
              "show me the purchase order report") as [HA [HM [HR _]]].
  split; [|split].
  - apply HA. reflexivity.
  - apply HM. reflexivity.
  - apply HR. reflexivity.
Defined.

(** C3 fails as stated on [func_replica.py]: in mock mode the reports
    advisor attaches an artifact, of status pending, to its canned text. *)
Lemma mock_reports_attaches_artifact :
  exists r tr w,
    Py.run (Replica.advisor_reports replica_mock_config "show me the analytics dashboard")
      (answering [Py.AnsUuid "0b7e"]) = Some (r, tr, w)
    /\ Replica.ar_source r = "mock"
    /\ Replica.ar_artifact r = Some (Replica.pending_artifact "0b7e")
    /\ Replica.is_pending r = true.
Proof. do 3 eexists. repeat split; reflexivity. Qed.

(** ** The download loop of the Reports adapter *)

(** A successful attempt after at most two failed ones. *)
Lemma download_succeeds rq fails r rest b flt ps :
  Forall attempt_failed fails -> (length fails <= 2)%nat -> Py.status_code r = 200%Z ->
  Py.run (AskMe.download_report_after_export rq)
    (Py.mkWorld ((Py.AnsHttp <$> fails ++ [Py.Responded r]) ++ rest) b flt ps)
  = Some (report_marker (Py.text r),
          Py.EvSleep 30 :: attempts_trace rq (fails ++ [Py.Responded r]),
          Py.mkWorld rest b flt ps).
Proof.
  intros Hf Hlen Hr. apply Z.eqb_eq in Hr.
  destruct fails as [|f1 [|f2 [|f3 fails]]]; [| | |cbn in Hlen; lia].
  - run_attempts.
  - apply Forall_cons in Hf as [H1 _]. failed_attempt f1 H1; run_attempts.
  - apply Forall_cons in Hf as [H1 Hf]. apply Forall_cons in Hf as [H2 _].
    failed_attempt f1 H1; failed_attempt f2 H2; run_attempts.
Qed.

(** Three failed attempts. *)
Lemma download_exhausted rq f1 f2 f3 rest b flt ps :
  attempt_failed f1 -> attempt_failed f2 -> attempt_failed f3 ->
  Py.run (AskMe.download_report_after_export rq)
    (Py.mkWorld (Py.AnsHttp f1 :: Py.AnsHttp f2 :: Py.AnsHttp f3 :: rest) b flt ps)
  = Some (AskMe.download_failed,
          Py.EvSleep 30 :: attempts_trace rq [f1; f2; f3],
          Py.mkWorld rest b flt ps).
Proof.
  intros H1 H2 H3.
  failed_attempt f1 H1; failed_attempt f2 H2; failed_attempt f3 H3; run_attempts.
Qed.

(** A request that fails otherwise, after at most two failed attempts. *)
Lemma download_interrupted rq fails msg rest b flt ps :
  Forall attempt_failed fails -> (length fails <= 2)%nat ->
  Py.run (AskMe.download_report_after_export rq)
    (Py.mkWorld ((Py.AnsHttp <$> fails ++ [Py.RequestFailed msg]) ++ rest) b flt ps)
  = Some ("Reports API error: " +:+ msg,
          Py.EvSleep 30 :: attempts_trace rq (fails ++ [Py.RequestFailed msg]),
          Py.mkWorld rest b flt ps).
Proof.
  intros Hf Hlen.
  destruct fails as [|f1 [|f2 [|f3 fails]]]; [| | |cbn in Hlen; lia].
  - run_attempts.
  - apply Forall_cons in Hf as [H1 _]. failed_attempt f1 H1; run_attempts.
  - apply Forall_cons in Hf as [H1 Hf]. apply Forall_cons in Hf as [H2 _].
    failed_attempt f1 H1; failed_attempt f2 H2; run_attempts.
Qed.

(** Every run of the loop starts with the wait of 30 seconds and makes at
    most three requests. *)
Lemma download_bounded rq w res tr w' :
  Py.run (AskMe.download_report_after_export rq) w = Some (res, tr, w') ->
  hd_error tr = Some (Py.EvSleep 30) /\ (http_calls tr <= 3)%nat.
Proof.
  intros H. destruct w as [ans b flt ps]. cbn in H.
  next_answer H ans; repeat on_status H; try solve [finish_run H];
    next_answer H ans; repeat on_status H; try solve [finish_run H];
    next_answer H ans; repeat on_status H; solve [finish_run H].
Qed.

(** C7.  After the export is started the adapter sleeps 30 seconds and
    then makes at most three download requests, ten seconds apart, and
    stops at the first status 200.  When an attempt answers 200 after at
    most two failed ones (a status other than 200, or a timeout), the
    adapter returns the report marker built from the Base64 text of the
    body, having made exactly those requests; when three attempts fail in
    one of these two ways it returns the "failed after retries" text,
    which holds no download marker.  A request that fails in another way
    (a connection error, say) ends the loop at once, at the first, second
    or third attempt: the adapter returns "Reports API error: " with the
    text of the exception and makes no further request. *)
Theorem reports_download_loop rq rest b flt ps :
  (forall fails r,
     Forall attempt_failed fails -> (length fails <= 2)%nat -> Py.status_code r = 200%Z ->
     Py.run (AskMe.download_report_after_export rq)
       (Py.mkWorld ((Py.AnsHttp <$> fails ++ [Py.Responded r]) ++ rest) b flt ps)
     = Some (report_marker (Py.text r),
             Py.EvSleep 30 :: attempts_trace rq (fails ++ [Py.Responded r]),
             Py.mkWorld rest b flt ps))
  /\ (forall f1 f2 f3,
        attempt_failed f1 -> attempt_failed f2 -> attempt_failed f3 ->
        Py.run (AskMe.download_report_after_export rq)
          (Py.mkWorld (Py.AnsHttp f1 :: Py.AnsHttp f2 :: Py.AnsHttp f3 :: rest) b flt ps)
        = Some (AskMe.download_failed,
                Py.EvSleep 30 :: attempts_trace rq [f1; f2; f3],
                Py.mkWorld rest b flt ps))
  /\ AskMe.has_marker AskMe.download_failed = false
  /\ (forall w res tr w',
        Py.run (AskMe.download_report_after_export rq) w = Some (res, tr, w') ->
        hd_error tr = Some (Py.EvSleep 30) /\ (http_calls tr <= 3)%nat)
  /\ (forall fails msg,
        Forall attempt_failed fails -> (length fails <= 2)%nat ->
        Py.run (AskMe.download_report_after_export rq)
          (Py.mkWorld ((Py.AnsHttp <$> fails ++ [Py.RequestFailed msg]) ++ rest) b flt ps)
        = Some ("Reports API error: " +:+ msg,
                Py.EvSleep 30 :: attempts_trace rq (fails ++ [Py.RequestFailed msg]),
                Py.mkWorld rest b flt ps)).
Proof.
  split; [|split; [|split; [|split]]].
  - intros fails r. apply download_succeeds.
  - intros f1 f2 f3. apply download_exhausted.
  - reflexivity.
  - intros w res tr w'. apply download_bounded.
  - intros fails msg. apply download_interrupted.
Qed.

Lemma reports_download_loop_witness :
  Py.run (AskMe.download_report_after_export download_request)
    (Py.mkWorld [Py.AnsHttp (Py.Responded (plain_response 503 "busy"));
                 Py.AnsHttp Py.TimedOut;
                 Py.AnsHttp (Py.Responded (plain_response 200 "%PDF-1.4"))]
       ∅ (fun _ => false) (fun _ => None))
  = Some ("REPORT_DOWNLOAD:Reports:PDF:JVBERi0xLjQ=",
          [Py.EvSleep 30;
           Py.EvHttp download_request (Py.Responded (plain_response 503 "busy"));
           Py.EvSleep 10;
           Py.EvHttp download_request Py.TimedOut;
           Py.EvSleep 10;
           Py.EvHttp download_request (Py.Responded (plain_response 200 "%PDF-1.4"))],
          quiet_world)
  /\ Py.run (AskMe.download_report_after_export download_request)
       (Py.mkWorld [Py.AnsHttp (Py.Responded (plain_response 503 "busy"));
                    Py.AnsHttp (Py.Responded (plain_response 404 "no such export"));
                    Py.AnsHttp Py.TimedOut]
          ∅ (fun _ => false) (fun _ => None))
     = Some (AskMe.download_failed,
             [Py.EvSleep 30;
              Py.EvHttp download_request (Py.Responded (plain_response 503 "busy"));
              Py.EvSleep 10;
              Py.EvHttp download_request (Py.Responded (plain_response 404 "no such export"));
              Py.EvSleep 10;
              Py.EvHttp download_request Py.TimedOut],
             quiet_world).
Proof.
  destruct (reports_download_loop download_request [] ∅ (fun _ => false) (fun _ => None))
    as [Hok [Hfail _]].
  split.
  - apply (Hok [Py.Responded (plain_response 503 "busy"); Py.TimedOut]
             (plain_response 200 "%PDF-1.4")).
    + repeat constructor. cbn. discriminate.
    + cbn. lia.
    + reflexivity.
  - apply (Hfail (Py.Responded (plain_response 503 "busy"))
             (Py.Responded (plain_response 404 "no such export")) Py.TimedOut).
    + cbn. discriminate.
    + cbn. discriminate.
    + exact I.
Defined.

(** C7 fails as stated: two attempts answered with status 503 and a third
    that ends in a connection error are three attempts without a status
    200, and the adapter does not return the "failed after retries" text
    but the text of its handler for request errors. *)
Lemma connection_error_ends_the_loop :
  Py.run (AskMe.download_report_after_export download_request)
    (Py.mkWorld [Py.AnsHttp (Py.Responded (plain_response 503 "busy"));
                 Py.AnsHttp (Py.Responded (plain_response 503 "busy"));
                 Py.AnsHttp (Py.RequestFailed "Connection aborted.")]
       ∅ (fun _ => false) (fun _ => None))
  = Some ("Reports API error: Connection aborted.",
          [Py.EvSleep 30;
           Py.EvHttp download_request (Py.Responded (plain_response 503 "busy"));
           Py.EvSleep 10;
           Py.EvHttp download_request (Py.Responded (plain_response 503 "busy"));
           Py.EvSleep 10;
           Py.EvHttp download_request (Py.RequestFailed "Connection aborted.")],
          quiet_world)
  /\ "Reports API error: Connection aborted." <> AskMe.download_failed.
Proof. split; [reflexivity | discriminate]. Qed.

(** The adapter enters the loop: in live mode with the service configured
    it posts the export request, and on an accepted export with id [id] it
    continues with the wait and the download attempts on
    [.../exports/id]. *)
Lemma reports_adapter_enters_download lib cfg query url u p :
  AskMe.USE_MOCK_RESPONSES cfg = false ->
  AskMe.CONFIG cfg !! "reports_agent_url" = Some url -> url <> "" ->
  AskMe.CONFIG cfg !! "reports_agent_username" = Some u -> u <> "" ->
  AskMe.CONFIG cfg !! "reports_agent_password" = Some p -> p <> "" ->
  let exports :=
    url +:+ "/api/" +:+ AskMe.api_version +:+ "/catalog/workbooks/"
    +:+ default AskMe.default_workbook_id (AskMe.CONFIG cfg !! "reports_workbook_id")
    +:+ "/exports" in
  exists k,
    AskMe.get_reports_advice lib cfg query
    = Py.Http (Py.mkRequest Py.POST exports [] (Py.JsonBody AskMe.export_payload) (Some (u, p))) k
    /\ forall resp id,
         Py.status_code resp = 200%Z \/ Py.status_code resp = 201%Z
         \/ Py.status_code resp = 202%Z ->
         AskMe.export_id_of lib resp = inr id ->
         k (Py.Responded resp)
         = AskMe.download_report_after_export
             (Py.mkRequest Py.GET (exports +:+ "/" +:+ id) [] Py.NoBody (Some (u, p))).
Proof.
  intros Hm Hurl Hurl' Hu Hu' Hp Hp' exports.
  apply String.eqb_neq in Hurl', Hu', Hp'.
  unfold AskMe.get_reports_advice, AskMe.basic_auth, Py.nonempty.
  rewrite Hm, Hurl, Hurl', Hu, Hu', Hp, Hp'. eexists. split; [reflexivity|].
  intros resp id Hs Hid. cbv beta iota zeta.
  assert (Hok : (Py.status_code resp =? 200)%Z || (Py.status_code resp =? 201)%Z
                || (Py.status_code resp =? 202)%Z = true).
  { destruct Hs as [Hs|[Hs|Hs]]; rewrite Hs; reflexivity. }
  rewrite Hok, Hid. reflexivity.
Qed.

(** The whole adapter on a scripted service: export accepted, two failed
    downloads, then the file. *)
Example reports_adapter_run :
  Py.run (AskMe.get_reports_advice lib0 reports_config "export the absence workbook")
    (answering [Py.AnsHttp (Py.Responded export_accepted);
                Py.AnsHttp (Py.Responded (plain_response 503 "busy"));
                Py.AnsHttp Py.TimedOut;
                Py.AnsHttp (Py.Responded (plain_response 200 "%PDF-1.4"))])
  = Some ("REPORT_DOWNLOAD:Reports:PDF:JVBERi0xLjQ=",
          [Py.EvHttp (Py.mkRequest Py.POST exports_url [] (Py.JsonBody AskMe.export_payload)
                        (Some ("analyst", "secret")))
             (Py.Responded export_accepted);
           Py.EvSleep 30;
           Py.EvHttp download_request (Py.Responded (plain_response 503 "busy"));
           Py.EvSleep 10;
           Py.EvHttp download_request Py.TimedOut;
           Py.EvSleep 10;
           Py.EvHttp download_request (Py.Responded (plain_response 200 "%PDF-1.4"))],
          quiet_world).
Proof. vm_compute. reflexivity. Qed.

(** ** The Response Assembler *)




Lemma chat_assembles lib cfg storage prompt :
  prompt <> "" ->
  AskMe.chat lib cfg storage (Some (Py.JObj [("prompt", Py.JStr prompt)]))
  = (let* result := AskMe.process_user_query lib cfg (PyStr.strip prompt) in
     AskMe.assemble storage result).
Proof.
  intros H. apply String.eqb_neq in H. unfold AskMe.chat. cbn. rewrite H. reflexivity.
Qed.

(** ** Serving downloads *)

Lemma download_pdf_keeps_store storage id : (AskMe.download_pdf storage id).2 = storage.
Proof.
  unfold AskMe.download_pdf. destruct (storage !! id) as [d|]; [|reflexivity].
  destruct (String.eqb _ _); [|reflexivity].
  destruct (Base64.b64decode _); reflexivity.
Qed.

Lemma download_report_keeps_store storage id : (AskMe.download_report storage id).2 = storage.
Proof.
  unfold AskMe.download_report. destruct (storage !! id) as [d|]; [|reflexivity].
  destruct (String.eqb _ _); [|reflexivity].
  destruct (Base64.b64decode _); [|reflexivity].
  destruct (AskMe.format_mapping _). reflexivity.
Qed.

Lemma rcoe_download_pdf_keeps_store storage id : (Rcoe.download_pdf storage id).2 = storage.
Proof.
  unfold Rcoe.download_pdf. destruct (storage !! id) as [d|]; [|reflexivity].
  destruct (String.eqb _ _); [|reflexivity].
  destruct (Base64.b64decode _); reflexivity.
Qed.

Lemma route_keeps_store route storage id :
  In route download_routes -> (route storage id).2 = storage.
Proof.
  intros [<-|[<-|[<-|[]]]].
  - apply download_pdf_keeps_store.
  - apply download_report_keeps_store.
  - apply rcoe_download_pdf_keeps_store.
Qed.

(** Requests that keep the store get the same reply every time. *)
Lemma serve_repeatedly_same route n storage id :
  (route storage id).2 = storage ->
  serve_repeatedly route n storage id = (repeat (route storage id).1 n, storage).
Proof.
  intros H. induction n as [|n IH]; [reflexivity|].
  cbn [serve_repeatedly repeat]. destruct (route storage id) as [reply storage'] eqn:E.
  cbn in H. subst storage'. rewrite IH. reflexivity.
Qed.

(** C10 (as amended).  No download route changes the store, for any id,
    so every entry is the same after any number of requests, and each of
    the requests gets the same reply.  For an id stored with the matching
    type, that reply is the file with the decoded content when the stored
    data decodes as Base64, and the error reply of status 500 when it does
    not. *)
Theorem downloads_keep_store storage id d n :
  storage !! id = Some d ->
  (forall route, In route download_routes ->
     serve_repeatedly route n storage id = (repeat (route storage id).1 n, storage))
  /\ (AskMe.d_type d = "pdf" ->
      (forall content, Base64.b64decode (AskMe.d_data d) = Some content ->
         AskMe.download_pdf storage id
         = (AskMe.SendFile content "application/pdf"
              ("Finance_Report_" +:+ AskMe.d_timestamp d +:+ ".pdf"), storage)
         /\ Rcoe.download_pdf storage id
            = (AskMe.SendFile content "application/pdf"
                 ("Finance_Report_" +:+ AskMe.d_timestamp d +:+ ".pdf"), storage))
      /\ (Base64.b64decode (AskMe.d_data d) = None ->
          AskMe.download_pdf storage id = (AskMe.Refused 500 "Error downloading PDF", storage)
          /\ Rcoe.download_pdf storage id
             = (AskMe.Refused 500 "Error downloading PDF", storage)))
  /\ (AskMe.d_type d = "report" ->
      (forall content, Base64.b64decode (AskMe.d_data d) = Some content ->
         AskMe.download_report storage id
         = (AskMe.SendFile content
              (AskMe.format_mapping (default "pdf" (AskMe.d_format d))).1
              ("Analytics_Report_" +:+ AskMe.d_timestamp d +:+ "."
               +:+ (AskMe.format_mapping (default "pdf" (AskMe.d_format d))).2), storage))
      /\ (Base64.b64decode (AskMe.d_data d) = None ->
          AskMe.download_report storage id
          = (AskMe.Refused 500 "Error downloading report", storage))).
Proof.
  intros Hd. split; [|split].
  - intros route Hin. apply serve_repeatedly_same, route_keeps_store, Hin.
  - intros Ht. split.
    + intros content Hc. unfold AskMe.download_pdf, Rcoe.download_pdf.
      rewrite Hd, Ht, Hc. split; reflexivity.
    + intros Hc. unfold AskMe.download_pdf, Rcoe.download_pdf.
      rewrite Hd, Ht, Hc. split; reflexivity.
  - intros Ht. split.
    + intros content Hc. unfold AskMe.download_report. rewrite Hd, Ht, Hc. cbn.
      destruct (AskMe.format_mapping _). reflexivity.
    + intros Hc. unfold AskMe.download_report. rewrite Hd, Ht, Hc. reflexivity.
Qed.

Lemma downloads_keep_store_witness :
  one_report !! "7c1d"
  = Some (AskMe.mkDownload "pdf" None "JVBERi0xLjQ=" "Finance" "20251127_123456")
  /\ Base64.b64decode "JVBERi0xLjQ=" = Some "%PDF-1.4"
  /\ serve_repeatedly AskMe.download_pdf 3 one_report "7c1d"
     = (repeat (AskMe.download_pdf one_report "7c1d").1 3, one_report)
  /\ AskMe.download_pdf one_report "7c1d"
     = (AskMe.SendFile "%PDF-1.4" "application/pdf" "Finance_Report_20251127_123456.pdf",
        one_report).
Proof.
  destruct (downloads_keep_store one_report "7c1d"
              (AskMe.mkDownload "pdf" None "JVBERi0xLjQ=" "Finance" "20251127_123456") 3)
    as [Hrep [Hpdf _]]; [reflexivity|].
  split; [reflexivity|]. split; [reflexivity|]. split.
  - apply Hrep. left. reflexivity.
  - destruct Hpdf as [Hok _]; [reflexivity|].
    destruct (Hok "%PDF-1.4") as [H _]; [reflexivity | exact H].
Defined.

(** C10 fails as stated: a finance response whose report data is the
    text "A" is stored by [chat] as it is; the entry is present with type
    [pdf], and every request for it is answered with status 500, since "A"
    is not decodable Base64. *)
Lemma undecodable_download_fails :
  exists r st tr w,
    Py.run (AskMe.assemble ∅ [(AskMe.title_finance, "PDF_DOWNLOAD:Finance:A")])
      (answering [Py.AnsUuid "7c1d"; Py.AnsNow "20251127_123456"]) = Some ((r, st), tr, w)
    /\ AskMe.download_url r = Some "/download_pdf/7c1d"
    /\ st !! "7c1d" = Some (AskMe.mkDownload "pdf" None "A" "Finance" "20251127_123456")
    /\ AskMe.download_pdf st "7c1d" = (AskMe.Refused 500 "Error downloading PDF", st).
Proof. do 4 eexists. repeat split; vm_compute; reflexivity. Qed.

(** ** The download action of the function *)

Lemma not_configured_test cfg :
  negb (Replica.object_client cfg) || negb (Replica.nonblank (Replica.ARTIFACT_BUCKET cfg))
  || negb (Replica.namespace_name cfg)
  = negb (Replica.storage_configured cfg).
Proof.
  unfold Replica.storage_configured.
  destruct (Replica.object_client cfg), (Replica.namespace_name cfg),
    (Replica.nonblank (Replica.ARTIFACT_BUCKET cfg)); reflexivity.
Qed.

Lemma mark_ready_is_ready meta : Replica.status_is "ready" (Replica.mark_ready meta) = true.
Proof.
  unfold Replica.status_is, Replica.mark_ready.
  rewrite lookup_insert_ne by discriminate. rewrite lookup_insert_ne by discriminate.
  rewrite lookup_insert_eq. reflexivity.
Qed.

Lemma ready_is_not_pending meta :
  Replica.status_is "ready" meta = true -> Replica.status_is "pending" meta = false.
Proof.
  unfold Replica.status_is. destruct (meta !! "status") as [[| | |s| |]|]; try discriminate.
  intros H. apply String.eqb_eq in H. subst s. reflexivity.
Qed.

(** The handle adds two members and leaves every other member of the
    metadata as it is. *)
Lemma with_handle_keeps cfg meta url k :
  k <> "presignedUrl" -> k <> "expiresIn" ->
  Replica.with_handle cfg meta url !! k = meta !! k.
Proof.
  intros H1 H2. unfold Replica.with_handle.
  rewrite lookup_insert_ne by congruence. rewrite lookup_insert_ne by congruence. reflexivity.
Qed.

(** The download action on an artifact whose metadata is ready. *)
Lemma download_ready lib cfg id w meta :
  Replica.storage_configured cfg = true ->
  Py.faulty w (Replica.meta_key id) = false ->
  Py.bucket w !! Replica.meta_key id = Some (Py.JsonObject meta) ->
  Replica.status_is "ready" meta = true ->
  Py.run (Replica.process_download lib cfg id) w
  = Some (Replica.ArtifactReady
            (Replica.with_handle cfg meta
               (if Py.faulty w (Replica.bin_key id) then None
                else Py.presigned_url w (Replica.bin_key id)))
            ("Artifact ready: " +:+ Replica.filename_text lib meta),
          [Py.EvGet (Replica.meta_key id); Py.EvPresign (Replica.bin_key id)], w).
Proof.
  intros Hc Hf Hm Hr. unfold Replica.process_download.
  rewrite not_configured_test, Hc. cbn [negb Py.run]. rewrite Hf, Hm.
  rewrite (ready_is_not_pending meta Hr).
  unfold Replica.answer_download, Replica.get_presigned. rewrite Hr, Hc. reflexivity.
Qed.

(** Whatever the configuration and the state of the bucket, the download
    action on an artifact whose metadata is ready leaves the world as it
    is. *)
Lemma download_ready_keeps_world lib cfg id w meta :
  Py.bucket w !! Replica.meta_key id = Some (Py.JsonObject meta) ->
  Replica.status_is "ready" meta = true ->
  exists res tr, Py.run (Replica.process_download lib cfg id) w = Some (res, tr, w).
Proof.
  intros Hm Hr. unfold Replica.process_download. rewrite not_configured_test.
  destruct (Replica.storage_configured cfg) eqn:Hc; cbn [negb Py.run].
  - destruct (Py.faulty w (Replica.meta_key id)) eqn:Hf.
    + do 2 eexists. reflexivity.
    + rewrite Hm, (ready_is_not_pending meta Hr).
      unfold Replica.answer_download, Replica.get_presigned. rewrite Hr, Hc.
      do 2 eexists. reflexivity.
  - do 2 eexists. reflexivity.
Qed.

(** Writing a binary object or a document marked ready makes no document
    pending. *)
Lemma insert_keeps_pending (b : gmap string Py.Blob) (k key : string) (v : Py.Blob) m :
  (forall meta, v = Py.JsonObject meta -> Replica.status_is "pending" meta = false) ->
  <[k := v]> b !! key = Some (Py.JsonObject m) ->
  Replica.status_is "pending" m = true ->
  b !! key = Some (Py.JsonObject m).
Proof.
  intros Hv Hl Hp. destruct (decide (k = key)) as [->|Hne].
  - rewrite lookup_insert_eq in Hl. injection Hl as ->.
    rewrite (Hv m eq_refl) in Hp. discriminate.
  - rewrite lookup_insert_ne in Hl by exact Hne. exact Hl.
Qed.

(** The download action makes no stored document pending: a document that
    is pending after the action was there, pending, before it. *)
Lemma download_makes_nothing_pending lib cfg id w res tr w' key m :
  Py.run (Replica.process_download lib cfg id) w = Some (res, tr, w') ->
  Py.bucket w' !! key = Some (Py.JsonObject m) ->
  Replica.status_is "pending" m = true ->
  Py.bucket w !! key = Some (Py.JsonObject m).
Proof.
  intros Hrun Hl Hp.
  assert (Hbin : forall meta, Py.BinObject Replica.dummy_pdf = Py.JsonObject meta ->
                              Replica.status_is "pending" meta = false) by discriminate.
  assert (Hdoc : forall meta0 meta, Py.JsonObject (Replica.mark_ready meta0) = Py.JsonObject meta ->
                                    Replica.status_is "pending" meta = false).
  { intros meta0 meta [= <-]. apply ready_is_not_pending, mark_ready_is_ready. }
  unfold Replica.process_download in Hrun. rewrite not_configured_test in Hrun.
  destruct (Replica.storage_configured cfg) eqn:Hc; cbn [negb Py.run] in Hrun.
  2:{ injection Hrun as <- <- <-. exact Hl. }
  destruct (Py.faulty w (Replica.meta_key id)) eqn:Hfm.
  { cbn in Hrun. injection Hrun as <- <- <-. exact Hl. }
  destruct (Py.bucket w !! Replica.meta_key id) as [[meta|kind|data]|] eqn:Hm;
    [| cbn in Hrun; injection Hrun as <- <- <-; exact Hl
     | cbn in Hrun; injection Hrun as <- <- <-; exact Hl
     | cbn in Hrun; injection Hrun as <- <- <-; exact Hl].
  destruct (Replica.status_is "pending" meta) eqn:Hpend.
  - unfold Replica.put_object, Replica.answer_download, Replica.get_presigned in Hrun.
    rewrite Hc, mark_ready_is_ready in Hrun. cbn in Hrun.
    destruct (Py.faulty w (Replica.bin_key id)) eqn:Hfb; cbn in Hrun;
      rewrite ?Hfm, ?Hfb in Hrun; cbn in Hrun; rewrite ?Hfb in Hrun;
      injection Hrun as <- <- <-; cbn in Hl;
      repeat match type of Hl with
             | <[_ := Py.JsonObject _]> _ !! _ = _ =>
                 apply (insert_keeps_pending _ _ _ _ _ (Hdoc meta)) in Hl; [|exact Hp]
             | <[_ := Py.BinObject _]> _ !! _ = _ =>
                 apply (insert_keeps_pending _ _ _ _ _ Hbin) in Hl; [|exact Hp]
             end;
      exact Hl.
  - unfold Replica.answer_download, Replica.get_presigned in Hrun. rewrite Hc in Hrun.
    destruct (Replica.status_is "ready" meta); cbn in Hrun;
      injection Hrun as <- <- <-; exact Hl.
Qed.

(** An action that leaves the world as it is gives the same result every
    time it is repeated. *)
Lemma download_repeatedly_same lib cfg id w res tr n :
  Py.run (Replica.process_download lib cfg id) w = Some (res, tr, w) ->
  Py.run (download_repeatedly lib cfg id n) w
  = Some (repeat res n, concat (repeat tr n), w).
Proof.
  intros H. induction n as [|n IH]; [reflexivity|].
  cbn [download_repeatedly]. rewrite run_bind, H. cbn [then_run].
  rewrite run_bind, IH. cbn. rewrite app_nil_r. reflexivity.
Qed.

(** C9.  When the stored metadata of an artifact has status ready, every
    download action on that id leaves the bucket and the rest of the world
    as they are, so that any number of actions in a row give the same
    result; with storage configured and the metadata readable, that result
    is the stored metadata itself, extended by the presigned URL and its
    expiry, after reading the metadata and asking for the URL and nothing
    else.  And no download action, on any id and in any state, makes a
    stored document pending: a ready artifact never goes back to
    pending. *)
Theorem ready_artifact_stays_ready lib cfg id w meta n :
  Py.bucket w !! Replica.meta_key id = Some (Py.JsonObject meta) ->
  Replica.status_is "ready" meta = true ->
  (exists res tr,
     Py.run (Replica.process_download lib cfg id) w = Some (res, tr, w)
     /\ Py.run (download_repeatedly lib cfg id n) w
        = Some (repeat res n, concat (repeat tr n), w))
  /\ (Replica.storage_configured cfg = true ->
      Py.faulty w (Replica.meta_key id) = false ->
      exists url,
        Py.run (Replica.process_download lib cfg id) w
        = Some (Replica.ArtifactReady (Replica.with_handle cfg meta url)
                  ("Artifact ready: " +:+ Replica.filename_text lib meta),
                [Py.EvGet (Replica.meta_key id); Py.EvPresign (Replica.bin_key id)], w)
        /\ forall k, k <> "presignedUrl" -> k <> "expiresIn" ->
                     Replica.with_handle cfg meta url !! k = meta !! k)
  /\ (forall id0 res tr w' key m,
        Py.run (Replica.process_download lib cfg id0) w = Some (res, tr, w') ->
        Py.bucket w' !! key = Some (Py.JsonObject m) ->
        Replica.status_is "pending" m = true ->
        Py.bucket w !! key = Some (Py.JsonObject m)).
Proof.
  intros Hm Hr. split; [|split].
  - destruct (download_ready_keeps_world lib cfg id w meta Hm Hr) as [res [tr H]].
    exists res, tr. split; [exact H | apply download_repeatedly_same, H].
  - intros Hc Hf. eexists. split.
    + apply download_ready; assumption.
    + intros k. apply with_handle_keeps.
  - intros id0 res tr w' key m. apply download_makes_nothing_pending.
Qed.

Lemma ready_artifact_stays_ready_witness :
  Py.bucket export_finished !! Replica.meta_key "e1"
  = Some (Py.JsonObject (Replica.mark_ready pending_meta))
  /\ Replica.status_is "ready" (Replica.mark_ready pending_meta) = true
  /\ exists url,
       Py.run (Replica.process_download rlib0 storage_config "e1") export_finished
       = Some (Replica.ArtifactReady
                 (Replica.with_handle storage_config (Replica.mark_ready pending_meta) url)
                 ("Artifact ready: "
                  +:+ Replica.filename_text rlib0 (Replica.mark_ready pending_meta)),
               [Py.EvGet (Replica.meta_key "e1"); Py.EvPresign (Replica.bin_key "e1")],
               export_finished).
Proof.
  assert (Hm : Py.bucket export_finished !! Replica.meta_key "e1"
               = Some (Py.JsonObject (Replica.mark_ready pending_meta))).
  { apply lookup_insert_eq. }
  split; [exact Hm|]. split; [apply mark_ready_is_ready|].
  destruct (ready_artifact_stays_ready rlib0 storage_config "e1" export_finished
              (Replica.mark_ready pending_meta) 2 Hm (mark_ready_is_ready pending_meta))
    as [_ [H _]].
  destruct H as [url [Hrun _]]; [reflexivity | reflexivity |].
  exists url. exact Hrun.
Defined.

(** The download action on an artifact whose metadata is pending, when the
    bucket takes both writes. *)
Lemma download_pending lib cfg id w meta :
  Replica.storage_configured cfg = true ->
  Py.faulty w (Replica.meta_key id) = false ->
  Py.faulty w (Replica.bin_key id) = false ->
  Py.bucket w !! Replica.meta_key id = Some (Py.JsonObject meta) ->
  Replica.status_is "pending" meta = true ->
  Py.run (Replica.process_download lib cfg id) w
  = Some (Replica.ArtifactReady
            (Replica.with_handle cfg (Replica.mark_ready meta)
               (Py.presigned_url w (Replica.bin_key id)))
            ("Artifact ready: " +:+ Replica.filename_text lib (Replica.mark_ready meta)),
          [Py.EvGet (Replica.meta_key id); Py.EvPut (Replica.bin_key id) true;
           Py.EvPut (Replica.meta_key id) true; Py.EvPresign (Replica.bin_key id)],
          Py.with_bucket w
            (<[Replica.meta_key id := Py.JsonObject (Replica.mark_ready meta)]>
               (<[Replica.bin_key id := Py.BinObject Replica.dummy_pdf]> (Py.bucket w)))).
Proof.
  intros Hc Hfm Hfb Hm Hp. unfold Replica.process_download.
  rewrite not_configured_test, Hc. cbn [negb Py.run]. rewrite Hfm, Hm, Hp.
  unfold Replica.put_object, Replica.answer_download, Replica.get_presigned.
  rewrite Hc, mark_ready_is_ready. cbn [Py.bind Py.run].
  rewrite Hfb. cbn [Py.run Py.faulty Py.with_bucket Py.bucket Py.presigned_url].
  rewrite Hfm. cbn [Py.run Py.faulty Py.with_bucket Py.bucket Py.presigned_url].
  rewrite Hfb. reflexivity.
Qed.

(** C2 (as amended).  The download action on an artifact whose stored
    metadata is pending never looks at the export job.  With storage
    configured, the metadata readable and the bucket taking the writes, it
    stores the placeholder PDF, rewrites the metadata as ready with the
    placeholder's size and content type, and returns the artifact as
    ready with a presigned URL.  It reports "artifact storage not
    configured" when storage is not configured and "metadata not found"
    when the metadata cannot be read. *)
Theorem pending_artifact_is_finalised lib cfg id w meta :
  Py.bucket w !! Replica.meta_key id = Some (Py.JsonObject meta) ->
  Replica.status_is "pending" meta = true ->
  (Replica.storage_configured cfg = true ->
   Py.faulty w (Replica.meta_key id) = false ->
   Py.faulty w (Replica.bin_key id) = false ->
   Py.run (Replica.process_download lib cfg id) w
   = Some (Replica.ArtifactReady
             (Replica.with_handle cfg (Replica.mark_ready meta)
                (Py.presigned_url w (Replica.bin_key id)))
             ("Artifact ready: " +:+ Replica.filename_text lib (Replica.mark_ready meta)),
           [Py.EvGet (Replica.meta_key id); Py.EvPut (Replica.bin_key id) true;
            Py.EvPut (Replica.meta_key id) true; Py.EvPresign (Replica.bin_key id)],
           Py.with_bucket w
             (<[Replica.meta_key id := Py.JsonObject (Replica.mark_ready meta)]>
                (<[Replica.bin_key id := Py.BinObject Replica.dummy_pdf]> (Py.bucket w))))
   /\ Replica.status_is "ready" (Replica.mark_ready meta) = true)
  /\ (Replica.storage_configured cfg = false ->
      Replica.process_download lib cfg id = Py.Ret Replica.NotConfigured)
  /\ (Replica.storage_configured cfg = true ->
      Py.faulty w (Replica.meta_key id) = true ->
      Py.run (Replica.process_download lib cfg id) w
      = Some (Replica.MetadataNotFound, [Py.EvGet (Replica.meta_key id)], w)).
Proof.
  intros Hm Hp. split; [|split].
  - intros Hc Hfm Hfb. split; [apply download_pending; assumption | apply mark_ready_is_ready].
  - intros Hc. unfold Replica.process_download. rewrite not_configured_test, Hc. reflexivity.
  - intros Hc Hf. unfold Replica.process_download. rewrite not_configured_test, Hc.
    cbn [negb Py.run]. rewrite Hf. reflexivity.
Qed.

Lemma pending_artifact_is_finalised_witness :
  Py.bucket export_started !! Replica.meta_key "e1" = Some (Py.JsonObject pending_meta)
  /\ Replica.status_is "pending" pending_meta = true
  /\ exists artifact msg tr,
       Py.run (Replica.process_download rlib0 storage_config "e1") export_started
       = Some (Replica.ArtifactReady artifact msg, tr, export_finished).
Proof.
  assert (Hm : Py.bucket export_started !! Replica.meta_key "e1"
               = Some (Py.JsonObject pending_meta)) by apply lookup_singleton_eq.
  assert (Hp : Replica.status_is "pending" pending_meta = true) by reflexivity.
  split; [exact Hm|]. split; [exact Hp|].
  destruct (pending_artifact_is_finalised rlib0 storage_config "e1" export_started
              pending_meta Hm Hp) as [H _].
  destruct H as [Hrun _]; [reflexivity | reflexivity | reflexivity |].
  do 3 eexists. exact Hrun.
Defined.

(** C2 fails as stated: the bucket holds only the metadata of a started
    export, no job has delivered a file, and the download action returns
    the artifact as ready, having written the placeholder as its
    content. *)
Lemma pending_artifact_returned_ready :
  stored_meta export_started (Replica.meta_key "e1") = Some pending_meta
  /\ Replica.status_is "pending" pending_meta = true
  /\ Py.bucket export_started !! Replica.bin_key "e1" = None
  /\ exists artifact msg tr w',
       Py.run (Replica.process_download rlib0 storage_config "e1") export_started
       = Some (Replica.ArtifactReady artifact msg, tr, w')
       /\ Replica.status_is "ready" artifact = true
       /\ msg = "Artifact ready: Analytics_Report_20251127_123456.pdf"
       /\ Py.bucket w' !! Replica.bin_key "e1" = Some (Py.BinObject Replica.dummy_pdf)
       /\ (exists m, stored_meta w' (Replica.meta_key "e1") = Some m
                     /\ Replica.status_is "ready" m = true).
Proof.
  split; [reflexivity|]. split; [reflexivity|]. split; [reflexivity|].
  do 4 eexists. split; [reflexivity|].
  split; [vm_compute; reflexivity|]. split; [reflexivity|].
  split; [vm_compute; reflexivity|].
  eexists. split; vm_compute; reflexivity.
Qed.

(** When the bucket refuses the placeholder, the action still answers that
    the artifact is ready: the result of [put_object] is not looked at. *)
Lemma download_ignores_refused_write :
  exists artifact msg tr w',
    Py.run (Replica.process_download rlib0 storage_config "e1") export_started_readonly
    = Some (Replica.ArtifactReady artifact msg, tr, w')
    /\ tr = [Py.EvGet (Replica.meta_key "e1"); Py.EvPut (Replica.bin_key "e1") false;
             Py.EvPut (Replica.meta_key "e1") true; Py.EvPresign (Replica.bin_key "e1")]
    /\ Py.bucket w' !! Replica.bin_key "e1" = None
    /\ artifact !! "presignedUrl" = Some Py.JNull.
Proof. do 4 eexists. repeat split; vm_compute; reflexivity. Qed.

(** ** The order list *)

(** A sort that returns has compared keys of one kind only, and returns a
    rearrangement of its input. *)
Lemma insert_desc_perm {A : Type} (key : A -> AskMe.datetime) x l s :
  AskMe.insert_desc key x l = Some s -> Permutation s (x :: l).
Proof.
  revert s. induction l as [|y l IH]; intros s H; cbn in H.
  - injection H as <-. reflexivity.
  - destruct (AskMe.dt_lt (key x) (key y)) as [[|]|]; [| |discriminate].
    + destruct (AskMe.insert_desc key x l) as [s0|]; [|discriminate].
      cbn in H. injection H as <-. rewrite (IH s0 eq_refl). apply perm_swap.
    + injection H as <-. reflexivity.
Qed.

Lemma sorted_desc_perm {A : Type} (key : A -> AskMe.datetime) l s :
  AskMe.sorted_desc key l = Some s -> Permutation s l.
Proof.
  revert s. induction l as [|x l IH]; intros s H; cbn in H.
  - injection H as <-. reflexivity.
  - destruct (AskMe.sorted_desc key l) as [s0|]; [|discriminate].
    rewrite (insert_desc_perm key x s0 s H). constructor. apply IH. reflexivity.
Qed.

Lemma dt_lt_some_kind a b r :
  AskMe.dt_lt a b = Some r -> is_aware a = is_aware b.
Proof. destruct a, b; cbn; intros H; try discriminate; reflexivity. Qed.

Lemma sorted_desc_one_kind {A : Type} (key : A -> AskMe.datetime) l s :
  AskMe.sorted_desc key l = Some s ->
  forall a b, In a l -> In b l -> is_aware (key a) = is_aware (key b).
Proof.
  revert s. induction l as [|x l IH]; intros s H a b Ha Hb; [destruct Ha|].
  cbn in H. destruct (AskMe.sorted_desc key l) as [s0|] eqn:Hs; [|discriminate].
  assert (Hx : forall c, In c l -> is_aware (key x) = is_aware (key c)).
  { intros c Hc. destruct s0 as [|y s0].
    - apply sorted_desc_perm in Hs. apply Permutation_nil in Hs. subst l. destruct Hc.
    - cbn in H. destruct (AskMe.dt_lt (key x) (key y)) as [r|] eqn:E; [|discriminate].
      apply dt_lt_some_kind in E. rewrite E.
      apply (IH _ eq_refl).
      + apply (Permutation_in _ (sorted_desc_perm key l _ Hs)). left. reflexivity.
      + exact Hc. }
  destruct Ha as [<-|Ha], Hb as [<-|Hb].
  - reflexivity.
  - apply Hx, Hb.
  - symmetry. apply Hx, Ha.
  - apply (IH _ eq_refl); assumption.
Qed.

(** Keys of both kinds make the sort raise. *)
Lemma sorted_desc_mixed {A : Type} (key : A -> AskMe.datetime) l a b :
  In a l -> In b l -> is_aware (key a) = true -> is_aware (key b) = false ->
  AskMe.sorted_desc key l = None.
Proof.
  intros Ha Hb Haw Hnv. destruct (AskMe.sorted_desc key l) as [s|] eqn:E; [|reflexivity].
  pose proof (sorted_desc_one_kind key l s E a b Ha Hb) as H. congruence.
Qed.

Lemma dt_lt_instant a b r :
  AskMe.dt_lt a b = Some r -> r = (instant a <? instant b)%Z.
Proof. destruct a, b; cbn; intros H; try discriminate; injection H as <-; reflexivity. Qed.

Lemma insert_desc_descending {A : Type} (key : A -> AskMe.datetime) x l s :
  descending key l -> AskMe.insert_desc key x l = Some s -> descending key s.
Proof.
  revert s. induction l as [|y l IH]; intros s Hd H; cbn in H.
  - injection H as <-. repeat constructor.
  - apply StronglySorted_inv in Hd as [Hl Hy].
    destruct (AskMe.dt_lt (key x) (key y)) as [r|] eqn:E; [|discriminate].
    apply dt_lt_instant in E. subst r.
    destruct (instant (key x) <? instant (key y))%Z eqn:Hlt.
    + destruct (AskMe.insert_desc key x l) as [s0|] eqn:Hi; [|discriminate].
      cbn in H. injection H as <-. constructor; [apply (IH s0 Hl eq_refl)|].
      apply Z.ltb_lt in Hlt.
      rewrite List.Forall_forall. intros z Hz.
      apply (Permutation_in _ (insert_desc_perm key x l s0 Hi)) in Hz.
      destruct Hz as [<-|Hz]; [lia|]. rewrite List.Forall_forall in Hy. apply Hy, Hz.
    + injection H as <-. apply Z.ltb_ge in Hlt.
      constructor; [constructor; assumption|].
      constructor; [exact Hlt|].
      rewrite List.Forall_forall in Hy |- *. intros z Hz. specialize (Hy z Hz). lia.
Qed.

(** When the sort returns, its result is in descending order of the keys. *)
Lemma sorted_desc_descending {A : Type} (key : A -> AskMe.datetime) l s :
  AskMe.sorted_desc key l = Some s -> descending key s.
Proof.
  revert s. induction l as [|x l IH]; intros s H; cbn in H.
  - injection H as <-. constructor.
  - destruct (AskMe.sorted_desc key l) as [s0|]; [|discriminate].
    apply (insert_desc_descending key x s0 s); [apply IH; reflexivity | exact H].
Qed.

(** Keys of one kind are sorted: the sort returns. *)
Lemma insert_desc_total {A : Type} (key : A -> AskMe.datetime) x l :
  (forall y, In y l -> is_aware (key x) = is_aware (key y)) ->
  exists s, AskMe.insert_desc key x l = Some s.
Proof.
  induction l as [|y l IH]; intros H; cbn; [eexists; reflexivity|].
  assert (Hy : is_aware (key x) = is_aware (key y)) by (apply H; left; reflexivity).
  destruct (key x) as [tx|tx], (key y) as [ty|ty]; cbn in Hy; try discriminate; cbn.
  - destruct (tx <? ty)%Z; [|eexists; reflexivity].
    destruct IH as [s Hs]; [intros z Hz; apply H; right; exact Hz|].
    rewrite Hs. eexists. reflexivity.
  - destruct (tx <? ty)%Z; [|eexists; reflexivity].
    destruct IH as [s Hs]; [intros z Hz; apply H; right; exact Hz|].
    rewrite Hs. eexists. reflexivity.
Qed.

Lemma sorted_desc_total {A : Type} (key : A -> AskMe.datetime) l :
  (forall a b, In a l -> In b l -> is_aware (key a) = is_aware (key b)) ->
  exists s, AskMe.sorted_desc key l = Some s.
Proof.
  induction l as [|x l IH]; intros H; cbn; [eexists; reflexivity|].
  destruct IH as [s0 Hs]; [intros a b Ha Hb; apply H; right; assumption|].
  rewrite Hs. apply insert_desc_total. intros y Hy.
  apply (Permutation_in _ (sorted_desc_perm key l s0 Hs)) in Hy.
  apply H; [left; reflexivity | right; exact Hy].
Qed.

(** C8 on the code.  The order service lists orders updated at T3, T1 and
    T2, written with a trailing [Z], and one order whose timestamp cannot
    be parsed.  The parsed keys are aware values and the key of the
    unparsable entry is the naive [datetime.min], so the sort raises, and
    both order adapters answer with the error text instead of the list
    A3, A2, A1, A0. *)
Theorem orders_with_offsets_cannot_be_sorted :
  (map (AskMe.last_update_key iso_lib) <$> AskMe.as_objects orders_utc)
  = Some [AskMe.Aware 1740823200; AskMe.Aware 1735725600; AskMe.Aware 1738404000;
          AskMe.datetime_min]
  /\ sorted_order_keys iso_lib orders_utc = None
  /\ AskMe.orders_list_text iso_lib (orders_response orders_utc)
     = "Orders API error: can't compare offset-naive and offset-aware datetimes"
  /\ Rcoe.orders_list_text iso_lib (orders_response orders_utc)
     = "Orders API error: can't compare offset-naive and offset-aware datetimes"
  /\ Py.run (AskMe.get_orders_advice iso_lib orders_config "show my recent sales orders")
       (answering [Py.AnsHttp (Py.Responded (orders_response orders_utc))])
     = Some ("Orders API error: can't compare offset-naive and offset-aware datetimes",
             [Py.EvHttp orders_list_request (Py.Responded (orders_response orders_utc))],
             quiet_world).
Proof. repeat split; vm_compute; reflexivity. Qed.

(** The same holds for every list of orders in which one timestamp parses
    to an aware value and another entry has no parsable timestamp. *)
Lemma aware_and_unparsable_raise lib objs a b t :
  In a objs -> In b objs ->
  AskMe.last_update_key lib a = AskMe.Aware t ->
  AskMe.last_update_key lib b = AskMe.datetime_min ->
  AskMe.sorted_desc (AskMe.last_update_key lib) objs = None.
Proof.
  intros Ha Hb Hka Hkb. apply (sorted_desc_mixed _ objs a b Ha Hb).
  - rewrite Hka. reflexivity.
  - rewrite Hkb. reflexivity.
Qed.

(** With timestamps that carry no offset the list is sorted as the
    specification says, wherever the unparsable entry stands. *)
Example orders_without_offsets_are_sorted :
  sorted_order_keys iso_lib orders_local = Some ["A3"; "A2"; "A1"; "A0"]
  /\ sorted_order_keys iso_lib
       [order "A0" "not-a-date"; order "A3" "2025-03-01T10:00:00";
        order "A1" "2025-01-01T10:00:00"; order "A2" "2025-02-01T10:00:00"]
     = Some ["A3"; "A2"; "A1"; "A0"]
  /\ sorted_order_keys iso_lib
       [order "A3" "2025-03-01T10:00:00"; order "A0" "not-a-date";
        order "A1" "2025-01-01T10:00:00"; order "A2" "2025-02-01T10:00:00"]
     = Some ["A3"; "A2"; "A1"; "A0"]
  /\ sorted_order_keys iso_lib
       [order "A3" "2025-03-01T10:00:00"; order "A1" "2025-01-01T10:00:00";
        order "A0" "not-a-date"; order "A2" "2025-02-01T10:00:00"]
     = Some ["A3"; "A2"; "A1"; "A0"].
Proof. repeat split; vm_compute; reflexivity. Qed.

(** The sort is stable: orders with equal keys keep the order of the
    payload, as Python's sort does with [reverse=True]. *)
Example orders_sort_is_stable :
  sorted_order_keys iso_lib
    [order "0" "x"; order "1" "2025-01-01T10:00:00"; order "2" "y";
     order "3" "2025-01-01T10:00:00"; order "4" "2025-02-01T10:00:00";
     Py.JObj [("OrderKey", Py.JStr "5"); ("LastUpdateDate", Py.JNull)]]
  = Some ["4"; "1"; "3"; "0"; "2"; "5"].
Proof. vm_compute. reflexivity. Qed.

(* ================================================================== *)
(** * Further properties of the code *)
(* ================================================================== *)

(** ** Base64: decoding undoes encoding *)

Lemma append_assoc (a b c : string) : (a +:+ b) +:+ c = a +:+ (b +:+ c).
Proof.
  induction a as [|x a IH]; [reflexivity|].
  change (String x ((a +:+ b) +:+ c) = String x (a +:+ (b +:+ c))). now rewrite IH.
Qed.

Lemma append_nil_r (a : string) : a +:+ "" = a.
Proof.
  induction a as [|x a IH]; [reflexivity|].
  change (String x (a +:+ "") = String x a). now rewrite IH.
Qed.

Lemma rev_app_spec (s acc : string) : String.rev_app s acc = String.rev s +:+ acc.
Proof.
  unfold String.rev. revert acc.
  induction s as [|x s IH]; intros acc; [reflexivity|].
  cbn [String.rev_app]. rewrite (IH (String x acc)), (IH (String x "")).
  now rewrite append_assoc.
Qed.

Lemma rev_cons (x : ascii) (s : string) : String.rev (String x s) = String.rev s +:+ String x "".
Proof. unfold String.rev at 1. cbn [String.rev_app]. apply rev_app_spec. Qed.

Lemma rev_append (a b : string) : String.rev (a +:+ b) = String.rev b +:+ String.rev a.
Proof.
  induction a as [|x a IH].
  - cbn. symmetry. apply append_nil_r.
  - change (String x a +:+ b) with (String x (a +:+ b)).
    rewrite !rev_cons, IH. apply append_assoc.
Qed.

Lemma rev_involutive (a : string) : String.rev (String.rev a) = a.
Proof.
  induction a as [|x a IH]; [reflexivity|].
  rewrite rev_cons, rev_append, IH. reflexivity.
Qed.

Lemma sextets_ok : forallb sextet_ok (N.of_nat <$> seq 0 64) = true.
Proof. vm_compute. reflexivity. Qed.

Lemma sextet_spec n :
  (n < 64)%N ->
  Base64.dec6 (Base64.enc6 n) = Some n
  /\ Base64.enc6 n <> "="%char
  /\ (nat_of_ascii (Base64.enc6 n) <? 128)%nat = true.
Proof.
  intros Hn.
  pose proof sextets_ok as H.
  rewrite forallb_forall in H.
  specialize (H n).
  assert (Hin : In n (N.of_nat <$> seq 0 64)).
  { apply in_map_iff. exists (N.to_nat n). split; [lia|]. apply in_seq. lia. }
  specialize (H Hin). unfold sextet_ok in H.
  apply andb_true_iff in H as [H H3]. apply andb_true_iff in H as [H1 H2].
  split; [|split].
  - destruct (Base64.dec6 (Base64.enc6 n)); [|discriminate].
    apply N.eqb_eq in H1. congruence.
  - intros E. rewrite E in H2. discriminate.
  - exact H3.
Qed.

Ltac euclid := zify; Z.to_euclidean_division_equations; lia.

(** One data character read by the decoder. *)
Lemma a2b_sextet n s st :
  (n < 64)%N ->
  Base64.a2b (String (Base64.enc6 n) s) st
  = match Base64.quad_pos st with
    | 0%nat => Base64.a2b s (Base64.mkD 1 n 0 (Base64.out st))
    | 1%nat =>
        Base64.a2b s (Base64.mkD 2 (n mod 16) 0
          (String (Base64.byte_of (Base64.leftchar st * 4 + n / 16)) (Base64.out st)))
    | 2%nat =>
        Base64.a2b s (Base64.mkD 3 (n mod 4) 0
          (String (Base64.byte_of (Base64.leftchar st * 16 + n / 4)) (Base64.out st)))
    | _ =>
        Base64.a2b s (Base64.mkD 0 0 0
          (String (Base64.byte_of (Base64.leftchar st * 64 + n)) (Base64.out st)))
    end.
Proof.
  intros Hn. destruct (sextet_spec n Hn) as [Hd [Hne _]].
  cbn [Base64.a2b]. destruct (decide (Base64.enc6 n = "="%char)) as [E|_]; [contradiction|].
  rewrite Hd. reflexivity.
Qed.

Lemma byte_of_code a : Base64.byte_of (N_of_ascii a) = a.
Proof.
  unfold Base64.byte_of. rewrite N.mod_small by apply N_ascii_bounded.
  apply ascii_N_embedding.
Qed.

Lemma a2b_b64encode_fuel n : forall data acc,
  (String.length data <= n)%nat ->
  Base64.a2b (Base64.b64encode data) (Base64.mkD 0 0 0 acc)
  = Some (String.rev acc +:+ data).
Proof.
  induction n as [n IH] using lt_wf_ind. intros data acc Hlen.
  destruct data as [|a [|b [|c rest]]].
  - cbn. now rewrite append_nil_r.
  - pose proof (N_ascii_bounded a) as Ha.
    cbn [Base64.b64encode].
    rewrite a2b_sextet by euclid. cbn [Base64.quad_pos Base64.out Base64.leftchar].
    rewrite a2b_sextet by euclid. cbn [Base64.quad_pos Base64.out Base64.leftchar].
    cbn -[N.div N.modulo N.mul N.add String.rev].
    replace (N_of_ascii a / 4 * 4 + N_of_ascii a mod 4 * 16 / 16)%N with (N_of_ascii a) by euclid.
    rewrite byte_of_code, ?rev_cons, ?append_assoc. reflexivity.
  - pose proof (N_ascii_bounded a) as Ha. pose proof (N_ascii_bounded b) as Hb.
    cbn [Base64.b64encode].
    rewrite a2b_sextet by euclid. cbn [Base64.quad_pos Base64.out Base64.leftchar].
    rewrite a2b_sextet by euclid. cbn [Base64.quad_pos Base64.out Base64.leftchar].
    rewrite a2b_sextet by euclid. cbn [Base64.quad_pos Base64.out Base64.leftchar].
    cbn -[N.div N.modulo N.mul N.add String.rev].
    replace (N_of_ascii a / 4 * 4 + (N_of_ascii a mod 4 * 16 + N_of_ascii b / 16) / 16)%N
      with (N_of_ascii a) by euclid.
    replace ((N_of_ascii a mod 4 * 16 + N_of_ascii b / 16) mod 16 * 16
             + N_of_ascii b mod 16 * 4 / 4)%N with (N_of_ascii b) by euclid.
    rewrite !byte_of_code, ?rev_cons, ?append_assoc. reflexivity.
  - pose proof (N_ascii_bounded a) as Ha. pose proof (N_ascii_bounded b) as Hb.
    pose proof (N_ascii_bounded c) as Hc.
    cbn [Base64.b64encode].
    rewrite a2b_sextet by euclid. cbn [Base64.quad_pos Base64.out Base64.leftchar].
    rewrite a2b_sextet by euclid. cbn [Base64.quad_pos Base64.out Base64.leftchar].
    rewrite a2b_sextet by euclid. cbn [Base64.quad_pos Base64.out Base64.leftchar].
    rewrite a2b_sextet by euclid. cbn [Base64.quad_pos Base64.out Base64.leftchar].
    replace (N_of_ascii a / 4 * 4 + (N_of_ascii a mod 4 * 16 + N_of_ascii b / 16) / 16)%N
      with (N_of_ascii a) by euclid.
    replace ((N_of_ascii a mod 4 * 16 + N_of_ascii b / 16) mod 16 * 16
             + (N_of_ascii b mod 16 * 4 + N_of_ascii c / 64) / 4)%N
      with (N_of_ascii b) by euclid.
    replace ((N_of_ascii b mod 16 * 4 + N_of_ascii c / 64) mod 4 * 64 + N_of_ascii c mod 64)%N
      with (N_of_ascii c) by euclid.
    rewrite !byte_of_code.
    cbn in Hlen.
    rewrite (IH (String.length rest)) by lia.
    rewrite ?rev_cons, ?append_assoc. reflexivity.
Qed.

Lemma b64encode_is_ascii data : Base64.is_ascii (Base64.b64encode data) = true.
Proof.
  assert (H : forall n data, (String.length data <= n)%nat ->
            Base64.is_ascii (Base64.b64encode data) = true).
  { clear data. induction n as [n IH] using lt_wf_ind. intros data Hlen.
    destruct data as [|a [|b [|c rest]]]; [reflexivity| | |].
    - pose proof (N_ascii_bounded a).
      cbn [Base64.b64encode Base64.is_ascii].
      rewrite (proj2 (proj2 (sextet_spec (N_of_ascii a / 4) ltac:(euclid)))).
      rewrite (proj2 (proj2 (sextet_spec (N_of_ascii a mod 4 * 16) ltac:(euclid)))).
      reflexivity.
    - pose proof (N_ascii_bounded a). pose proof (N_ascii_bounded b).
      cbn [Base64.b64encode Base64.is_ascii].
      rewrite (proj2 (proj2 (sextet_spec (N_of_ascii a / 4) ltac:(euclid)))).
      rewrite (proj2 (proj2 (sextet_spec (N_of_ascii a mod 4 * 16 + N_of_ascii b / 16) ltac:(euclid)))).
      rewrite (proj2 (proj2 (sextet_spec (N_of_ascii b mod 16 * 4) ltac:(euclid)))).
      reflexivity.
    - pose proof (N_ascii_bounded a). pose proof (N_ascii_bounded b).
      pose proof (N_ascii_bounded c).
      cbn [Base64.b64encode Base64.is_ascii].
      rewrite (proj2 (proj2 (sextet_spec (N_of_ascii a / 4) ltac:(euclid)))).
      rewrite (proj2 (proj2 (sextet_spec (N_of_ascii a mod 4 * 16 + N_of_ascii b / 16) ltac:(euclid)))).
      rewrite (proj2 (proj2 (sextet_spec (N_of_ascii b mod 16 * 4 + N_of_ascii c / 64) ltac:(euclid)))).
      rewrite (proj2 (proj2 (sextet_spec (N_of_ascii c mod 64) ltac:(euclid)))).
      cbn in Hlen. cbn. apply (IH (String.length rest)); lia. }
  apply (H (String.length data)). lia.
Qed.

Lemma b64decode_b64encode data : Base64.b64decode (Base64.b64encode data) = Some data.
Proof.
  unfold Base64.b64decode. rewrite b64encode_is_ascii.
  now rewrite (a2b_b64encode_fuel (String.length data)).
Qed.

(** ** Trimming as [str.strip] does *)

Lemma append_cons c a b : String c a +:+ b = String c (a +:+ b).
Proof. reflexivity. Qed.

Lemma append_nil_l b : "" +:+ b = b.
Proof. reflexivity. Qed.

Lemma all_chars_app P a b : all_chars P (a +:+ b) = all_chars P a && all_chars P b.
Proof.
  induction a as [|x a IH]; [reflexivity|].
  change (String x a +:+ b) with (String x (a +:+ b)). cbn [all_chars].
  rewrite IH. apply andb_assoc.
Qed.

Lemma append_inv_head (a b c : string) : a +:+ b = a +:+ c -> b = c.
Proof.
  induction a as [|x a IH]; [auto|]. rewrite !append_cons. intros [= H]. auto.
Qed.

(** *** The units of a text *)

Lemma by_length (P : string -> Prop) :
  (forall s, (forall t, (String.length t < String.length s)%nat -> P t) -> P s) ->
  forall s, P s.
Proof.
  intros H s. remember (String.length s) as n eqn:E.
  revert s E. induction n as [n IH] using lt_wf_ind. intros s ->.
  apply H. intros t Ht. exact (IH _ Ht t eq_refl).
Qed.

(** The first unit of a text and what follows it. *)
Lemma units_cons a s1 :
  exists u rest, PyStr.units (String a s1) = u :: PyStr.units rest
                 /\ String a s1 = u.2 +:+ rest
                 /\ (String.length rest < String.length (String a s1))%nat.
Proof.
  cbn [PyStr.units]. destruct (PyStr.is_space a).
  { eexists _, _. split; [reflexivity|]. split; [reflexivity | cbn; lia]. }
  destruct s1 as [|b s2].
  { eexists _, _. split; [reflexivity|]. split; [reflexivity | cbn; lia]. }
  destruct (PyStr.is_space2 a b).
  { eexists _, _. split; [reflexivity|]. split; [reflexivity | cbn; lia]. }
  destruct s2 as [|c s3].
  { eexists _, _. split; [reflexivity|]. split; [reflexivity | cbn; lia]. }
  destruct (PyStr.is_space3 a b c).
  { eexists _, _. split; [reflexivity|]. split; [reflexivity | cbn; lia]. }
  eexists _, _. split; [reflexivity|]. split; [reflexivity | cbn; lia].
Qed.

Lemma text_of_units s : PyStr.text_of (PyStr.units s) = s.
Proof.
  induction s as [s IH] using by_length. destruct s as [|a s1]; [reflexivity|].
  destruct (units_cons a s1) as (u & rest & -> & E & Hl).
  cbn [PyStr.text_of]. rewrite (IH rest Hl). symmetry. exact E.
Qed.

Lemma text_of_app us vs :
  PyStr.text_of (us ++ vs) = PyStr.text_of us +:+ PyStr.text_of vs.
Proof.
  induction us as [|u us IH]; [reflexivity|].
  cbn [app PyStr.text_of]. now rewrite IH, append_assoc.
Qed.

Lemma stable_units s : stable (PyStr.units s).
Proof. unfold stable. now rewrite text_of_units. Qed.

Lemma stable_tail u us : stable (u :: us) -> stable us.
Proof.
  unfold stable. cbn [PyStr.text_of]. intros H.
  destruct (u.2 +:+ PyStr.text_of us) as [|a s1] eqn:E; [discriminate H|].
  destruct (units_cons a s1) as (v & rest & Hv & Hs & _).
  rewrite Hv in H. injection H as -> Hr.
  rewrite Hs in E. apply append_inv_head in E. now rewrite E.
Qed.

Lemma stable_drop p us : stable (p ++ us) -> stable us.
Proof. induction p as [|u p IH]; [auto|]. intros H. apply IH, (stable_tail u), H. Qed.

(** The first unit of a text stays the first unit when the text is cut
    short behind it. *)
Lemma first_unit_kept u r r' :
  PyStr.units (u.2 +:+ r +:+ r') = u :: PyStr.units (r +:+ r') ->
  PyStr.units (u.2 +:+ r) = u :: PyStr.units r.
Proof.
  destruct u as [f x]. cbn [snd].
  destruct x as [|a x].
  { rewrite !append_nil_l. intros H. apply (f_equal length) in H. cbn in H. lia. }
  rewrite !append_cons. cbn [PyStr.units].
  destruct (PyStr.is_space a) eqn:Ea.
  { intros [= <- <- H]. reflexivity. }
  destruct x as [|b x].
  - (* one byte that is no white space *)
    rewrite !append_nil_l.
    destruct r as [|b r].
    + rewrite append_nil_l. intros H.
      assert (E : f = false); [|now rewrite E].
      destruct r' as [|q1 [|q2 r']]; cbn in H;
        repeat match type of H with
               | context [if ?c then _ else _] => destruct c
               end; now injection H.
    + rewrite append_cons.
      destruct (PyStr.is_space2 a b); [intros [= _ H]; discriminate H|].
      destruct r as [|c r].
      * rewrite append_nil_l. intros H.
        assert (E : f = false); [|now rewrite E].
        destruct r' as [|q1 r']; cbn in H;
          repeat match type of H with
                 | context [if ?c then _ else _] => destruct c
                 end; now injection H.
      * rewrite append_cons.
        destruct (PyStr.is_space3 a b c); [intros [= _ H]; discriminate H|].
        intros [= <-]. reflexivity.
  - rewrite !append_cons.
    destruct (PyStr.is_space2 a b).
    { intros [= <- <- H]. reflexivity. }
    destruct x as [|c x].
    + rewrite !append_nil_l. intros H. exfalso.
      destruct r as [|c r]; [rewrite append_nil_l in H; destruct r' as [|c r']|];
        rewrite ?append_cons in H;
        repeat match type of H with
               | context [if ?c then _ else _] => destruct c
               end; injection H; intros; discriminate.
    + rewrite !append_cons.
      destruct (PyStr.is_space3 a b c).
      * intros [= <- <- H]. reflexivity.
      * intros H. inversion H.
Qed.

Lemma stable_init us u : stable (us ++ [u]) -> stable us.
Proof.
  induction us as [|v us IH]; [reflexivity|].
  intros H. assert (Ht : stable (us ++ [u])) by exact (stable_tail v _ H).
  specialize (IH Ht).
  unfold stable in *.
  assert (E : PyStr.text_of (us ++ [u]) = PyStr.text_of us +:+ u.2).
  { rewrite text_of_app. cbn [PyStr.text_of]. now rewrite append_nil_r. }
  assert (H' : PyStr.units (v.2 +:+ PyStr.text_of us +:+ u.2)
               = v :: PyStr.units (PyStr.text_of us +:+ u.2)).
  { rewrite <- E, Ht. exact H. }
  apply first_unit_kept in H'. cbn [PyStr.text_of]. now rewrite H', IH.
Qed.

Lemma stable_take us q : stable (us ++ q) -> stable us.
Proof.
  revert us. induction q as [|u q IH] using rev_ind; intros us H.
  - now rewrite app_nil_r in H.
  - rewrite app_assoc in H. apply stable_init in H. now apply IH.
Qed.

(** *** Trimming a list of units *)

Lemma trim_left_idem us : PyStr.trim_left (PyStr.trim_left us) = PyStr.trim_left us.
Proof.
  induction us as [|[[|] x] us IH]; [reflexivity | exact IH | reflexivity].
Qed.

Lemma trim_left_suffix us : exists p, us = p ++ PyStr.trim_left us.
Proof.
  induction us as [|[[|] x] us [p IH]]; [now exists [] | | now exists []].
  exists ((true, x) :: p). cbn [PyStr.trim_left app]. now rewrite <- IH.
Qed.

Lemma trim_left_app us vs :
  PyStr.trim_left (us ++ vs)
  = match PyStr.trim_left us with
    | [] => PyStr.trim_left vs
    | w => w ++ vs
    end.
Proof.
  induction us as [|[[|] x] us IH]; [reflexivity | exact IH | reflexivity].
Qed.

Lemma trim_right_app us vs :
  PyStr.trim_right (us ++ vs)
  = match PyStr.trim_right vs with
    | [] => PyStr.trim_right us
    | w => us ++ w
    end.
Proof.
  unfold PyStr.trim_right. rewrite reverse_app, trim_left_app.
  destruct (PyStr.trim_left (reverse vs)) as [|y w] eqn:E; [reflexivity|].
  rewrite reverse_app, reverse_involutive.
  destruct (reverse (y :: w)) eqn:R; [|reflexivity].
  apply (f_equal reverse) in R. rewrite reverse_involutive in R. discriminate R.
Qed.

Lemma trim_right_cons u us :
  PyStr.trim_right (u :: us)
  = match PyStr.trim_right us with
    | [] => if u.1 then [] else [u]
    | w => u :: w
    end.
Proof.
  change (u :: us) with ([u] ++ us). rewrite trim_right_app.
  destruct (PyStr.trim_right us); [|reflexivity]. now destruct u as [[|] x].
Qed.

Lemma trim_right_prefix us : exists q, us = PyStr.trim_right us ++ q.
Proof.
  unfold PyStr.trim_right. destruct (trim_left_suffix (reverse us)) as [p E].
  exists (reverse p). apply (f_equal reverse) in E.
  now rewrite reverse_involutive, reverse_app in E.
Qed.

Lemma trim_right_idem us : PyStr.trim_right (PyStr.trim_right us) = PyStr.trim_right us.
Proof.
  unfold PyStr.trim_right. now rewrite reverse_involutive, trim_left_idem.
Qed.

Lemma trim_left_right us :
  PyStr.trim_left (PyStr.trim_right us) = PyStr.trim_right (PyStr.trim_left us).
Proof.
  induction us as [|[[|] x] us IH]; [reflexivity| |].
  - rewrite trim_right_cons. cbn [fst PyStr.trim_left].
    destruct (PyStr.trim_right us) as [|y w] eqn:E.
    + rewrite <- IH. reflexivity.
    + cbn [PyStr.trim_left]. exact IH.
  - cbn [PyStr.trim_left]. rewrite trim_right_cons. cbn [fst].
    now destruct (PyStr.trim_right us).
Qed.

(** *** The units of a trimmed text *)

Lemma stable_trim_left us : stable us -> stable (PyStr.trim_left us).
Proof.
  intros H. destruct (trim_left_suffix us) as [p E]. rewrite E in H.
  exact (stable_drop _ _ H).
Qed.

Lemma stable_trim_right us : stable us -> stable (PyStr.trim_right us).
Proof.
  intros H. destruct (trim_right_prefix us) as [q E]. rewrite E in H.
  exact (stable_take _ _ H).
Qed.

Lemma units_lstrip s : PyStr.units (PyStr.lstrip s) = PyStr.trim_left (PyStr.units s).
Proof. apply stable_trim_left, stable_units. Qed.

Lemma units_rstrip s : PyStr.units (PyStr.rstrip s) = PyStr.trim_right (PyStr.units s).
Proof. apply stable_trim_right, stable_units. Qed.

Lemma units_strip s :
  PyStr.units (PyStr.strip s) = PyStr.trim_right (PyStr.trim_left (PyStr.units s)).
Proof. apply stable_trim_right, stable_trim_left, stable_units. Qed.

Lemma strip_is_rstrip_lstrip s : PyStr.strip s = PyStr.rstrip (PyStr.lstrip s).
Proof. unfold PyStr.rstrip. now rewrite units_lstrip. Qed.

Lemma strip_is_lstrip_rstrip s : PyStr.strip s = PyStr.lstrip (PyStr.rstrip s).
Proof. unfold PyStr.lstrip at 1. now rewrite units_rstrip, trim_left_right. Qed.

Lemma lstrip_idem s : PyStr.lstrip (PyStr.lstrip s) = PyStr.lstrip s.
Proof. unfold PyStr.lstrip at 1. now rewrite units_lstrip, trim_left_idem. Qed.

Lemma rstrip_idem s : PyStr.rstrip (PyStr.rstrip s) = PyStr.rstrip s.
Proof. unfold PyStr.rstrip at 1. now rewrite units_rstrip, trim_right_idem. Qed.

Lemma strip_idem s : PyStr.strip (PyStr.strip s) = PyStr.strip s.
Proof.
  unfold PyStr.strip at 1.
  now rewrite units_strip, trim_left_right, trim_left_idem, trim_right_idem.
Qed.

Lemma strip_lstrip s : PyStr.strip (PyStr.lstrip s) = PyStr.strip s.
Proof. unfold PyStr.strip at 1. now rewrite units_lstrip, trim_left_idem. Qed.

Lemma strip_rstrip s : PyStr.strip (PyStr.rstrip s) = PyStr.strip s.
Proof.
  unfold PyStr.strip at 1. now rewrite units_rstrip, trim_left_right, trim_right_idem.
Qed.

(** Trimming takes characters away only. *)
Lemma lstrip_suffix s : exists p, s = p +:+ PyStr.lstrip s.
Proof.
  destruct (trim_left_suffix (PyStr.units s)) as [p E].
  exists (PyStr.text_of p). unfold PyStr.lstrip.
  now rewrite <- text_of_app, <- E, text_of_units.
Qed.

Lemma rstrip_prefix s : exists q, s = PyStr.rstrip s +:+ q.
Proof.
  destruct (trim_right_prefix (PyStr.units s)) as [q E].
  exists (PyStr.text_of q). unfold PyStr.rstrip.
  now rewrite <- text_of_app, <- E, text_of_units.
Qed.

Lemma strip_inside s : exists p q, s = p +:+ PyStr.strip s +:+ q.
Proof.
  destruct (lstrip_suffix s) as [p Hp]. destruct (rstrip_prefix (PyStr.lstrip s)) as [q Hq].
  exists p, q. now rewrite strip_is_rstrip_lstrip, <- Hq.
Qed.

Lemma all_chars_lstrip P s : all_chars P s = true -> all_chars P (PyStr.lstrip s) = true.
Proof.
  destruct (lstrip_suffix s) as [p E]. rewrite E at 1. rewrite all_chars_app.
  intros H. now apply andb_true_iff in H as [_ H].
Qed.

Lemma all_chars_strip P s : all_chars P s = true -> all_chars P (PyStr.strip s) = true.
Proof.
  destruct (strip_inside s) as [p [q E]]. rewrite E at 1. rewrite !all_chars_app.
  intros H. apply andb_true_iff in H as [_ H]. now apply andb_true_iff in H as [H _].
Qed.

(** *** White space and ASCII *)

Ltac split_tests H :=
  repeat match type of H with
         | (_ || _) = true => apply orb_true_iff in H as [H|H]
         | (_ && _) = true =>
             let H1 := fresh H in apply andb_true_iff in H as [H1 H]; try split_tests H1
         | (_ =? _)%nat = true => apply Nat.eqb_eq in H
         | (_ <=? _)%nat = true => apply Nat.leb_le in H
         end.

Lemma space2_high a b :
  PyStr.is_space2 a b = true -> ascii_char a = false /\ ascii_char b = false.
Proof.
  unfold PyStr.is_space2, ascii_char. intros H.
  split_tests H; split; apply Nat.ltb_ge; lia.
Qed.

Lemma space3_high a b c :
  PyStr.is_space3 a b c = true ->
  ascii_char a = false /\ ascii_char b = false /\ ascii_char c = false.
Proof.
  unfold PyStr.is_space3, ascii_char. cbv zeta. intros H.
  split_tests H; repeat split; apply Nat.ltb_ge; lia.
Qed.

Lemma not_space2_l a b : ascii_char a = true -> PyStr.is_space2 a b = false.
Proof.
  intros H. destruct (PyStr.is_space2 a b) eqn:E; [|reflexivity].
  apply space2_high in E as [E _]. congruence.
Qed.

Lemma not_space2_r a b : ascii_char b = true -> PyStr.is_space2 a b = false.
Proof.
  intros H. destruct (PyStr.is_space2 a b) eqn:E; [|reflexivity].
  apply space2_high in E as [_ E]. congruence.
Qed.

Lemma not_space3_1 a b c : ascii_char a = true -> PyStr.is_space3 a b c = false.
Proof.
  intros H. destruct (PyStr.is_space3 a b c) eqn:E; [|reflexivity].
  apply space3_high in E as (E & _ & _). congruence.
Qed.

Lemma not_space3_2 a b c : ascii_char b = true -> PyStr.is_space3 a b c = false.
Proof.
  intros H. destruct (PyStr.is_space3 a b c) eqn:E; [|reflexivity].
  apply space3_high in E as (_ & E & _). congruence.
Qed.

Lemma not_space3_3 a b c : ascii_char c = true -> PyStr.is_space3 a b c = false.
Proof.
  intros H. destruct (PyStr.is_space3 a b c) eqn:E; [|reflexivity].
  apply space3_high in E as (_ & _ & E). congruence.
Qed.

(** A character of ASCII that is no white space is a unit of its own. *)
Lemma units_plain_head c s :
  plain_char c = true ->
  PyStr.units (String c s) = (false, String c "") :: PyStr.units s.
Proof.
  unfold plain_char. intros H. apply andb_true_iff in H as [H1 H2].
  apply negb_true_iff in H1. cbn [PyStr.units]. rewrite H1.
  destruct s as [|b s]; [reflexivity|]. rewrite (not_space2_l c b H2).
  destruct s as [|d s]; [reflexivity|]. now rewrite (not_space3_1 c b d H2).
Qed.

(** A character of ASCII ends the unit before it. *)
Lemma units_app_ascii a c t :
  ascii_char c = true ->
  PyStr.units (a +:+ String c t) = PyStr.units a ++ PyStr.units (String c t).
Proof.
  intros Hc. induction a as [a IH] using by_length.
  destruct a as [|x a1]; [reflexivity|].
  rewrite append_cons. cbn [PyStr.units].
  destruct (PyStr.is_space x).
  { rewrite IH by (cbn; lia). reflexivity. }
  destruct a1 as [|y a2].
  { rewrite append_nil_l. rewrite (not_space2_r x c Hc).
    destruct t as [|z t]; [reflexivity|]. now rewrite (not_space3_2 x c z Hc). }
  rewrite append_cons.
  destruct (PyStr.is_space2 x y).
  { rewrite IH by (cbn; lia). reflexivity. }
  destruct a2 as [|z a3].
  { rewrite append_nil_l. rewrite (not_space3_3 x y c Hc).
    change (String y (String c t)) with (String y "" +:+ String c t).
    rewrite IH by (cbn; lia). reflexivity. }
  rewrite append_cons.
  destruct (PyStr.is_space3 x y z).
  { rewrite IH by (cbn; lia). reflexivity. }
  change (String y (String z (a3 +:+ String c t)))
    with (String y (String z a3) +:+ String c t).
  rewrite IH by (cbn; lia). reflexivity.
Qed.

Lemma units_plain s :
  all_chars plain_char s = true -> Forall (fun u => u.1 = false) (PyStr.units s).
Proof.
  induction s as [|c s IH]; intros H; [constructor|].
  cbn [all_chars] in H. apply andb_true_iff in H as [Hc Hs].
  rewrite units_plain_head by exact Hc. constructor; [reflexivity | exact (IH Hs)].
Qed.

Lemma trim_left_plain us : Forall (fun u => u.1 = false) us -> PyStr.trim_left us = us.
Proof. intros [|[f x] rest Hf _]; [reflexivity|]. cbn in Hf. now subst f. Qed.

Lemma trim_right_plain us : Forall (fun u => u.1 = false) us -> PyStr.trim_right us = us.
Proof.
  intros H. unfold PyStr.trim_right. rewrite trim_left_plain.
  - apply reverse_involutive.
  - apply Forall_reverse, H.
Qed.

(** A text of ASCII without white space is trimmed. *)
Lemma strip_plain s : all_chars plain_char s = true -> PyStr.strip s = s.
Proof.
  intros H. apply units_plain in H. unfold PyStr.strip.
  rewrite (trim_left_plain _ H), (trim_right_plain _ H). apply text_of_units.
Qed.

(** Trimming on both sides of an [=]. *)
Lemma strip_around_eq_sign a b :
  PyStr.strip (a +:+ "=" +:+ b) = PyStr.lstrip a +:+ "=" +:+ PyStr.rstrip b.
Proof.
  unfold PyStr.strip, PyStr.lstrip, PyStr.rstrip.
  change (a +:+ "=" +:+ b) with (a +:+ String "=" b).
  rewrite (units_app_ascii a "=" b eq_refl), (units_plain_head "=" b eq_refl).
  assert (E1 : PyStr.trim_left (PyStr.units a ++ (false, "=") :: PyStr.units b)
               = PyStr.trim_left (PyStr.units a) ++ (false, "=") :: PyStr.units b).
  { rewrite trim_left_app. now destruct (PyStr.trim_left (PyStr.units a)). }
  rewrite E1, trim_right_app, trim_right_cons. cbn [fst].
  assert (E2 : match PyStr.trim_right (PyStr.units b) with
               | [] => [(false, "=")]
               | w => (false, "=") :: w
               end = (false, "=") :: PyStr.trim_right (PyStr.units b)).
  { now destruct (PyStr.trim_right (PyStr.units b)). }
  rewrite E2, text_of_app. reflexivity.
Qed.

(** A trimmed text begins as the text trimmed on the left does. *)
Lemma strip_prefix_lstrip s : exists q, PyStr.lstrip s = PyStr.strip s +:+ q.
Proof.
  destruct (rstrip_prefix (PyStr.lstrip s)) as [q E]. exists q.
  now rewrite strip_is_rstrip_lstrip.
Qed.

(** A marker of ASCII in front of a text of a download: nothing is
    trimmed. *)
Lemma strip_payload p data :
  all_chars plain_char p = true ->
  all_chars payload_char data = true ->
  PyStr.strip (p +:+ data) = p +:+ data.
Proof.
  intros Hp Hd. apply strip_plain. rewrite all_chars_app, Hp. cbn [andb].
  clear Hp. induction data as [|c d IH]; [reflexivity|].
  cbn [all_chars] in *. apply andb_true_iff in Hd as [Hc Hd].
  unfold payload_char in Hc. apply andb_true_iff in Hc as [-> _]. exact (IH Hd).
Qed.

(** ** Download markers in front of Base64 text *)

Lemma sextets_plain : forallb sextet_plain (N.of_nat <$> seq 0 64) = true.
Proof. vm_compute. reflexivity. Qed.

Lemma enc6_plain n : (n < 64)%N -> payload_char (Base64.enc6 n) = true.
Proof.
  intros Hn. pose proof sextets_plain as H. rewrite forallb_forall in H.
  apply (H n). apply in_map_iff. exists (N.to_nat n). split; [lia|]. apply in_seq. lia.
Qed.

Lemma b64encode_plain data : all_chars payload_char (Base64.b64encode data) = true.
Proof.
  assert (H : forall n data, (String.length data <= n)%nat ->
            all_chars payload_char (Base64.b64encode data) = true).
  { clear data. induction n as [n IH] using lt_wf_ind. intros data Hlen.
    destruct data as [|a [|b [|c rest]]]; [reflexivity| | |].
    - pose proof (N_ascii_bounded a).
      cbn [Base64.b64encode all_chars].
      rewrite !enc6_plain by euclid. reflexivity.
    - pose proof (N_ascii_bounded a). pose proof (N_ascii_bounded b).
      cbn [Base64.b64encode all_chars].
      rewrite !enc6_plain by euclid. reflexivity.
    - pose proof (N_ascii_bounded a). pose proof (N_ascii_bounded b).
      pose proof (N_ascii_bounded c).
      cbn [Base64.b64encode all_chars].
      rewrite !enc6_plain by euclid. cbn in Hlen. cbn [andb].
      apply (IH (String.length rest)); lia. }
  apply (H (String.length data)). lia.
Qed.

(** The two download markers hold an underscore as their fourth and
    seventh character: they do not start in a text without one. *)
Lemma no_pdf_marker_at s :
  all_chars payload_char s = true -> PyStr.startswith "PDF_DOWNLOAD:" s = false.
Proof.
  intros H. destruct s as [|c1 [|c2 [|c3 [|c4 s]]]]; try reflexivity;
    cbn [PyStr.startswith]; repeat (case_decide; [|reflexivity]); try reflexivity.
  subst. cbn in H. rewrite !andb_false_r in H. discriminate H.
Qed.

Lemma no_report_marker_at s :
  all_chars payload_char s = true -> PyStr.startswith "REPORT_DOWNLOAD:" s = false.
Proof.
  intros H.
  destruct s as [|c1 [|c2 [|c3 [|c4 [|c5 [|c6 [|c7 s]]]]]]]; try reflexivity;
    cbn [PyStr.startswith]; repeat (case_decide; [|reflexivity]); try reflexivity.
  subst. cbn in H. rewrite !andb_false_r in H. discriminate H.
Qed.

Lemma no_marker_inside s :
  all_chars payload_char s = true ->
  PyStr.contains "PDF_DOWNLOAD:" s = false /\ PyStr.contains "REPORT_DOWNLOAD:" s = false.
Proof.
  induction s as [|c s IH]; intros H; [split; reflexivity|].
  pose proof (no_pdf_marker_at _ H) as H1. pose proof (no_report_marker_at _ H) as H2.
  cbn [all_chars] in H. apply andb_true_iff in H as [_ H].
  destruct (IH H) as [I1 I2].
  cbn [PyStr.contains]. rewrite H1, H2, I1, I2. split; reflexivity.
Qed.

(** A text in which the separator does not occur is not split. *)
Lemma split_from_absent sep s budget cur :
  PyStr.contains sep s = false ->
  PyStr.split_from sep s budget 0 cur = [String.rev cur +:+ s].
Proof.
  revert cur. induction s as [|c s IH]; intros cur H.
  - cbn. now rewrite append_nil_r.
  - apply contains_false_inv in H as [Hp Hs].
    cbn [PyStr.split_from]. rewrite Hp.
    assert (E : PyStr.split_from sep s budget 0 (String c cur) = [String.rev cur +:+ String c s]).
    { rewrite IH by exact Hs. rewrite rev_cons, append_assoc. reflexivity. }
    destruct budget as [[|n]|]; [reflexivity | exact E | exact E].
Qed.

Lemma startswith_app sep rest : PyStr.startswith sep (sep +:+ rest) = true.
Proof.
  induction sep as [|c sep IH]; [reflexivity|].
  change (String c sep +:+ rest) with (String c (sep +:+ rest)).
  cbn [PyStr.startswith]. now rewrite decide_True by reflexivity.
Qed.

Lemma split_from_skip sep a rest budget cur :
  rest <> "" ->
  PyStr.split_from sep (a +:+ rest) budget (String.length a) cur
  = PyStr.split_from sep rest budget 0 cur.
Proof.
  intros Hr. induction a as [|c a IH]; [reflexivity|].
  change (String c a +:+ rest) with (String c (a +:+ rest)).
  cbn [PyStr.split_from String.length]. exact IH.
Qed.

(** [s.split(sep)[1]] of a text that begins with [sep] and holds it only
    there is the rest of the text. *)
Lemma after_marker_prefix c sep rest :
  rest <> "" ->
  PyStr.contains (String c sep) rest = false ->
  AskMe.after_marker (String c sep) (String c sep +:+ rest) = rest.
Proof.
  intros Hr H. unfold AskMe.after_marker, PyStr.split.
  change (String c sep +:+ rest) with (String c (sep +:+ rest)).
  cbn [PyStr.split_from].
  change (String c (sep +:+ rest)) with (String c sep +:+ rest).
  rewrite startswith_app.
  cbn [String.length Nat.sub fmap option_fmap option_map].
  rewrite Nat.sub_0_r, split_from_skip by exact Hr.
  rewrite split_from_absent by exact H. reflexivity.
Qed.

Lemma report_marker_parts body :
  PyStr.contains "PDF_DOWNLOAD:" (report_marker body) = false
  /\ PyStr.contains "REPORT_DOWNLOAD:" (report_marker body) = true
  /\ PyStr.splitn ":" 2
       (PyStr.strip (AskMe.after_marker "REPORT_DOWNLOAD:" (report_marker body)))
     = ["Reports"; "PDF"; Base64.b64encode body].
Proof.
  pose proof (b64encode_plain body) as Hp.
  destruct (no_marker_inside _ Hp) as [H1 H2].
  unfold report_marker.
  set (data := Base64.b64encode body) in *.
  clearbody data.
  split; [|split].
  - exact H1.
  - reflexivity.
  - change ("REPORT_DOWNLOAD:Reports:PDF:" +:+ data)
      with ("REPORT_DOWNLOAD:" +:+ ("Reports:PDF:" +:+ data)).
    rewrite (after_marker_prefix "R" "EPORT_DOWNLOAD:" ("Reports:PDF:" +:+ data)).
    + rewrite (strip_payload "Reports:PDF:" data); [|reflexivity|exact Hp].
      destruct data; reflexivity.
    + destruct data; discriminate.
    + exact H2.
Qed.

Lemma pdf_marker_parts body :
  PyStr.contains "PDF_DOWNLOAD:" (pdf_marker body) = true
  /\ PyStr.splitn ":" 1
       (PyStr.strip (AskMe.after_marker "PDF_DOWNLOAD:" (pdf_marker body)))
     = ["Finance"; Base64.b64encode body].
Proof.
  pose proof (b64encode_plain body) as Hp.
  destruct (no_marker_inside _ Hp) as [H1 H2].
  unfold pdf_marker.
  set (data := Base64.b64encode body) in *. clearbody data.
  split; [reflexivity|].
  change ("PDF_DOWNLOAD:Finance:" +:+ data) with ("PDF_DOWNLOAD:" +:+ ("Finance:" +:+ data)).
  rewrite (after_marker_prefix "P" "DF_DOWNLOAD:" ("Finance:" +:+ data)).
  - rewrite (strip_payload "Finance:" data); [|reflexivity|exact Hp].
    destruct data; reflexivity.
  - destruct data; discriminate.
  - exact H1.
Qed.

Lemma assemble_stores_the_download storage before title body after id stamp rest w :
  (forall ar, In ar before -> AskMe.has_marker ar.2 = false) ->
  Py.answers w = Py.AnsUuid id :: Py.AnsNow stamp :: rest ->
  (exists reply storage',
     Py.run (AskMe.assemble storage (before ++ (title, report_marker body) :: after)) w
     = Some ((reply, storage'), [Py.EvUuid id; Py.EvNow "%Y%m%d_%H%M%S" stamp],
             Py.with_answers w rest)
     /\ AskMe.http_status reply = 200%Z
     /\ AskMe.has_pdf reply = true
     /\ AskMe.download_url reply = Some ("/download_report/" +:+ id)
     /\ AskMe.download_report storage' id
        = (AskMe.SendFile body "application/pdf" ("Analytics_Report_" +:+ stamp +:+ ".pdf"),
           storage')
     /\ (forall k, k <> id -> storage' !! k = storage !! k))
  /\ (exists reply storage',
        Py.run (AskMe.assemble storage (before ++ (title, pdf_marker body) :: after)) w
        = Some ((reply, storage'), [Py.EvUuid id; Py.EvNow "%Y%m%d_%H%M%S" stamp],
                Py.with_answers w rest)
        /\ AskMe.http_status reply = 200%Z
        /\ AskMe.has_pdf reply = true
        /\ AskMe.download_url reply = Some ("/download_pdf/" +:+ id)
        /\ AskMe.download_pdf storage' id
           = (AskMe.SendFile body "application/pdf" ("Finance_Report_" +:+ stamp +:+ ".pdf"),
              storage')
        /\ (forall k, k <> id -> storage' !! k = storage !! k)).
Proof.
  intros Hb Hw. split.
  - destruct (report_marker_parts body) as [H1 [H2 H3]].
    unfold AskMe.assemble, AskMe.format_response.
    rewrite (find_first (fun ar => AskMe.has_marker ar.2) before (title, report_marker body)
               after Hb)
      by (unfold AskMe.has_marker; cbn [snd]; rewrite H2; apply orb_true_r).
    cbn [Py.bind snd]. unfold AskMe.deliver. rewrite H1, H2, H3.
    unfold AskMe.report_ready. cbn [Py.run]. rewrite Hw.
    cbn [Py.run Py.with_answers Py.answers].
    eexists _, _. split; [reflexivity|].
    cbn [AskMe.has_pdf AskMe.download_url AskMe.http_status].
    split; [reflexivity|]. split; [reflexivity|]. split; [reflexivity|].
    unfold AskMe.download_report. rewrite lookup_insert_eq.
    cbn [AskMe.d_type AskMe.d_format AskMe.d_data AskMe.d_timestamp default].
    rewrite b64decode_b64encode. split; [reflexivity|].
    intros k Hk. apply lookup_insert_ne. congruence.
  - destruct (pdf_marker_parts body) as [H1 H2].
    unfold AskMe.assemble, AskMe.format_response.
    rewrite (find_first (fun ar => AskMe.has_marker ar.2) before (title, pdf_marker body)
               after Hb)
      by (unfold AskMe.has_marker; cbn [snd]; rewrite H1; reflexivity).
    cbn [Py.bind snd]. unfold AskMe.deliver. rewrite H1, H2.
    unfold AskMe.pdf_ready. cbn [Py.run]. rewrite Hw.
    cbn [Py.run Py.with_answers Py.answers].
    eexists _, _. split; [reflexivity|].
    cbn [AskMe.has_pdf AskMe.download_url AskMe.http_status].
    split; [reflexivity|]. split; [reflexivity|]. split; [reflexivity|].
    unfold AskMe.download_pdf. rewrite lookup_insert_eq.
    cbn [AskMe.d_type AskMe.d_format AskMe.d_data AskMe.d_timestamp default].
    rewrite b64decode_b64encode. split; [reflexivity|].
    intros k Hk. apply lookup_insert_ne. congruence.
Qed.

Lemma deliver_stores_the_download storage advisor body id stamp rest w :
  Py.answers w = Py.AnsUuid id :: Py.AnsNow stamp :: rest ->
  (exists reply storage',
     Py.run (Rcoe.deliver storage advisor (report_marker body)) w
     = Some ((reply, storage'), [Py.EvUuid id; Py.EvNow "%Y%m%d_%H%M%S" stamp],
             Py.with_answers w rest)
     /\ AskMe.http_status reply = 200%Z
     /\ AskMe.has_pdf reply = true
     /\ AskMe.download_url reply = Some ("/download_report/" +:+ id)
     /\ Rcoe.download_report storage' id
        = (AskMe.SendFile body "application/pdf" ("Analytics_Report_" +:+ stamp +:+ ".pdf"),
           storage')
     /\ (forall k, k <> id -> storage' !! k = storage !! k))
  /\ (exists reply storage',
        Py.run (Rcoe.deliver storage advisor (pdf_marker body)) w
        = Some ((reply, storage'), [Py.EvUuid id; Py.EvNow "%Y%m%d_%H%M%S" stamp],
                Py.with_answers w rest)
        /\ AskMe.http_status reply = 200%Z
        /\ AskMe.has_pdf reply = true
        /\ AskMe.download_url reply = Some ("/download_pdf/" +:+ id)
        /\ Rcoe.download_pdf storage' id
           = (AskMe.SendFile body "application/pdf" ("Finance_Report_" +:+ stamp +:+ ".pdf"),
              storage')
        /\ (forall k, k <> id -> storage' !! k = storage !! k)).
Proof.
  intros Hw. split.
  - destruct (report_marker_parts body) as [H1 [H2 H3]].
    unfold Rcoe.deliver. cbv zeta. rewrite H1, H2, H3.
    cbn [Py.run]. rewrite Hw. cbn [Py.run Py.with_answers Py.answers].
    eexists _, _. split; [reflexivity|].
    cbn [AskMe.has_pdf AskMe.download_url AskMe.http_status].
    split; [reflexivity|]. split; [reflexivity|]. split; [reflexivity|].
    unfold Rcoe.download_report. rewrite lookup_insert_eq.
    cbn [AskMe.d_type AskMe.d_format AskMe.d_data AskMe.d_timestamp default].
    rewrite b64decode_b64encode. split; [reflexivity|].
    intros k Hk. apply lookup_insert_ne. congruence.
  - destruct (pdf_marker_parts body) as [H1 H2].
    unfold Rcoe.deliver. cbv zeta. rewrite H1, H2.
    cbn [Py.run]. rewrite Hw. cbn [Py.run Py.with_answers Py.answers].
    eexists _, _. split; [reflexivity|].
    cbn [AskMe.has_pdf AskMe.download_url AskMe.http_status].
    split; [reflexivity|]. split; [reflexivity|]. split; [reflexivity|].
    unfold Rcoe.download_pdf. rewrite lookup_insert_eq.
    cbn [AskMe.d_type AskMe.d_format AskMe.d_data AskMe.d_timestamp default].
    rewrite b64decode_b64encode. split; [reflexivity|].
    intros k Hk. apply lookup_insert_ne. congruence.
Qed.

(** ** From the answer of an advisor to the download *)

Lemma chat_on_prompt lib cfg storage members prompt :
  Py.assoc "prompt" members = Some (Py.JStr prompt) -> prompt <> "" ->
  AskMe.chat lib cfg storage (Some (Py.JObj members))
  = (let* result := AskMe.process_user_query lib cfg (PyStr.strip prompt) in
     AskMe.assemble storage result).
Proof.
  intros Hp Hne. unfold AskMe.chat. cbv zeta.
  destruct members as [|m members]; [discriminate|].
  cbn [Py.truthy negb]. rewrite Hp.
  apply String.eqb_neq in Hne. rewrite Hne. reflexivity.
Qed.

Lemma rcoe_chat_on_prompt app storage members prompt :
  Py.assoc "prompt" members = Some (Py.JStr prompt) -> prompt <> "" ->
  Rcoe.chat app storage (Some (Py.JObj members))
  = (let* result := Rcoe.route_to_mcp_server app (PyStr.strip prompt) in
     Rcoe.deliver storage (Rcoe.advisor result) (Rcoe.response result)).
Proof.
  intros Hp Hne. unfold Rcoe.chat. cbv zeta.
  destruct members as [|m members]; [discriminate|].
  cbn [Py.truthy negb]. rewrite Hp.
  apply String.eqb_neq in Hne. rewrite Hne. reflexivity.
Qed.

(** X1.  In [AskMeChatBot.py] a file that an advisor hands over under a
    download marker reaches the user unchanged.  When the answers of the
    advisors to a chat request hold, as the first answer with a marker,
    the text [REPORT_DOWNLOAD:Reports:PDF:] followed by the Base64 text of
    a body, [chat] draws an id and a time stamp, answers with status 200
    and the download URL [/download_report/<id>], and [download_report] on
    the store that [chat] left returns exactly that body, as
    [application/pdf] under the name [Analytics_Report_<stamp>.pdf].  The
    same holds for [PDF_DOWNLOAD:Finance:] with [/download_pdf/<id>],
    [download_pdf] and [Finance_Report_<stamp>.pdf].  Every other entry of
    the store is as it was. *)
Theorem downloads_reach_the_user lib cfg storage members prompt
    before title body after id stamp rest w w1 tr :
  Py.assoc "prompt" members = Some (Py.JStr prompt) -> prompt <> "" ->
  (forall ar, In ar before -> AskMe.has_marker ar.2 = false) ->
  Py.answers w1 = Py.AnsUuid id :: Py.AnsNow stamp :: rest ->
  (Py.run (AskMe.process_user_query lib cfg (PyStr.strip prompt)) w
   = Some (before ++ (title, report_marker body) :: after, tr, w1) ->
   exists reply storage',
     Py.run (AskMe.chat lib cfg storage (Some (Py.JObj members))) w
     = Some ((reply, storage'), tr ++ [Py.EvUuid id; Py.EvNow "%Y%m%d_%H%M%S" stamp],
             Py.with_answers w1 rest)
     /\ AskMe.http_status reply = 200%Z
     /\ AskMe.has_pdf reply = true
     /\ AskMe.download_url reply = Some ("/download_report/" +:+ id)
     /\ AskMe.download_report storage' id
        = (AskMe.SendFile body "application/pdf" ("Analytics_Report_" +:+ stamp +:+ ".pdf"),
           storage')
     /\ (forall k, k <> id -> storage' !! k = storage !! k))
  /\ (Py.run (AskMe.process_user_query lib cfg (PyStr.strip prompt)) w
      = Some (before ++ (title, pdf_marker body) :: after, tr, w1) ->
      exists reply storage',
        Py.run (AskMe.chat lib cfg storage (Some (Py.JObj members))) w
        = Some ((reply, storage'), tr ++ [Py.EvUuid id; Py.EvNow "%Y%m%d_%H%M%S" stamp],
                Py.with_answers w1 rest)
        /\ AskMe.http_status reply = 200%Z
        /\ AskMe.has_pdf reply = true
        /\ AskMe.download_url reply = Some ("/download_pdf/" +:+ id)
        /\ AskMe.download_pdf storage' id
           = (AskMe.SendFile body "application/pdf" ("Finance_Report_" +:+ stamp +:+ ".pdf"),
              storage')
        /\ (forall k, k <> id -> storage' !! k = storage !! k)).
Proof.
  intros Hp Hne Hb Hw.
  rewrite (chat_on_prompt lib cfg storage members prompt Hp Hne), run_bind.
  destruct (assemble_stores_the_download storage before title body after id stamp rest w1 Hb Hw)
    as [(r1 & s1 & Hr1 & H1) (r2 & s2 & Hr2 & H2)].
  split; intros Hrun; rewrite Hrun; cbn [then_run].
  - rewrite Hr1. exists r1, s1. split; [reflexivity | exact H1].
  - rewrite Hr2. exists r2, s2. split; [reflexivity | exact H2].
Qed.

Lemma downloads_reach_the_user_witness :
  exists reply storage' tr w',
    Py.run (AskMe.chat lib0 reports_config ∅ (Some export_request)) export_world
    = Some ((reply, storage'), tr, w')
    /\ AskMe.download_url reply = Some "/download_report/7c1d"
    /\ AskMe.download_report storage' "7c1d"
       = (AskMe.SendFile "%PDF-1.4" "application/pdf" "Analytics_Report_20251127_123456.pdf",
          storage').
Proof.
  edestruct (downloads_reach_the_user lib0 reports_config ∅
               [("prompt", Py.JStr "export the analytics dashboard")]
               "export the analytics dashboard" [] AskMe.title_reports "%PDF-1.4" []
               "7c1d" "20251127_123456" [] export_world
               (answering [Py.AnsUuid "7c1d"; Py.AnsNow "20251127_123456"]))
    as [H _].
  - reflexivity.
  - discriminate.
  - intros ar [].
  - reflexivity.
  - destruct H as (reply & storage' & Hrun & _ & _ & Hurl & Hd & _).
    + vm_compute. reflexivity.
    + exists reply, storage'. eexists _, _. split; [exact Hrun|]. split; [exact Hurl | exact Hd].
Defined.

(** X2.  In [RCOEGenAIAgents.py] the same round trip holds for the answer
    of the server that the routing chose: when it is the report marker
    (the finance marker) followed by the Base64 text of a body, [chat]
    draws an id and a time stamp, answers with status 200 and the URL
    [/download_report/<id>] ([/download_pdf/<id>]), and the download route
    on the store that [chat] left returns exactly that body as
    [application/pdf]; every other entry of the store is as it was. *)
Theorem served_downloads_reach_the_user app storage members prompt
    body id stamp rest w routed tr w1 :
  Py.assoc "prompt" members = Some (Py.JStr prompt) -> prompt <> "" ->
  Py.run (Rcoe.route_to_mcp_server app (PyStr.strip prompt)) w = Some (routed, tr, w1) ->
  Py.answers w1 = Py.AnsUuid id :: Py.AnsNow stamp :: rest ->
  (Rcoe.response routed = report_marker body ->
   exists reply storage',
     Py.run (Rcoe.chat app storage (Some (Py.JObj members))) w
     = Some ((reply, storage'), tr ++ [Py.EvUuid id; Py.EvNow "%Y%m%d_%H%M%S" stamp],
             Py.with_answers w1 rest)
     /\ AskMe.http_status reply = 200%Z
     /\ AskMe.has_pdf reply = true
     /\ AskMe.download_url reply = Some ("/download_report/" +:+ id)
     /\ Rcoe.download_report storage' id
        = (AskMe.SendFile body "application/pdf" ("Analytics_Report_" +:+ stamp +:+ ".pdf"),
           storage')
     /\ (forall k, k <> id -> storage' !! k = storage !! k))
  /\ (Rcoe.response routed = pdf_marker body ->
      exists reply storage',
        Py.run (Rcoe.chat app storage (Some (Py.JObj members))) w
        = Some ((reply, storage'), tr ++ [Py.EvUuid id; Py.EvNow "%Y%m%d_%H%M%S" stamp],
                Py.with_answers w1 rest)
        /\ AskMe.http_status reply = 200%Z
        /\ AskMe.has_pdf reply = true
        /\ AskMe.download_url reply = Some ("/download_pdf/" +:+ id)
        /\ Rcoe.download_pdf storage' id
           = (AskMe.SendFile body "application/pdf" ("Finance_Report_" +:+ stamp +:+ ".pdf"),
              storage')
        /\ (forall k, k <> id -> storage' !! k = storage !! k)).
Proof.
  intros Hp Hne Hrun Hw.
  rewrite (rcoe_chat_on_prompt app storage members prompt Hp Hne), run_bind, Hrun.
  cbn [then_run].
  destruct (deliver_stores_the_download storage (Rcoe.advisor routed) body id stamp rest w1 Hw)
    as [(r1 & s1 & Hr1 & H1) (r2 & s2 & Hr2 & H2)].
  split; intros ->.
  - rewrite Hr1. exists r1, s1. split; [reflexivity | exact H1].
  - rewrite Hr2. exists r2, s2. split; [reflexivity | exact H2].
Qed.

Lemma served_downloads_reach_the_user_witness :
  exists reply storage' tr w',
    Py.run (Rcoe.chat rcoe_app ∅ (Some export_request)) rcoe_export_world
    = Some ((reply, storage'), tr, w')
    /\ AskMe.download_url reply = Some "/download_report/7c1d"
    /\ Rcoe.download_report storage' "7c1d"
       = (AskMe.SendFile "%PDF-1.4" "application/pdf" "Analytics_Report_20251127_123456.pdf",
          storage').
Proof.
  edestruct (served_downloads_reach_the_user rcoe_app ∅
               [("prompt", Py.JStr "export the analytics dashboard")]
               "export the analytics dashboard" "%PDF-1.4"
               "7c1d" "20251127_123456" [] rcoe_export_world)
    as [H _].
  - reflexivity.
  - discriminate.
  - vm_compute. reflexivity.
  - reflexivity.
  - destruct H as (reply & storage' & Hrun & _ & _ & Hurl & Hd & _); [reflexivity|].
    exists reply, storage'. eexists _, _. split; [exact Hrun|]. split; [exact Hurl | exact Hd].
Defined.

(** ** The order list *)

Lemma insert_desc_stable {A : Type} (key : A -> AskMe.datetime) x l s t :
  AskMe.insert_desc key x l = Some s ->
  updated_at key t s = updated_at key t (x :: l).
Proof.
  revert s. induction l as [|y l IH]; intros s H; cbn in H.
  - injection H as <-. reflexivity.
  - destruct (AskMe.dt_lt (key x) (key y)) as [r|] eqn:E; [|discriminate].
    apply dt_lt_instant in E. destruct r.
    + destruct (AskMe.insert_desc key x l) as [s0|] eqn:Hi; [|discriminate].
      injection H as <-. specialize (IH s0 eq_refl).
      unfold updated_at in *. cbn [List.filter] in *. rewrite IH.
      symmetry in E. apply Z.ltb_lt in E.
      destruct (instant (key x) =? t)%Z eqn:Ex, (instant (key y) =? t)%Z eqn:Ey;
        try reflexivity.
      apply Z.eqb_eq in Ex, Ey. lia.
    + injection H as <-. reflexivity.
Qed.

Lemma sorted_desc_stable {A : Type} (key : A -> AskMe.datetime) l s t :
  AskMe.sorted_desc key l = Some s -> updated_at key t s = updated_at key t l.
Proof.
  revert s. induction l as [|x l IH]; intros s H; cbn in H.
  - injection H as <-. reflexivity.
  - destruct (AskMe.sorted_desc key l) as [s0|] eqn:Hs; [|discriminate].
    rewrite (insert_desc_stable key x s0 s t H).
    unfold updated_at in *. cbn [List.filter]. rewrite (IH s0 eq_refl). reflexivity.
Qed.

(** X3.  When the [LastUpdateDate] values of the listed orders are all of
    one kind (all with an offset, or all without one), the order list of
    [get_orders_advice] and of the Orders server is made of a permutation
    of the orders of the response in descending order of that date, in
    which the orders of one instant keep the order of the response.  At
    most ten orders are shown; the heading says [showing 10 of <total>]
    also when fewer than ten exist, and a note on the first ten follows
    only when there are more than ten. *)
Theorem orders_are_listed_newest_first lib r data x xs objs :
  Py.json_body r = inr (Py.JObj data) ->
  Py.jget "items" data = Some (Py.JArr (x :: xs)) ->
  AskMe.as_objects (x :: xs) = Some objs ->
  (forall a b, In a objs -> In b objs ->
     is_aware (AskMe.last_update_key lib a) = is_aware (AskMe.last_update_key lib b)) ->
  exists sorted,
    Permutation sorted objs
    /\ descending (AskMe.last_update_key lib) sorted
    /\ (forall t, updated_at (AskMe.last_update_key lib) t sorted
                  = updated_at (AskMe.last_update_key lib) t objs)
    /\ AskMe.orders_list_text lib r
       = (if (10 <? length objs)%nat
          then order_list_of lib (take 10 sorted) (length objs) +:+ PyStr.nl +:+ PyStr.nl
               +:+ icon_bulb +:+ " Showing first 10 of " +:+ pretty (length objs)
               +:+ " orders. Use specific Order ID for details."
          else order_list_of lib sorted (length objs))
    /\ Rcoe.orders_list_text lib r
       = (if (10 <? length objs)%nat
          then order_list_of lib (take 10 sorted) (length objs) +:+ PyStr.nl +:+ PyStr.nl
               +:+ icon_bulb +:+ " Showing first 10 of " +:+ pretty (length objs)
               +:+ " orders."
          else order_list_of lib sorted (length objs)).
Proof.
  intros Hb Hi Ho Hk.
  destruct (sorted_desc_total (AskMe.last_update_key lib) objs Hk) as [s Hs].
  exists s.
  pose proof (sorted_desc_perm _ _ _ Hs) as Hp.
  split; [exact Hp|]. split; [exact (sorted_desc_descending _ _ _ Hs)|].
  split; [intros t; exact (sorted_desc_stable _ _ _ t Hs)|].
  assert (Hlen : length s = length objs) by (apply Permutation_length, Hp).
  unfold AskMe.orders_list_text, Rcoe.orders_list_text, order_list_of.
  rewrite Hb, Hi. cbv beta iota. rewrite Ho, Hs. cbv beta iota zeta. rewrite Hlen.
  destruct (10 <? length objs)%nat eqn:E.
  - split; reflexivity.
  - rewrite take_ge by (apply Nat.ltb_ge in E; lia). split; reflexivity.
Qed.

Lemma orders_are_listed_newest_first_witness :
  exists sorted,
    Permutation sorted local_orders
    /\ descending (AskMe.last_update_key iso_lib) sorted
    /\ AskMe.orders_list_text iso_lib (orders_response orders_local)
       = order_list_of iso_lib sorted 4.
Proof.
  edestruct (orders_are_listed_newest_first iso_lib (orders_response orders_local)
               [("items", Py.JArr orders_local)]
               (order "A3" "2025-03-01T10:00:00")
               [order "A1" "2025-01-01T10:00:00"; order "A2" "2025-02-01T10:00:00";
                order "A0" "not-a-date"] local_orders)
    as [sorted (Hp & Hd & _ & Ha & _)].
  - reflexivity.
  - reflexivity.
  - reflexivity.
  - intros a b Ha Hb. cbn in Ha, Hb.
    decompose [or] Ha; decompose [or] Hb; subst; try contradiction; reflexivity.
  - exists sorted. split; [exact Hp|]. split; [exact Hd | exact Ha].
Defined.

(** ** A chat request without remote services *)

Lemma offline_bind {A B : Type} (p : Py.Prog A) (f : A -> Py.Prog B) :
  offline p -> (forall a, offline (f a)) -> offline (Py.bind p f).
Proof.
  induction p as [a|rq k IH|rq k IH|secs k IH|k IH|fmt k IH|key k IH|key b k IH|key ttl k IH];
    intros H Hf; cbn in *; eauto; contradiction.
Qed.

Section Quiet.
Context (lib : AskMe.Library) (cfg : AskMe.Config).
Hypothesis Hmock : AskMe.USE_MOCK_RESPONSES cfg = true.
Hypothesis Hclient : AskMe.genai_client cfg = false.

Lemma call_agent_api_mock agent_type query :
  AskMe.call_agent_api lib cfg agent_type query = Py.Ret None.
Proof. unfold AskMe.call_agent_api. rewrite Hmock. reflexivity. Qed.

Lemma adapters_offline query :
  offline (AskMe.get_general_advice lib cfg query)
  /\ offline (AskMe.get_finance_advice lib cfg query)
  /\ offline (AskMe.get_hr_advice lib cfg query)
  /\ offline (AskMe.get_orders_advice lib cfg query)
  /\ offline (AskMe.get_reports_advice lib cfg query).
Proof.
  unfold AskMe.get_general_advice, AskMe.get_finance_advice, AskMe.get_hr_advice,
    AskMe.get_orders_advice, AskMe.get_reports_advice.
  rewrite !call_agent_api_mock, Hmock, Hclient.
  repeat split; try exact I.
  destruct (PyStr.contains_any _ _); exact I.
Qed.

Lemma answer_of_offline title adapter prompt :
  (forall q, offline (adapter q)) -> offline (AskMe.answer_of title adapter prompt).
Proof. intros H. apply offline_bind; [apply H | intros; exact I]. Qed.

Ltac adapter_offline :=
  apply answer_of_offline; intros q;
  destruct (adapters_offline q) as (? & ? & ? & ? & ?); assumption.

Lemma keyword_routing_offline prompt : offline (AskMe.keyword_routing lib cfg prompt).
Proof.
  unfold AskMe.keyword_routing.
  destruct (PyStr.contains_any AskMe.general_keywords _); [adapter_offline|].
  repeat (apply offline_bind;
          [unfold AskMe.when_matched; destruct (PyStr.contains_any _ _);
           [adapter_offline | exact I] | intros ?]).
  destruct (_ ++ _); [|exact I].
  unfold AskMe.infer_advisor. cbv zeta.
  repeat match goal with |- offline (if ?b then _ else _) => destruct b end;
    adapter_offline.
Qed.

Lemma chat_offline storage data : offline (AskMe.chat lib cfg storage data).
Proof.
  unfold AskMe.chat. cbv zeta.
  destruct data as [j|]; [|exact I].
  destruct (negb (Py.truthy j)); [exact I|].
  destruct j as [| | | | |members]; try exact I.
  destruct (Py.assoc "prompt" members) as [[| | |prompt| |]|]; try exact I.
  destruct (String.eqb prompt ""); [exact I|].
  apply offline_bind.
  - unfold AskMe.process_user_query. rewrite Hclient. apply keyword_routing_offline.
  - intros result. unfold AskMe.assemble. apply offline_bind.
    + unfold AskMe.format_response. destruct (find _ _); [exact I|]. cbv zeta.
      intros t0. exact I.
    + intros formatted. unfold AskMe.deliver, AskMe.pdf_ready, AskMe.report_ready.
      repeat match goal with
             | |- offline (if ?b then _ else _) => destruct b
             | |- offline (match ?l with _ => _ end) => destruct l
             end; cbn; auto.
Qed.

End Quiet.

Lemma start_up_settings to_int config client cfg :
  AskMe.start_up to_int config client = Some cfg ->
  AskMe.USE_MOCK_RESPONSES cfg
  = String.eqb (PyStr.lower (default "true" (config !! "use_mock_responses"))) "true"
  /\ AskMe.genai_client cfg = client
  /\ AskMe.GENAI_INTENT_MODE cfg
     = PyStr.lower (PyStr.strip (default "auto" (config !! "genai_intent_mode")))
  /\ AskMe.CONFIG cfg = config.
Proof.
  unfold AskMe.start_up. cbv zeta.
  destruct (to_int (default "30" _)); cbn [mbind option_bind]; [|discriminate].
  destruct (to_int (default "3" _)); cbn [mbind option_bind]; [|discriminate].
  destruct (to_int (default "1" _)); cbn [mbind option_bind]; [|discriminate].
  intros H. injection H as <-. repeat split.
Qed.

Lemma offline_sound {A : Type} (p : Py.Prog A) w a tr w' :
  offline p -> Py.run p w = Some (a, tr, w') -> Forall local_event tr.
Proof.
  revert w a tr w'.
  induction p as [x|rq k IH|rq k IH|secs k IH|k IH|fmt k IH|key k IH|key b k IH|key ttl k IH];
    intros w a tr w' H Hr; cbn in H, Hr; try contradiction.
  - injection Hr as <- <- <-. constructor.
  - destruct (Py.run k w) as [[[a0 tr0] w0]|] eqn:E; [|discriminate].
    injection Hr as <- <- <-. constructor; [exact I | exact (IH _ _ _ _ H E)].
  - destruct (Py.answers w) as [|[o|o|u|t] rest]; try discriminate.
    destruct (Py.run (k u) _) as [[[a0 tr0] w0]|] eqn:E; [|discriminate].
    injection Hr as <- <- <-. constructor; [exact I | exact (IH u _ _ _ _ (H u) E)].
  - destruct (Py.answers w) as [|[o|o|u|t0] rest]; try discriminate.
    destruct (Py.run (k t0) _) as [[[a0 tr0] w0]|] eqn:E; [|discriminate].
    injection Hr as <- <- <-. constructor; [exact I | exact (IH t0 _ _ _ _ (H t0) E)].
Qed.

(** X4.  When [AskMeChatBot.py] starts without a client of the
    generative service and [use_mock_responses] is absent from the
    configuration or is [true] in any letter case, the chat route answers
    every request without a call to a remote service: a run only sleeps,
    draws an id or reads the clock. *)
Theorem chat_without_services_is_offline lib to_int config cfg storage data :
  AskMe.start_up to_int config false = Some cfg ->
  PyStr.lower (default "true" (config !! "use_mock_responses")) = "true" ->
  offline (AskMe.chat lib cfg storage data)
  /\ forall w r tr w',
       Py.run (AskMe.chat lib cfg storage data) w = Some (r, tr, w') ->
       Forall local_event tr.
Proof.
  intros Hs Hm. destruct (start_up_settings _ _ _ _ Hs) as (Hmock & Hclient & _ & _).
  rewrite Hm in Hmock.
  pose proof (chat_offline lib cfg Hmock Hclient storage data) as Hoff.
  split; [exact Hoff|]. intros w r tr w'. apply offline_sound, Hoff.
Qed.

Lemma chat_without_services_is_offline_witness :
  offline (AskMe.chat lib0 (AskMe.mkConfig true false "auto" ∅) ∅
             (Some (Py.JObj [("prompt", Py.JStr four_topics)]))).
Proof.
  apply (chat_without_services_is_offline lib0 (fun _ => Some 0%Z) (AskMe.load_config None)).
  - reflexivity.
  - reflexivity.
Defined.

(** ** The requests of a chat request *)

Lemma costs_weaken {A : Type} (p : Py.Prog A) n m (Q R : A -> Prop) :
  costs p n Q -> (n <= m)%nat -> (forall a, Q a -> R a) -> costs p m R.
Proof.
  revert n m. induction p as [a|rq k IH|rq k IH|secs k IH|k IH|fmt k IH|key k IH|key b k IH|key ttl k IH];
    intros n m H Hle HQ; cbn in *; eauto.
  destruct n as [|n]; [contradiction|]. destruct m as [|m]; [lia|].
  intros o. apply (IH o n m); [apply H | lia | exact HQ].
Qed.

Lemma costs_bind {A B : Type} (p : Py.Prog A) (f : A -> Py.Prog B) n m Q R :
  costs p n Q -> (forall a, Q a -> costs (f a) m R) -> costs (Py.bind p f) (n + m) R.
Proof.
  revert n. induction p as [a|rq k IH|rq k IH|secs k IH|k IH|fmt k IH|key k IH|key b k IH|key ttl k IH];
    intros n H Hf; cbn in *; eauto.
  - apply (costs_weaken (f a) m (n + m) R R); [apply Hf, H | lia | auto].
  - destruct n as [|n]; [contradiction|]. cbn. intros o. apply IH; [apply H | exact Hf].
Qed.

Lemma http_calls_cons e tr :
  http_calls (e :: tr)
  = ((match e with Py.EvHttp _ _ => 1 | _ => 0 end) + http_calls tr)%nat.
Proof. unfold http_calls. cbn. destruct e; reflexivity. Qed.

Lemma costs_sound {A : Type} (p : Py.Prog A) n Q w a tr w' :
  costs p n Q -> Py.run p w = Some (a, tr, w') -> (http_calls tr <= n)%nat /\ Q a.
Proof.
  revert n w a tr w'.
  induction p as [x|rq k IH|rq k IH|secs k IH|k IH|fmt k IH|key k IH|key b k IH|key ttl k IH];
    intros n w a tr w' H Hr; cbn in Hr.
  - injection Hr as <- <- <-. split; [cbn; lia | exact H].
  - destruct (Py.answers w) as [|[o|o|u|t] rest]; try discriminate.
    destruct (Py.run (k o) _) as [[[a0 tr0] w0]|] eqn:E; [|discriminate].
    injection Hr as <- <- <-. destruct n as [|n]; [contradiction|].
    destruct (IH o n _ _ _ _ (H o) E) as [Hn HQ].
    rewrite http_calls_cons. split; [lia | exact HQ].
  - destruct (Py.answers w) as [|[o|o|u|t] rest]; try discriminate.
    destruct (Py.run (k o) _) as [[[a0 tr0] w0]|] eqn:E; [|discriminate].
    injection Hr as <- <- <-. destruct (IH o n _ _ _ _ (H o) E) as [Hn HQ].
    rewrite http_calls_cons. split; [lia | exact HQ].
  - destruct (Py.run k _) as [[[a0 tr0] w0]|] eqn:E; [|discriminate].
    injection Hr as <- <- <-. destruct (IH n _ _ _ _ H E) as [Hn HQ].
    rewrite http_calls_cons. split; [lia | exact HQ].
  - destruct (Py.answers w) as [|[o|o|u|t] rest]; try discriminate.
    destruct (Py.run (k u) _) as [[[a0 tr0] w0]|] eqn:E; [|discriminate].
    injection Hr as <- <- <-. destruct (IH u n _ _ _ _ (H u) E) as [Hn HQ].
    rewrite http_calls_cons. split; [lia | exact HQ].
  - destruct (Py.answers w) as [|[o|o|u|t0] rest]; try discriminate.
    destruct (Py.run (k t0) _) as [[[a0 tr0] w0]|] eqn:E; [|discriminate].
    injection Hr as <- <- <-. destruct (IH t0 n _ _ _ _ (H t0) E) as [Hn HQ].
    rewrite http_calls_cons. split; [lia | exact HQ].
  - destruct (Py.run (k _) _) as [[[a0 tr0] w0]|] eqn:E; [|discriminate].
    injection Hr as <- <- <-. destruct (IH _ n _ _ _ _ (H _) E) as [Hn HQ].
    rewrite http_calls_cons. split; [lia | exact HQ].
  - destruct (Py.faulty w key).
    + destruct (Py.run (k false) _) as [[[a0 tr0] w0]|] eqn:E; [|discriminate].
      injection Hr as <- <- <-. destruct (IH _ n _ _ _ _ (H _) E) as [Hn HQ].
      rewrite http_calls_cons. split; [lia | exact HQ].
    + destruct (Py.run (k true) _) as [[[a0 tr0] w0]|] eqn:E; [|discriminate].
      injection Hr as <- <- <-. destruct (IH _ n _ _ _ _ (H _) E) as [Hn HQ].
      rewrite http_calls_cons. split; [lia | exact HQ].
  - destruct (Py.run (k _) _) as [[[a0 tr0] w0]|] eqn:E; [|discriminate].
    injection Hr as <- <- <-. destruct (IH _ n _ _ _ _ (H _) E) as [Hn HQ].
    rewrite http_calls_cons. split; [lia | exact HQ].
Qed.

Ltac cost_step :=
  match goal with
  | |- costs (Py.Ret _) _ _ => exact I
  | |- costs (match ?x with _ => _ end) _ _ => destruct x
  | |- costs (if ?b then _ else _) _ _ => destruct b
  | |- costs (Py.Http _ _) _ _ => cbn [costs]; intros ?
  | |- costs (Py.Chat _ _) _ _ => cbn [costs]; intros ?
  | |- costs (Py.Sleep _ _) _ _ => cbn [costs]
  | |- costs (Py.bind _ _) _ _ => cbn [Py.bind]
  | |- costs _ _ _ => progress cbv beta iota zeta
  end.

Lemma call_agent_api_costs lib cfg agent_type query :
  costs (AskMe.call_agent_api lib cfg agent_type query) 1 any_result.
Proof. unfold AskMe.call_agent_api, any_result. repeat cost_step. Qed.

Lemma get_finance_advice_costs lib cfg query :
  costs (AskMe.get_finance_advice lib cfg query) 1 any_result.
Proof. unfold AskMe.get_finance_advice, any_result. repeat cost_step. Qed.

Lemma get_hr_advice_costs lib cfg query :
  costs (AskMe.get_hr_advice lib cfg query) 1 any_result.
Proof.
  unfold AskMe.get_hr_advice.
  apply (costs_bind _ _ 1 0 any_result any_result); [apply call_agent_api_costs|].
  intros a _. unfold any_result. repeat cost_step.
Qed.

Lemma get_general_advice_costs lib cfg query :
  costs (AskMe.get_general_advice lib cfg query) 1 any_result.
Proof.
  unfold AskMe.get_general_advice. cbv zeta.
  apply (costs_bind _ _ 1 0 any_result any_result).
  - destruct (PyStr.contains_any _ _); [apply call_agent_api_costs | exact I].
  - intros a _. unfold any_result. repeat cost_step.
Qed.

Lemma get_orders_advice_costs lib cfg query :
  costs (AskMe.get_orders_advice lib cfg query) 1 any_result.
Proof. unfold AskMe.get_orders_advice, any_result. repeat cost_step. Qed.

Lemma download_attempts_costs n rq last :
  costs (AskMe.download_attempts n rq last) n any_result.
Proof.
  revert last. induction n as [|n IH]; intros last; [exact I|].
  cbn [AskMe.download_attempts costs]. intros o.
  destruct o as [resp| |msg]; [| |exact I].
  - destruct (Py.status_code resp =? 200)%Z; [exact I|].
    destruct (0 <? n)%nat; cbn [costs]; apply IH.
  - destruct (0 <? n)%nat; cbn [costs]; apply IH.
Qed.

Lemma get_reports_advice_costs lib cfg query :
  costs (AskMe.get_reports_advice lib cfg query) 4 any_result.
Proof.
  unfold AskMe.get_reports_advice.
  repeat (cost_step; try exact I).
  unfold AskMe.download_report_after_export. cbn [costs].
  apply (costs_bind _ _ 3 0 any_result any_result); [apply download_attempts_costs|].
  intros a _. unfold any_result. repeat cost_step.
Qed.

Lemma parse_intent_valid s i :
  AskMe.parse_intent s = Some i -> In i AskMe.valid_intents.
Proof.
  unfold AskMe.parse_intent. cbv zeta.
  destruct (AskMe.in_list _ AskMe.valid_intents) eqn:E; [|discriminate].
  intros [= <-]. unfold AskMe.in_list in E. apply existsb_exists in E as [x [Hx He]].
  apply String.eqb_eq in He. now subst.
Qed.

Lemma answer_of_costs title adapter prompt n :
  (forall q, costs (adapter q) n any_result) ->
  costs (AskMe.answer_of title adapter prompt) n (titled title).
Proof.
  intros H. unfold AskMe.answer_of.
  replace n with (n + 0)%nat by lia.
  apply (costs_bind _ _ n 0 any_result (titled title)); [apply H|].
  intros a _. cbn. eexists. reflexivity.
Qed.

Ltac sublist_step :=
  first [apply sublist_nil | apply sublist_skip | apply sublist_cons].

Lemma titled_general l : titled AskMe.title_general l -> routing_result l.
Proof. intros [text ->]. split; [discriminate | left; reflexivity]. Qed.

Lemma titled_combined title l :
  In title combined_titles -> titled title l -> routing_result l.
Proof.
  intros Hin [text ->]. split; [discriminate|]. right. cbn in Hin.
  decompose [or] Hin; subst; try contradiction; cbn; repeat sublist_step.
Qed.

Lemma general_costs lib cfg prompt n :
  (1 <= n)%nat ->
  costs (AskMe.answer_of AskMe.title_general (AskMe.get_general_advice lib cfg) prompt) n
    routing_result.
Proof.
  intros Hn. apply (costs_weaken _ 1 n (titled AskMe.title_general) routing_result);
    [|exact Hn|apply titled_general].
  apply answer_of_costs, get_general_advice_costs.
Qed.

Lemma combined_costs title adapter prompt k n :
  In title combined_titles -> (forall q, costs (adapter q) k any_result) -> (k <= n)%nat ->
  costs (AskMe.answer_of title adapter prompt) n routing_result.
Proof.
  intros Hin H Hn. apply (costs_weaken _ k n (titled title) routing_result);
    [|exact Hn|intros a; exact (titled_combined title a Hin)].
  apply answer_of_costs, H.
Qed.

Ltac one_advisor lib cfg :=
  first
    [ apply general_costs; lia
    | apply (combined_costs AskMe.title_finance _ _ 1);
      [cbn; tauto | apply (get_finance_advice_costs lib cfg) | lia]
    | apply (combined_costs AskMe.title_hr _ _ 1);
      [cbn; tauto | apply (get_hr_advice_costs lib cfg) | lia]
    | apply (combined_costs AskMe.title_orders _ _ 1);
      [cbn; tauto | apply (get_orders_advice_costs lib cfg) | lia]
    | apply (combined_costs AskMe.title_reports _ _ 4);
      [cbn; tauto | apply (get_reports_advice_costs lib cfg) | lia] ].

Lemma route_intent_costs lib cfg intent prompt :
  In intent AskMe.valid_intents ->
  costs (AskMe.route_intent lib cfg intent prompt) 4 routing_result.
Proof.
  intros H. cbn in H. decompose [or] H; subst; try contradiction;
    unfold AskMe.route_intent; cbn [String.eqb Ascii.eqb Bool.eqb]; one_advisor lib cfg.
Qed.

Lemma infer_advisor_costs lib cfg prompt :
  costs (AskMe.infer_advisor lib cfg prompt) 4 routing_result.
Proof.
  unfold AskMe.infer_advisor. cbv zeta.
  repeat match goal with |- costs (if ?b then _ else _) _ _ => destruct b end;
    one_advisor lib cfg.
Qed.

(** The advisor [title] answers within [n] requests of the [N] that are
    left; the routing goes on with its answer. *)
Ltac spend n title H :=
  match goal with
  | |- costs (Py.bind _ _) ?N _ =>
      apply (costs_weaken _ (n + (N - n)) N routing_result routing_result);
      [|cbn; lia|easy];
      apply (costs_bind _ _ n (N - n) (titled title) routing_result);
      [apply answer_of_costs, H | intros ? [? ->]; cbn [Py.bind app Nat.sub]]
  end.

Lemma keyword_routing_costs lib cfg prompt :
  costs (AskMe.keyword_routing lib cfg prompt) 7 routing_result.
Proof.
  unfold AskMe.keyword_routing.
  destruct (PyStr.contains_any AskMe.general_keywords (PyStr.lower prompt));
    [one_advisor lib cfg|].
  unfold AskMe.when_matched.
  destruct (PyStr.contains_any AskMe.finance_keywords (PyStr.lower prompt));
    [spend 1%nat AskMe.title_finance (get_finance_advice_costs lib cfg) | cbn [Py.bind app]];
  (destruct (PyStr.contains_any AskMe.hr_keywords (PyStr.lower prompt));
    [spend 1%nat AskMe.title_hr (get_hr_advice_costs lib cfg) | cbn [Py.bind app]]);
  (destruct (PyStr.contains_any AskMe.orders_keywords (PyStr.lower prompt));
    [spend 1%nat AskMe.title_orders (get_orders_advice_costs lib cfg) | cbn [Py.bind app]]);
  (destruct (PyStr.contains_any AskMe.reports_keywords (PyStr.lower prompt));
    [spend 4%nat AskMe.title_reports (get_reports_advice_costs lib cfg) | cbn [Py.bind app]]);
  try (split; [discriminate | right; cbn; repeat sublist_step]).
  apply (costs_weaken _ 4 7 routing_result routing_result);
    [apply infer_advisor_costs | lia | easy].
Qed.

Lemma process_user_query_costs lib cfg prompt :
  costs (AskMe.process_user_query lib cfg prompt) 7 routing_result.
Proof.
  unfold AskMe.process_user_query.
  destruct (_ && _); [|apply keyword_routing_costs].
  unfold AskMe.detect_intent_with_genai.
  destruct (AskMe.genai_client cfg); cbn [Py.bind costs].
  - intros [s| |msg]; cbn [Py.bind]; try apply keyword_routing_costs.
    destruct (AskMe.parse_intent s) as [i|] eqn:E; [|apply keyword_routing_costs].
    apply (costs_weaken _ 4 7 routing_result routing_result);
      [apply route_intent_costs, (parse_intent_valid s i E) | lia | easy].
  - apply keyword_routing_costs.
Qed.

Lemma deliver_costs storage formatted_response :
  costs (AskMe.deliver storage formatted_response) 0 (store_step storage).
Proof.
  unfold AskMe.deliver.
  destruct (PyStr.contains "PDF_DOWNLOAD:" formatted_response).
  - assert (H : forall a d, costs (AskMe.pdf_ready storage a d) 0 (store_step storage)).
    { intros a d. unfold AskMe.pdf_ready. cbn [costs]. intros id0 ts0. right. exists "/download_pdf/", id0. eexists.
      cbn. repeat split. }
    destruct (PyStr.splitn _ _ _) as [|? [|? [|? ?]]]; apply H.
  - destruct (PyStr.contains "REPORT_DOWNLOAD:" formatted_response).
    + destruct (PyStr.splitn _ _ _) as [|? [|? [|? [|? ?]]]];
        try solve [left; cbn; repeat split].
      unfold AskMe.report_ready. cbn [costs]. intros id0 ts0. right. exists "/download_report/", id0. eexists. cbn. repeat split.
    + left. cbn. repeat split.
Qed.

Lemma format_response_costs advisors : costs (AskMe.format_response advisors) 0 any_result.
Proof.
  unfold AskMe.format_response. destruct (find _ advisors); [exact I|].
  cbv zeta. intros t0. exact I.
Qed.

Lemma chat_costs lib cfg storage data :
  costs (AskMe.chat lib cfg storage data) 7 (store_step storage).
Proof.
  assert (Hplain : forall st txt, store_step storage (AskMe.plain_reply st txt, storage)).
  { intros. left. repeat split. }
  unfold AskMe.chat. cbv zeta.
  destruct data as [j|]; [|apply Hplain].
  destruct (negb (Py.truthy j)); [apply Hplain|].
  destruct j as [| | | | |members]; try apply Hplain.
  destruct (Py.assoc "prompt" members) as [[| | |prompt| |]|]; try apply Hplain.
  destruct (String.eqb prompt ""); [apply Hplain|].
  apply (costs_bind _ _ 7 0 routing_result (store_step storage));
    [apply process_user_query_costs|].
  intros result _. unfold AskMe.assemble.
  apply (costs_bind _ _ 0 0 any_result (store_step storage)); [apply format_response_costs|].
  intros formatted _. apply deliver_costs.
Qed.

(** X5.  Whatever the services answer, a chat request of
    [AskMeChatBot.py] makes at most 7 HTTP requests (one each for Finance,
    HR and Orders, four for Reports), and it changes the download store by
    at most one entry: either the store is as it was and the reply offers
    no download, or the reply has status 200 and its download URL names
    the one entry that was put, under the route of the entry's type. *)
Theorem chat_requests_are_bounded lib cfg storage data w reply storage' tr w' :
  Py.run (AskMe.chat lib cfg storage data) w = Some ((reply, storage'), tr, w') ->
  (http_calls tr <= 7)%nat /\ store_step storage (reply, storage').
Proof. intros H. exact (costs_sound _ 7 _ _ _ _ _ (chat_costs lib cfg storage data) H). Qed.

Lemma chat_requests_are_bounded_witness :
  exists reply tr w',
    Py.run (AskMe.chat lib0 all_services ∅ (Some (Py.JObj [("prompt", Py.JStr four_topics)])))
      busy_world = Some ((reply, ∅), tr, w')
    /\ http_calls tr = 7%nat
    /\ store_step ∅ (reply, ∅).
Proof.
  eexists _, _, _. split; [vm_compute; reflexivity|]. split; [vm_compute; reflexivity|].
  eapply (chat_requests_are_bounded lib0 all_services ∅
            (Some (Py.JObj [("prompt", Py.JStr four_topics)])) busy_world).
  vm_compute. reflexivity.
Defined.

(** X6.  [process_user_query] always returns at least one answer: the
    General Agent alone, or answers among Finance, HR, Orders and Reports,
    each advisor at most once and in this order.  It makes at most 7 HTTP
    requests. *)
Theorem advisors_that_answer lib cfg prompt w advisors tr w' :
  Py.run (AskMe.process_user_query lib cfg prompt) w = Some (advisors, tr, w') ->
  advisors <> []
  /\ (fst <$> advisors = [AskMe.title_general]
      \/ sublist (fst <$> advisors)
           [AskMe.title_finance; AskMe.title_hr; AskMe.title_orders; AskMe.title_reports])
  /\ (http_calls tr <= 7)%nat.
Proof.
  intros H.
  destruct (costs_sound _ 7 _ _ _ _ _ (process_user_query_costs lib cfg prompt) H)
    as [Hn [Hne Ht]].
  split; [exact Hne|]. split; [exact Ht | exact Hn].
Qed.

Lemma advisors_that_answer_witness :
  exists advisors tr w',
    Py.run (AskMe.process_user_query lib0 all_services four_topics) busy_world
    = Some (advisors, tr, w')
    /\ fst <$> advisors
       = [AskMe.title_finance; AskMe.title_hr; AskMe.title_orders; AskMe.title_reports]
    /\ (http_calls tr <= 7)%nat.
Proof.
  eexists _, _, _. split; [vm_compute; reflexivity|]. split; [vm_compute; reflexivity|].
  eapply (advisors_that_answer lib0 all_services four_topics busy_world).
  vm_compute. reflexivity.
Defined.

(** ** The configuration file *)

Lemma startswith_char c s :
  PyStr.startswith (String c "") s
  = match s with
    | String x _ => Ascii.eqb x c
    | EmptyString => false
    end.
Proof.
  destruct s as [|x s]; [reflexivity|]. cbn [PyStr.startswith].
  destruct (decide (c = x)) as [->|Hne].
  - now rewrite Ascii.eqb_refl.
  - symmetry. apply Ascii.eqb_neq. congruence.
Qed.

Lemma contains_char c s :
  PyStr.contains (String c "") s = negb (all_chars (fun x => negb (Ascii.eqb x c)) s).
Proof.
  induction s as [|x s IH]; [reflexivity|].
  cbn [PyStr.contains all_chars]. rewrite startswith_char, IH.
  destruct (Ascii.eqb x c); reflexivity.
Qed.

Lemma no_eq_sign s : PyStr.contains "=" s = false <-> all_chars not_eq_sign s = true.
Proof.
  rewrite contains_char. unfold not_eq_sign.
  destruct (all_chars _ s); cbn; split; congruence.
Qed.

(** [s.split('=', 1)] cuts at the first [=]. *)
Lemma split_from_eq_sign s cur :
  PyStr.contains "=" s = true ->
  exists k v, PyStr.split_from "=" s (Some 1%nat) 0 cur = [String.rev cur +:+ k; v]
              /\ s = k +:+ "=" +:+ v /\ PyStr.contains "=" k = false.
Proof.
  revert cur. induction s as [|c s IH]; intros cur H; [discriminate H|].
  cbn [PyStr.split_from]. cbn [PyStr.contains] in H.
  destruct (PyStr.startswith "=" (String c s)) eqn:E.
  - rewrite startswith_char in E. apply Ascii.eqb_eq in E. subst c.
    exists "", s. rewrite append_nil_r. split; [|split; reflexivity].
    cbn. destruct s; reflexivity.
  - cbn [orb] in H. destruct (IH (String c cur) H) as [k [v [Hs [-> Hk]]]].
    exists (String c k), v. rewrite Hs, rev_cons, append_assoc.
    split; [reflexivity|]. split; [reflexivity|].
    cbn [PyStr.contains]. rewrite Hk, orb_false_r.
    rewrite startswith_char in *. exact E.
Qed.

Lemma splitn_eq_sign s :
  PyStr.contains "=" s = true ->
  exists k v, PyStr.splitn "=" 1 s = [k; v] /\ s = k +:+ "=" +:+ v
              /\ PyStr.contains "=" k = false.
Proof. intros H. apply (split_from_eq_sign s "" H). Qed.

Lemma splitn_key_value k v :
  PyStr.contains "=" k = false -> PyStr.splitn "=" 1 (k +:+ "=" +:+ v) = [k; v].
Proof.
  intros Hk.
  assert (Hc : PyStr.contains "=" (k +:+ "=" +:+ v) = true).
  { rewrite contains_char, all_chars_app. cbn. rewrite andb_false_r. reflexivity. }
  destruct (splitn_eq_sign _ Hc) as [k' [v' [Hs [He Hk']]]]. rewrite Hs.
  assert (E : k = k' /\ v = v'); [|now destruct E as [-> ->]].
  clear Hs Hc. revert k' He Hk'. induction k as [|c k IH]; intros k' He Hk'.
  - destruct k' as [|c' k']; rewrite ?append_cons, ?append_nil_l in He.
    + injection He as ->. now split.
    + injection He as <- _. cbn [PyStr.contains] in Hk'.
      rewrite startswith_char in Hk'. cbn in Hk'. discriminate.
  - destruct k' as [|c' k']; rewrite ?append_cons, ?append_nil_l in He.
    + injection He as -> _. cbn [PyStr.contains] in Hk.
      rewrite startswith_char in Hk. cbn in Hk. discriminate.
    + injection He as <- He.
      apply contains_false_inv in Hk as [_ Hk]. apply contains_false_inv in Hk' as [_ Hk'].
      destruct (IH Hk k' He Hk') as [-> ->]. now split.
Qed.

(** A setting line sets the trimmed key to the trimmed value. *)
Lemma config_line_setting config a b :
  well_formed (Setting a b) ->
  AskMe.config_line config (a +:+ "=" +:+ b)
  = <[PyStr.strip a := PyStr.strip b]> config.
Proof.
  intros [Ha Hc]. unfold AskMe.config_line. cbv zeta.
  rewrite strip_around_eq_sign.
  assert (Hk : PyStr.contains "=" (PyStr.lstrip a) = false).
  { apply no_eq_sign, all_chars_lstrip, no_eq_sign, Ha. }
  assert (E1 : String.eqb (PyStr.lstrip a +:+ "=" +:+ PyStr.rstrip b) "" = false).
  { destruct (PyStr.lstrip a); reflexivity. }
  assert (E2 : PyStr.startswith "#" (PyStr.lstrip a +:+ "=" +:+ PyStr.rstrip b) = false).
  { destruct (PyStr.lstrip a) as [|c w]; [reflexivity|].
    rewrite (append_cons c w). rewrite startswith_char in *. exact Hc. }
  assert (E3 : PyStr.contains "=" (PyStr.lstrip a +:+ "=" +:+ PyStr.rstrip b) = true).
  { rewrite contains_char, all_chars_app. cbn. rewrite andb_false_r. reflexivity. }
  rewrite E1, E2, E3. cbn [negb andb].
  rewrite splitn_key_value by exact Hk.
  now rewrite strip_lstrip, strip_rstrip.
Qed.

(** A contains test sees through trimming. *)
Lemma no_eq_sign_strip s :
  PyStr.contains "=" s = false -> PyStr.contains "=" (PyStr.strip s) = false.
Proof. intros H. apply no_eq_sign, all_chars_strip, no_eq_sign, H. Qed.

Lemma config_line_other config t :
  well_formed (Other t) -> AskMe.config_line config t = config.
Proof.
  intros H. unfold AskMe.config_line. cbv zeta.
  destruct H as [H|[H|H]].
  - rewrite H. reflexivity.
  - rewrite H. now rewrite andb_false_r.
  - rewrite (no_eq_sign_strip t H). now destruct (_ && _).
Qed.

Lemma foldl_insert_settings (kvs : list (string * string)) (m : gmap string string) :
  foldl (fun m kv => <[kv.1 := kv.2]> m) m kvs
  = list_to_map (reverse kvs) ∪ m.
Proof.
  revert m. induction kvs as [|[k v] kvs IH]; intros m; cbn [foldl].
  - cbn. now rewrite (left_id_L ∅ (∪)).
  - rewrite IH, reverse_cons, list_to_map_app. cbn [list_to_map foldr fst snd].
    rewrite insert_empty, (insert_union_singleton_l m).
    now rewrite (assoc_L (∪)).
Qed.

Lemma load_lines ls config :
  Forall well_formed ls ->
  foldl AskMe.config_line config (line_text <$> ls)
  = foldl (fun m kv => <[kv.1 := kv.2]> m) config (settings_of ls).
Proof.
  intros H. revert config. induction H as [|l ls Hl _ IH]; intros config; [reflexivity|].
  cbn [fmap list_fmap foldl]. destruct l as [a b|t]; cbn [line_text settings_of foldl].
  - rewrite config_line_setting by exact Hl. apply IH.
  - rewrite config_line_other by exact Hl. apply IH.
Qed.

(** Every line is of one of the two kinds. *)
Lemma every_line_is_well_formed line :
  exists l, line_text l = line /\ well_formed l.
Proof.
  destruct (PyStr.contains "=" line) eqn:E.
  - destruct (splitn_eq_sign line E) as [a [b [_ [-> Ha]]]].
    destruct (PyStr.startswith "#" (PyStr.lstrip a)) eqn:Hc.
    + exists (Other (a +:+ "=" +:+ b)). split; [reflexivity|].
      right; left. rewrite strip_around_eq_sign.
      destruct (PyStr.lstrip a) as [|c w]; [discriminate Hc|].
      rewrite (append_cons c w). rewrite startswith_char in *. exact Hc.
    + exists (Setting a b). split; [reflexivity|]. split; assumption.
  - exists (Other line). split; [reflexivity|]. right; right. exact E.
Qed.

(** X7.  [load_config] reads the file line by line.  A line
    [key=value] whose key part holds no [=] and does not begin, after
    white space, with [#] sets the trimmed key to the trimmed value; the
    value may hold [=] itself.  A blank line, a comment line and a line
    without [=] change nothing.  A later setting of a key replaces an
    earlier one.  Every line is of one of these kinds.  White space and
    trimming are those of [str.strip]: a no-break space is trimmed as a
    blank is. *)
Theorem load_config_reads_the_settings :
  (forall ls,
     Forall well_formed ls ->
     AskMe.load_config (Some (line_text <$> ls)) = list_to_map (reverse (settings_of ls)))
  /\ (forall line, exists l, line_text l = line /\ well_formed l).
Proof.
  split; [|exact every_line_is_well_formed].
  intros ls H. unfold AskMe.load_config. rewrite load_lines by exact H.
  rewrite foldl_insert_settings. apply (right_id_L ∅ (∪)).
Qed.

Lemma load_config_reads_the_settings_witness :
  AskMe.load_config (Some settings_file)
  = list_to_map [("api_timeout", "45"); ("region", "eu"); ("use_mock_responses", "false")].
Proof.
  apply (proj1 load_config_reads_the_settings settings_lines).
  repeat apply Forall_cons_2; try apply Forall_nil_2.
  - right; left; reflexivity.
  - split; reflexivity.
  - left; reflexivity.
  - split; reflexivity.
  - split; reflexivity.
  - right; left; reflexivity.
  - right; right; reflexivity.
Defined.

Lemma setting_is_trimmed a b :
  well_formed (Setting a b) -> trimmed_entry (PyStr.strip a) (PyStr.strip b).
Proof.
  intros [Ha Hc]. split; [apply strip_idem|]. split; [apply strip_idem|].
  split; [apply no_eq_sign_strip, Ha|].
  destruct (strip_prefix_lstrip a) as [q E]. rewrite E in Hc.
  destruct (PyStr.strip a) as [|c t]; [reflexivity|].
  rewrite append_cons in Hc. rewrite startswith_char in *. exact Hc.
Qed.

Lemma config_line_trimmed config line :
  (forall k v, config !! k = Some v -> trimmed_entry k v) ->
  forall k v, AskMe.config_line config line !! k = Some v -> trimmed_entry k v.
Proof.
  intros Hm k v.
  destruct (every_line_is_well_formed line) as [[a b|t] [<- Hl]]; cbn [line_text].
  - rewrite config_line_setting by exact Hl.
    destruct (decide (k = PyStr.strip a)) as [->|Hne].
    + rewrite lookup_insert_eq. intros [= <-]. apply setting_is_trimmed, Hl.
    + rewrite lookup_insert_ne by congruence. apply Hm.
  - rewrite config_line_other by exact Hl. apply Hm.
Qed.

(** X8.  Every key and every value of the configuration that
    [load_config] returns is trimmed: [str.strip], which takes away the
    white space of ASCII and of Unicode at both ends, leaves it as it is;
    no key holds [=] and no key begins with [#]. *)
Theorem loaded_settings_are_trimmed file k v :
  AskMe.load_config file !! k = Some v ->
  PyStr.strip k = k /\ PyStr.strip v = v
  /\ PyStr.contains "=" k = false /\ PyStr.startswith "#" k = false.
Proof.
  destruct file as [lines|]; cbn [AskMe.load_config]; [|rewrite lookup_empty; discriminate].
  assert (H : forall config,
            (forall k v, config !! k = Some v -> trimmed_entry k v) ->
            forall k v, foldl AskMe.config_line config lines !! k = Some v -> trimmed_entry k v).
  { induction lines as [|l lines IH]; intros config Hc; [exact Hc|].
    cbn [foldl]. apply IH. apply config_line_trimmed, Hc. }
  apply H. intros k' v'. rewrite lookup_empty. discriminate.
Qed.

Lemma loaded_settings_are_trimmed_witness :
  PyStr.strip "api_timeout" = "api_timeout" /\ PyStr.strip "45" = "45"
  /\ PyStr.contains "=" "api_timeout" = false /\ PyStr.startswith "#" "api_timeout" = false.
Proof.
  apply (loaded_settings_are_trimmed (Some settings_file) "api_timeout" "45").
  vm_compute. reflexivity.
Defined.

(** ** The handler of the function *)

Lemma run_bind_ret {A B : Type} (p : Py.Prog A) (f : A -> B) w b tr w' :
  Py.run (Py.bind p (fun a => Py.Ret (f a))) w = Some (b, tr, w') ->
  exists a, Py.run p w = Some (a, tr, w') /\ b = f a.
Proof.
  rewrite run_bind. destruct (Py.run p w) as [[[a tr0] w0]|]; [|discriminate].
  cbn. rewrite app_nil_r. intros [= <- <- <-]. now exists a.
Qed.

(** The payload can be read exactly when it has an action. *)
Lemma readable_action payload :
  readable (Py.JObj payload)
  = match Replica.action_of payload with
    | Some _ => true
    | None => false
    end.
Proof.
  unfold readable, Replica.action_of.
  destruct (Py.jget "action" payload) as [[|b|n|s|l|m]|]; try reflexivity;
    now destruct (Py.truthy _).
Qed.

(** The download action raises only on metadata that is no object, after
    one reading of the bucket. *)
Lemma download_raised lib cfg id w details tr w' :
  Py.run (Replica.process_download lib cfg id) w
  = Some (Replica.DownloadRaised details, tr, w') ->
  exists kind,
    Py.bucket w !! Replica.meta_key id = Some (Py.JsonOther kind)
    /\ details = Replica.no_get kind
    /\ tr = [Py.EvGet (Replica.meta_key id)] /\ w' = w.
Proof.
  unfold Replica.process_download. rewrite not_configured_test.
  destruct (Replica.storage_configured cfg) eqn:Hc; cbn [negb Py.run]; [|discriminate].
  destruct (Py.faulty w (Replica.meta_key id)); [discriminate|].
  destruct (Py.bucket w !! Replica.meta_key id) as [[meta|kind|bytes]|];
    [| | discriminate | discriminate].
  - unfold Replica.put_object, Replica.answer_download, Replica.get_presigned.
    rewrite Hc. intros H. exfalso.
    destruct (Replica.status_is "pending" meta).
    + rewrite mark_ready_is_ready in H. cbn in H.
      repeat match type of H with
             | context [if ?c then _ else _] => destruct c; cbn in H
             end; discriminate H.
    + destruct (Replica.status_is "ready" meta); cbn in H; discriminate H.
  - cbn. intros [= <- <- <-]. now exists kind.
Qed.

Lemma download_of_other lib cfg id w kind :
  Replica.storage_configured cfg = true ->
  Py.faulty w (Replica.meta_key id) = false ->
  Py.bucket w !! Replica.meta_key id = Some (Py.JsonOther kind) ->
  Py.run (Replica.process_download lib cfg id) w
  = Some (Replica.DownloadRaised (Replica.no_get kind), [Py.EvGet (Replica.meta_key id)], w).
Proof.
  intros Hc Hf Hm. unfold Replica.process_download. rewrite not_configured_test, Hc.
  cbn [negb Py.run]. now rewrite Hf, Hm.
Qed.

(** The part of the handler that follows the reading of the action. *)
Lemma handler_dispatch lib cfg payload action w out tr w' :
  Py.run
    (let session_id := Replica.session_of payload in
     if String.eqb action "chat" then
       let invalid :=
         Py.Ret (Replica.Answered 400
                   (Replica.Failure "missing or invalid 'prompt'" session_id)) in
       match Py.jget "prompt" payload with
       | Some (Py.JStr prompt) =>
           if String.eqb prompt "" then invalid
           else
             let* result := Replica.process_chat lib cfg prompt in
             Py.Ret (Replica.Answered 200 (Replica.ChatBody session_id prompt result))
       | _ => invalid
       end
     else if String.eqb action "download" then
       let missing :=
         Py.Ret (Replica.Answered 400 (Replica.Failure "missing artifactId" session_id)) in
       match Py.jget "artifactId" payload with
       | Some artifact_id =>
           if Py.truthy artifact_id then
             let* result := Replica.process_download lib cfg (Replica.id_text lib artifact_id) in
             match result with
             | Replica.NotConfigured | Replica.MetadataNotFound =>
                 Py.Ret (Replica.Answered 404 (Replica.DownloadFailure result session_id))
             | Replica.DownloadRaised details =>
                 Py.Ret (Replica.Answered 500 (Replica.InternalError details session_id))
             | Replica.ArtifactReady _ _ | Replica.NotReadyYet _ =>
                 Py.Ret (Replica.Answered 200 (Replica.DownloadBody session_id result))
             end
           else missing
       | None => missing
       end
     else
       Py.Ret (Replica.Answered 400
                 (Replica.Failure ("unsupported action '" +:+ action +:+ "'") session_id)))
    w = Some (out, tr, w') ->
  (rejected out /\ tr = [] /\ w' = w) \/ served out
  \/ (failed out
      /\ exists id kind,
           action = "download" /\ Py.jget "artifactId" payload = Some id
           /\ Py.truthy id = true
           /\ Py.bucket w !! Replica.meta_key (Replica.id_text lib id)
              = Some (Py.JsonOther kind)
           /\ out = Replica.Answered 500
                      (Replica.InternalError (Replica.no_get kind)
                         (Replica.session_of payload))
           /\ tr = [Py.EvGet (Replica.meta_key (Replica.id_text lib id))] /\ w' = w).
Proof.
  cbv zeta.
  set (goal := (rejected out /\ tr = [] /\ w' = w) \/ served out \/ _).
  assert (Hrej : forall txt sid,
            Py.run (Py.Ret (Replica.Answered 400 (Replica.Failure txt sid))) w
            = Some (out, tr, w') -> goal).
  { intros txt sid [= <- <- <-]. left. repeat split. }
  destruct (String.eqb action "chat").
  - destruct (Py.jget "prompt" payload) as [[| | |prompt| |]|]; try apply Hrej.
    destruct (String.eqb prompt ""); [apply Hrej|].
    intros H. apply run_bind_ret in H as [result [_ ->]]. right; left. reflexivity.
  - destruct (String.eqb action "download") eqn:Ea; [|apply Hrej].
    apply String.eqb_eq in Ea.
    destruct (Py.jget "artifactId" payload) as [artifact_id|]; [|apply Hrej].
    destruct (Py.truthy artifact_id) eqn:Et; [|apply Hrej].
    rewrite run_bind.
    destruct (Py.run _ w) as [[[result tr0] w0]|] eqn:Hd; [|discriminate].
    destruct result as [| | | |details]; cbn; intros [= <- <- <-];
      try (right; left; reflexivity).
    apply download_raised in Hd as (kind & Hm & -> & -> & ->).
    right; right. split; [reflexivity|].
    exists artifact_id, kind. now rewrite app_nil_r.
Qed.

(** X9.  The handler of [func_replica.py].  A payload that is no JSON
    object, or whose [action] is a true value that is no string, makes the
    handler raise before it calls anything.  On every other payload it
    answers: with status 400 and without any call (missing or invalid
    prompt, missing artifact id, unsupported action), with status 200 and
    the result of the chat or of the download, with status 404 when the
    download reports that storage is not configured or that the metadata
    was not found, or with status 500 and [internal error].  It answers
    500 exactly on a download whose stored metadata is JSON text of a
    value that is no object: the details then are the text of the
    [AttributeError], the bucket was read once and nothing was written.
    An absent or undecodable body counts as an empty object: the answer is
    400, [missing or invalid 'prompt'], for the session [default]. *)
Theorem handler_outcomes lib cfg loads data w out tr w' :
  Py.run (Replica.handler lib cfg loads data) w = Some (out, tr, w') ->
  (readable (Replica.parse_body loads data) = false ->
   out = Replica.Raised /\ tr = [] /\ w' = w)
  /\ (readable (Replica.parse_body loads data) = true ->
      (rejected out /\ tr = [] /\ w' = w) \/ served out \/ failed out)
  /\ (data = None \/ (exists raw, data = Some raw /\ loads raw = None) ->
      out = Replica.Answered 400
              (Replica.Failure "missing or invalid 'prompt'" (Py.JStr "default"))
      /\ tr = [] /\ w' = w)
  /\ (forall id kind,
        asks_download (Replica.parse_body loads data) id ->
        Replica.storage_configured cfg = true ->
        Py.faulty w (Replica.meta_key (Replica.id_text lib id)) = false ->
        Py.bucket w !! Replica.meta_key (Replica.id_text lib id)
        = Some (Py.JsonOther kind) ->
        out = Replica.Answered 500
                (Replica.InternalError (Replica.no_get kind)
                   (session_named (Replica.parse_body loads data)))
        /\ tr = [Py.EvGet (Replica.meta_key (Replica.id_text lib id))] /\ w' = w)
  /\ (failed out ->
      exists id kind,
        asks_download (Replica.parse_body loads data) id
        /\ Py.bucket w !! Replica.meta_key (Replica.id_text lib id)
           = Some (Py.JsonOther kind)
        /\ out = Replica.Answered 500
                   (Replica.InternalError (Replica.no_get kind)
                      (session_named (Replica.parse_body loads data)))
        /\ tr = [Py.EvGet (Replica.meta_key (Replica.id_text lib id))] /\ w' = w).
Proof.
  intros Hrun.
  assert (Hobj : forall payload action,
            Replica.parse_body loads data = Py.JObj payload ->
            Replica.action_of payload = Some action ->
            (rejected out /\ tr = [] /\ w' = w) \/ served out
            \/ (failed out
                /\ exists id kind,
                     action = "download" /\ Py.jget "artifactId" payload = Some id
                     /\ Py.truthy id = true
                     /\ Py.bucket w !! Replica.meta_key (Replica.id_text lib id)
                        = Some (Py.JsonOther kind)
                     /\ out = Replica.Answered 500
                                (Replica.InternalError (Replica.no_get kind)
                                   (Replica.session_of payload))
                     /\ tr = [Py.EvGet (Replica.meta_key (Replica.id_text lib id))]
                     /\ w' = w)).
  { intros payload action He Ha. revert Hrun. unfold Replica.handler.
    rewrite He, Ha. apply handler_dispatch. }
  assert (Hraise : readable (Replica.parse_body loads data) = false ->
                   out = Replica.Raised /\ tr = [] /\ w' = w).
  { revert Hrun. unfold Replica.handler.
    destruct (Replica.parse_body loads data) as [| | | | |payload];
      try (cbn; intros [= <- <- <-]; auto).
    rewrite readable_action.
    destruct (Replica.action_of payload); [discriminate|].
    intros [= <- <- <-]; auto. }
  split; [exact Hraise|]. split; [|split; [|split]].
  - destruct (Replica.parse_body loads data) as [| | | | |payload] eqn:He;
      try discriminate.
    rewrite readable_action.
    destruct (Replica.action_of payload) as [action|] eqn:Ha; [|discriminate].
    intros _. destruct (Hobj payload action eq_refl Ha) as [H|[H|[H _]]]; auto.
  - intros Hd.
    assert (He : Replica.parse_body loads data = Py.JObj []).
    { destruct Hd as [->|[raw [-> Hl]]]; [reflexivity|]. cbn. now rewrite Hl. }
    revert Hrun. unfold Replica.handler. rewrite He. cbn.
    intros [= <- <- <-]. repeat split.
  - intros id kind (members & He & Ha & Hid & Ht) Hc Hf Hm.
    revert Hrun. unfold Replica.handler. rewrite He, Ha. cbv zeta.
    change (String.eqb "download" "chat") with false.
    change (String.eqb "download" "download") with true. cbv iota.
    rewrite Hid, Ht, run_bind, (download_of_other lib cfg _ w kind Hc Hf Hm).
    cbn. intros [= <- <- <-]. repeat split.
  - intros Hfail.
    destruct (Replica.parse_body loads data) as [| | | | |payload] eqn:He;
      try (destruct (Hraise eq_refl) as [-> _]; destruct Hfail).
    destruct (Replica.action_of payload) as [action|] eqn:Ha.
    + destruct (Hobj payload action eq_refl Ha)
        as [[H _]|[H|[_ (id & kind & -> & Hid & Ht & Hm & Ho & Htr & Hw)]]].
      * destruct out as [status [| | | |]|]; cbn in *; contradiction.
      * destruct out as [status [|? ?| | |? [| | | |]]|]; cbn in *; contradiction.
      * exists id, kind. split; [|auto]. exists payload. auto.
    + assert (Hr : readable (Py.JObj payload) = false) by now rewrite readable_action, Ha.
      destruct (Hraise Hr) as [-> _]. destruct Hfail.
Qed.

Lemma handler_outcomes_witness :
  exists out tr w',
    Py.run (Replica.handler rlib0 storage_config loads_artifact (Some "{...}")) listed_world
    = Some (out, tr, w')
    /\ out = Replica.Answered 500
               (Replica.InternalError "'list' object has no attribute 'get'" (Py.JStr "s1"))
    /\ tr = [Py.EvGet "artifact/e1.json"] /\ w' = listed_world.
Proof.
  assert (Hrun : Py.run (Replica.handler rlib0 storage_config loads_artifact (Some "{...}"))
                   listed_world
                 = Some (Replica.Answered 500
                           (Replica.InternalError "'list' object has no attribute 'get'"
                              (Py.JStr "s1")),
                         [Py.EvGet "artifact/e1.json"], listed_world)) by reflexivity.
  eexists _, _, _. split; [exact Hrun|].
  destruct (handler_outcomes rlib0 storage_config loads_artifact (Some "{...}")
              listed_world _ _ _ Hrun) as (_ & _ & _ & H & _).
  apply (H (Py.JStr "e1") Py.ListValue); [|reflexivity|reflexivity|reflexivity].
  eexists. repeat split; reflexivity.
Defined.

(** ** An export and its download in the function *)





(** ** The status loop of the Reports server *)

Lemma poll_status_step lib live n rq o rest b flt ps :
  in_progress o ->
  Py.run (Rcoe.poll_status lib live (S n) rq) (Py.mkWorld (Py.AnsHttp o :: rest) b flt ps)
  = match Py.run (Rcoe.poll_status lib live n rq) (Py.mkWorld rest b flt ps) with
    | Some (a, tr, w') => Some (a, Py.EvHttp rq o :: Py.EvSleep 2 :: tr, w')
    | None => None
    end.
Proof.
  intros H. destruct o as [r| |]; try contradiction.
  destruct H as [Hs [d [Hd Hst]]]. apply Z.eqb_eq in Hs.
  cbn [Rcoe.poll_status Py.run Py.answers Py.with_answers Py.bucket Py.faulty Py.presigned_url].
  rewrite Hs, Hd.
  destruct (Py.jget "status" d) as [[| | |status| |]|];
    cbn [Py.run Rcoe.poll_interval];
    try (destruct (Py.run _ _) as [[[a tr] w']|]; reflexivity).
  destruct Hst as [H1 H2]. apply String.eqb_neq in H1, H2. rewrite H1, H2.
  cbn [Py.run Rcoe.poll_interval]. destruct (Py.run _ _) as [[[a tr] w']|]; reflexivity.
Qed.

Lemma poll_status_completed lib live n rq o rest b flt ps :
  completed o ->
  Py.run (Rcoe.poll_status lib live (S n) rq) (Py.mkWorld (Py.AnsHttp o :: rest) b flt ps)
  = Some (inr tt, [Py.EvHttp rq o], Py.mkWorld rest b flt ps).
Proof.
  intros H. destruct o as [r| |]; try contradiction.
  destruct H as [Hs [d [Hd Hst]]]. apply Z.eqb_eq in Hs.
  cbn [Rcoe.poll_status Py.run Py.answers Py.with_answers Py.bucket Py.faulty Py.presigned_url].
  rewrite Hs, Hd, Hst. reflexivity.
Qed.

Lemma polls_complete lib live rq outs : forall n done rest b flt ps,
  Forall in_progress outs -> (length outs < n)%nat -> completed done ->
  Py.run (Rcoe.poll_status lib live n rq)
    (Py.mkWorld ((Py.AnsHttp <$> outs ++ [done]) ++ rest) b flt ps)
  = Some (inr tt, polls_trace rq outs ++ [Py.EvHttp rq done], Py.mkWorld rest b flt ps).
Proof.
  induction outs as [|o outs IH]; intros n done rest b flt ps Hf Hlen Hd.
  - destruct n as [|n]; [cbn in Hlen; lia|]. apply poll_status_completed, Hd.
  - apply Forall_cons in Hf as [Ho Hf]. destruct n as [|n]; [cbn in Hlen; lia|].
    cbn [app fmap list_fmap]. rewrite poll_status_step by exact Ho.
    fold (fmap (M:=list) Py.AnsHttp (outs ++ [done])).
    rewrite IH; [reflexivity | exact Hf | cbn in Hlen; lia | exact Hd].
Qed.

Lemma polls_time_out lib live rq outs : forall rest b flt ps,
  Forall in_progress outs ->
  Py.run (Rcoe.poll_status lib live (length outs) rq)
    (Py.mkWorld ((Py.AnsHttp <$> outs) ++ rest) b flt ps)
  = Some (inl "Reports export timeout.", polls_trace rq outs, Py.mkWorld rest b flt ps).
Proof.
  induction outs as [|o outs IH]; intros rest b flt ps Hf; [reflexivity|].
  apply Forall_cons in Hf as [Ho Hf].
  cbn [app fmap list_fmap length]. rewrite poll_status_step by exact Ho.
  fold (fmap (M:=list) Py.AnsHttp outs). rewrite IH by exact Hf. reflexivity.
Qed.

Lemma poll_status_costs lib live n rq : costs (Rcoe.poll_status lib live n rq) n any_result.
Proof.
  induction n as [|n IH]; [exact I|].
  cbn [Rcoe.poll_status costs]. intros o.
  repeat match goal with
         | |- costs (Py.Ret _) _ _ => exact I
         | |- costs (Py.Sleep _ _) _ _ => cbn [costs]; exact IH
         | |- costs (match ?x with _ => _ end) _ _ => destruct x
         | |- costs (if ?b then _ else _) _ _ => destruct b
         end.
Qed.

(** X11.  The status loop of the Reports server of
    [mcp_servers/advisors.py] polls at most 30 times.  When fewer than 30
    polls see the export running and the next sees it completed, the loop
    ends there, having slept two seconds after every poll but the last;
    when 30 polls see it running, the server answers
    [Reports export timeout.] after 30 polls and 30 sleeps.  A run of the
    loop makes at most 30 HTTP requests, a run of the whole export at most
    32. *)
Theorem status_polling_is_bounded lib live rq rest b flt ps :
  (forall outs done,
     Forall in_progress outs -> (length outs < 30)%nat -> completed done ->
     Py.run (Rcoe.poll_status lib live Rcoe.max_polls rq)
       (Py.mkWorld ((Py.AnsHttp <$> outs ++ [done]) ++ rest) b flt ps)
     = Some (inr tt, polls_trace rq outs ++ [Py.EvHttp rq done], Py.mkWorld rest b flt ps))
  /\ (forall outs,
        Forall in_progress outs -> length outs = 30%nat ->
        Py.run (Rcoe.poll_status lib live Rcoe.max_polls rq)
          (Py.mkWorld ((Py.AnsHttp <$> outs) ++ rest) b flt ps)
        = Some (inl "Reports export timeout.", polls_trace rq outs, Py.mkWorld rest b flt ps))
  /\ (forall w res tr w',
        Py.run (Rcoe.poll_status lib live Rcoe.max_polls rq) w = Some (res, tr, w') ->
        (http_calls tr <= 30)%nat)
  /\ (forall url user pass w res tr w',
        Py.run (Rcoe.reports_export lib live url user pass) w = Some (res, tr, w') ->
        (http_calls tr <= 32)%nat).
Proof.
  split; [|split; [|split]].
  - intros outs done Hf Hlen Hd. apply polls_complete; assumption.
  - intros outs Hf Hlen. unfold Rcoe.max_polls. rewrite <- Hlen.
    apply polls_time_out, Hf.
  - intros w res tr w' H.
    apply (costs_sound _ 30 any_result _ _ _ _ (poll_status_costs lib live 30 rq) H).
  - intros url user pass w res tr w' H.
    refine (proj1 (costs_sound _ 32 any_result _ _ _ _ _ H)).
    unfold Rcoe.reports_export. cbv zeta. cbn [costs]. intros o.
    repeat match goal with
           | |- costs (Py.Ret _) _ _ => exact I
           | |- costs (match ?x with _ => _ end) _ _ => destruct x
           | |- costs (if ?b then _ else _) _ _ => destruct b
           end.
    all: apply (costs_bind _ _ 30 1 any_result any_result); [apply poll_status_costs|].
    all: intros [text|[]] _; [exact I|].
    all: unfold Rcoe.download_export; cbn [costs]; intros o';
      repeat match goal with
             | |- costs (Py.Ret _) _ _ => exact I
             | |- costs (match ?x with _ => _ end) _ _ => destruct x
             | |- costs (if ?b then _ else _) _ _ => destruct b
             end.
Qed.

Lemma status_polling_is_bounded_witness :
  Py.run (Rcoe.poll_status lib0 live0 Rcoe.max_polls download_request)
    (answering [Py.AnsHttp (Py.Responded (status_response "RUNNING"));
                Py.AnsHttp (Py.Responded (status_response "COMPLETED"))])
  = Some (inr tt,
          [Py.EvHttp download_request (Py.Responded (status_response "RUNNING"));
           Py.EvSleep 2;
           Py.EvHttp download_request (Py.Responded (status_response "COMPLETED"))],
          quiet_world).
Proof.
  destruct (status_polling_is_bounded lib0 live0 download_request [] ∅ (fun _ => false)
              (fun _ => None)) as [H _].
  apply (H [Py.Responded (status_response "RUNNING")]
           (Py.Responded (status_response "COMPLETED"))).
  - repeat constructor. eexists. split; [reflexivity|]. split; discriminate.
  - cbn. lia.
  - split; [reflexivity|]. eexists. split; reflexivity.
Defined.

Lemma http_calls_app tr1 tr2 : http_calls (tr1 ++ tr2) = (http_calls tr1 + http_calls tr2)%nat.
Proof. unfold http_calls. now rewrite List.filter_app, length_app. Qed.

Lemma http_calls_polls rq outs : http_calls (polls_trace rq outs) = length outs.
Proof.
  induction outs as [|o outs IH]; [reflexivity|].
  change (polls_trace rq (o :: outs))
    with (Py.EvHttp rq o :: Py.EvSleep 2 :: polls_trace rq outs).
  rewrite !http_calls_cons, IH. reflexivity.
Qed.

(** X12.  The Reports server of [mcp_servers/advisors.py] in live mode:
    when the export request is answered with status 202 and an export id,
    fewer than 30 status polls see the export running, the next sees it
    completed, and the download is answered with status 200, the server
    returns [REPORT_DOWNLOAD:Reports:PDF:] followed by the Base64 text of
    the downloaded body.  When n polls saw the export running, the run
    made n + 3 HTTP requests. *)
Theorem completed_export_is_returned lib live reports_url user pass
    accepted export_data export_id outs done file rest b flt ps :
  Py.status_code accepted = 202%Z ->
  Py.json_body accepted = inr (Py.JObj export_data) ->
  Py.jget "exportId" export_data = Some (Py.JStr export_id) -> export_id <> "" ->
  Forall in_progress outs -> (length outs < 30)%nat -> completed done ->
  Py.status_code file = 200%Z ->
  exists tr,
    Py.run (Rcoe.reports_export lib live reports_url user pass)
      (Py.mkWorld (Py.AnsHttp (Py.Responded accepted)
                   :: (Py.AnsHttp <$> outs ++ [done])
                   ++ Py.AnsHttp (Py.Responded file) :: rest) b flt ps)
    = Some (report_marker (Py.text file), tr, Py.mkWorld rest b flt ps)
    /\ http_calls tr = (length outs + 3)%nat.
Proof.
  intros Hs Hj He Hne Hf Hlen Hd Hfile.
  apply Z.eqb_eq in Hs, Hfile. apply String.eqb_neq in Hne.
  unfold Rcoe.reports_export. cbv zeta.
  cbn [Py.run Py.answers Py.with_answers Py.bucket Py.faulty Py.presigned_url].
  rewrite Hs, Hj, He. cbn [Py.truthy]. rewrite Hne. cbn [negb].
  rewrite run_bind.
  rewrite (polls_complete lib live _ outs Rcoe.max_polls done
             (Py.AnsHttp (Py.Responded file) :: rest) b flt ps Hf Hlen Hd).
  cbn [then_run]. unfold Rcoe.download_export.
  cbn [Py.run Py.answers Py.with_answers Py.bucket Py.faulty Py.presigned_url].
  rewrite Hfile. eexists. split; [reflexivity|].
  rewrite http_calls_cons, !http_calls_app, http_calls_polls. cbn. lia.
Qed.

Lemma completed_export_is_returned_witness :
  exists tr,
    Py.run (Rcoe.reports_export lib0 live0 "https://oac.example" "analyst" "secret")
      (answering
         [Py.AnsHttp (Py.Responded
                        (Py.mkResponse 202 "" (inr (Py.JObj [("exportId", Py.JStr "42")]))));
          Py.AnsHttp (Py.Responded (status_response "RUNNING"));
          Py.AnsHttp (Py.Responded (status_response "COMPLETED"));
          Py.AnsHttp (Py.Responded (plain_response 200 "%PDF-1.4"))])
    = Some ("REPORT_DOWNLOAD:Reports:PDF:JVBERi0xLjQ=", tr, quiet_world)
    /\ http_calls tr = 4%nat.
Proof.
  apply (completed_export_is_returned lib0 live0 "https://oac.example" "analyst" "secret"
           (Py.mkResponse 202 "" (inr (Py.JObj [("exportId", Py.JStr "42")])))
           [("exportId", Py.JStr "42")] "42"
           [Py.Responded (status_response "RUNNING")]
           (Py.Responded (status_response "COMPLETED"))
           (plain_response 200 "%PDF-1.4") [] ∅ (fun _ => false) (fun _ => None)).
  - reflexivity.
  - reflexivity.
  - reflexivity.
  - discriminate.
  - repeat constructor. eexists. split; [reflexivity|]. split; discriminate.
  - cbn. lia.
  - split; [reflexivity|]. eexists. split; reflexivity.
  - reflexivity.
Defined.

(** ** The registry and the routing of the MCP application *)

Lemma initial_servers_keys lib live servers :
  five_servers lib live servers ->
  fst <$> servers = AskMe.valid_intents
  /\ Forall (fun kv => Rcoe.is_registered kv.2 = true /\ Rcoe.name kv.2 = kv.1) servers
  /\ exists g, Py.assoc "general" servers = Some g
               /\ exists f, Rcoe.handle_request g = Rcoe.general_handle_request live f.
Proof.
  intros [to_int [config H]]. unfold Rcoe.initial_servers, Rcoe.new_fields in H.
  destruct (to_int _) as [n|]; cbn in H; [|discriminate].
  injection H as <-. split; [reflexivity|]. split.
  - repeat constructor.
  - eexists. split; [reflexivity|]. eexists. reflexivity.
Qed.

Lemma assoc_of_key {V} (l : list (string * V)) k :
  In k (fst <$> l) -> exists v, Py.assoc k l = Some v /\ In (k, v) l.
Proof.
  induction l as [|[k' v'] l IH]; intros H; [destruct H|].
  cbn [Py.assoc]. destruct (String.eqb k k') eqn:E.
  - apply String.eqb_eq in E. subst. exists v'. split; [reflexivity | now left].
  - destruct H as [H|H]; [cbn in H; subst; rewrite String.eqb_refl in E; discriminate|].
    destruct (IH H) as [v [Hv Hin]]. exists v. split; [exact Hv | now right].
Qed.

Lemma detect_intent_run app prompt w d tr w1 :
  Py.run (Rcoe.detect_intent_with_genai app prompt) w = Some (d, tr, w1) ->
  d = None \/ exists i, d = Some i /\ In i AskMe.valid_intents.
Proof.
  unfold Rcoe.detect_intent_with_genai. destruct (Rcoe.genai_client app); cbn.
  - destruct (Py.answers w) as [|[o|o|u|t0] rest]; try discriminate.
    destruct o as [s| |msg]; cbn; intros [= <- <- <-]; auto.
    destruct (AskMe.parse_intent s) as [i|] eqn:E; [right | now left].
    exists i. split; [reflexivity|]. apply (parse_intent_valid s i E).
  - intros [= <- <- <-]. now left.
Qed.

Lemma valid_intent_nonempty i d :
  In i AskMe.valid_intents -> d = Some i -> Py.nonempty d = Some i.
Proof.
  intros H ->. cbn in H. decompose [or] H; subst; try reflexivity. contradiction.
Qed.

Lemma labels_are_no_system i :
  In i AskMe.valid_intents -> Rcoe.advisor_label i <> "System".
Proof. intros H. cbn in H. decompose [or] H; subst; try discriminate. contradiction. Qed.

(** X13.  [RCOEGenAIAgents.py] registers five servers, under the keys
    general, finance, hr, orders and reports, each registered under its
    own name.  [route_to_mcp_server] then hands every query to exactly one
    of them, after the classification: the advisor of the result is never
    [System], and the calls of the run are those of the classification
    followed by those of that server.  Without a client of the generative
    service, and whenever the classifier gives no label, the query goes to
    the General server. *)
Theorem every_query_reaches_one_server lib live app prompt :
  five_servers lib live (Rcoe.mcp_servers app) ->
  (fst <$> Rcoe.mcp_servers app = ["general"; "finance"; "hr"; "orders"; "reports"]
   /\ Forall (fun kv => Rcoe.is_registered kv.2 = true /\ Rcoe.name kv.2 = kv.1)
        (Rcoe.mcp_servers app))
  /\ (forall w r tr w',
        Py.run (Rcoe.route_to_mcp_server app prompt) w = Some (r, tr, w') ->
        exists i server d tr1 w1 tr2,
          In (i, server) (Rcoe.mcp_servers app)
          /\ Rcoe.intent r = Some i /\ Rcoe.advisor r = Rcoe.advisor_label i
          /\ Rcoe.advisor r <> "System"
          /\ Py.run (Rcoe.detect_intent_with_genai app prompt) w = Some (d, tr1, w1)
          /\ Py.run (Rcoe.handle_request server prompt) w1 = Some (Rcoe.response r, tr2, w')
          /\ tr = tr1 ++ tr2)
  /\ (exists g,
        Py.assoc "general" (Rcoe.mcp_servers app) = Some g
        /\ (Rcoe.genai_client app = false ->
            Rcoe.route_to_mcp_server app prompt = general_route g prompt)
        /\ (Rcoe.genai_client app = true ->
            exists k,
              Rcoe.route_to_mcp_server app prompt
              = Py.Chat (Py.mkChat (Rcoe.classification_prompt prompt) 10) k
              /\ forall o, no_label o -> k o = general_route g prompt)).
Proof.
  intros Hfive. destruct (initial_servers_keys lib live _ Hfive) as [Hkeys [Hreg [g [Hg _]]]].
  split; [split; [exact Hkeys | exact Hreg]|]. split.
  - intros w r tr w' H. unfold Rcoe.route_to_mcp_server in H. rewrite run_bind in H.
    destruct (Py.run (Rcoe.detect_intent_with_genai app prompt) w) as [[[d tr1] w1]|] eqn:Hd;
      [|discriminate]. cbn [then_run] in H.
    set (i := match Py.nonempty d with Some i => i | None => "general" end) in H.
    assert (Hi : In i AskMe.valid_intents).
    { subst i. destruct (detect_intent_run _ _ _ _ _ _ Hd) as [->|[i [E Hi]]].
      - now left.
      - now rewrite (valid_intent_nonempty i d Hi E). }
    destruct (assoc_of_key (Rcoe.mcp_servers app) i) as [server [Hs Hin]].
    { rewrite Hkeys. exact Hi. }
    rewrite Hs, run_bind in H.
    destruct (Py.run (Rcoe.handle_request server prompt) w1) as [[[resp tr2] w2]|] eqn:Hh;
      [|discriminate].
    cbn in H. injection H as <- <- <-. rewrite app_nil_r.
    exists i, server, d, tr1, w1, tr2. cbn [Rcoe.intent Rcoe.advisor Rcoe.response].
    repeat split; try assumption. apply labels_are_no_system, Hi.
  - exists g. split; [exact Hg|]. split.
    + intros Hc. unfold Rcoe.route_to_mcp_server, Rcoe.detect_intent_with_genai.
      rewrite Hc. cbn [Py.bind Py.nonempty]. rewrite Hg. reflexivity.
    + intros Hc. unfold Rcoe.route_to_mcp_server, Rcoe.detect_intent_with_genai.
      rewrite Hc. cbn [Py.bind]. eexists. split; [reflexivity|].
      intros o Ho. destruct o as [s| |msg]; cbn [Py.bind Py.nonempty].
      * rewrite (askme_parse_intent_invalid s Ho).
        cbn [Py.nonempty]. rewrite Hg. reflexivity.
      * rewrite Hg. reflexivity.
      * rewrite Hg. reflexivity.
Qed.

Lemma every_query_reaches_one_server_witness :
  fst <$> Rcoe.mcp_servers rcoe_app = ["general"; "finance"; "hr"; "orders"; "reports"]
  /\ exists g,
       Py.assoc "general" (Rcoe.mcp_servers rcoe_app) = Some g
       /\ forall o, no_label o ->
            exists k,
              Rcoe.route_to_mcp_server rcoe_app "export the analytics dashboard"
              = Py.Chat (Py.mkChat (Rcoe.classification_prompt "export the analytics dashboard")
                           10) k
              /\ k o = general_route g "export the analytics dashboard".
Proof.
  destruct (every_query_reaches_one_server lib0 (Rcoe.with_code lib0 live0) rcoe_app
              "export the analytics dashboard")
    as [[Hk _] [_ (g & Hg & _ & Hon)]].
  - exists (fun _ => Some 30%Z), rcoe_settings. reflexivity.
  - split; [exact Hk|]. exists g. split; [exact Hg|].
    destruct (Hon eq_refl) as [k [Hr Hf]].
    intros o Ho. exists k. split; [exact Hr | exact (Hf o Ho)].
Defined.
